(** * rclone-utils: the rclone runner and the transfer progress parser

    A shallow embedding of [rclone_manager/core/rclone.py] (class
    [RcloneRunner]), of the handling of its output in
    [rclone_manager/gui/transfer_tab.py] (the callback [process_output]
    and the method [TransferTab._update_progress_metrics]), and of what
    the tabs show of a command and keep of the path of rclone
    ([transfer_tab.py], [mount_tab.py], [config_tab.py]).

    Conventions of the embedding:
    - a Python [str] is a [string]; only ASCII white space is white space;
    - a [dict] whose iteration order matters (the option mappings) is an
      association list in insertion order; the process table
      [_running_processes] is a [gmap];
    - code that can raise runs in a state-and-exception monad [M];
    - what the operating system, the clock and [float()] answer is taken as
      a parameter of the functions that ask;
    - a runner is shared between threads without a lock: where a property
      depends on it, a thread is taken one step at a time, and what the
      other threads do to the runner between its steps is a parameter. *)

From Stdlib Require Import ZArith String Ascii.
From stdpp Require Import base option list gmap strings pretty.

Local Open Scope string_scope.
Local Open Scope Z_scope.

(** ** Python string primitives *)

Module PyStr.

(** [c.isspace()] on the ASCII range: TAB..CR, FS..US and the blank. *)
Definition isspace (c : ascii) : bool :=
  let n := nat_of_ascii c in
  ((9 <=? n)%nat && (n <=? 13)%nat) || ((28 <=? n)%nat && (n <=? 32)%nat).

(** [c in chars] for a character. *)
Fixpoint mem (c : ascii) (chars : string) : bool :=
  match chars with
  | "" => false
  | String d chars' => Ascii.eqb c d || mem c chars'
  end.

Fixpoint lstrip_by (f : ascii -> bool) (s : string) : string :=
  match s with
  | "" => ""
  | String c s' => if f c then lstrip_by f s' else s
  end.

Fixpoint rstrip_by (f : ascii -> bool) (s : string) : string :=
  match s with
  | "" => ""
  | String c s' =>
      match rstrip_by f s' with
      | "" => if f c then "" else String c ""
      | r => String c r
      end
  end.

(** [s.strip()] and [s.rstrip(chars)]. *)
Definition strip (s : string) : string := rstrip_by isspace (lstrip_by isspace s).
Definition rstrip (chars s : string) : string := rstrip_by (fun c => mem c chars) s.

(** [s.startswith(p)]. *)
Definition startswith (p s : string) : bool := String.prefix p s.

(** [needle in hay]. *)
Fixpoint contains (needle hay : string) : bool :=
  String.prefix needle hay ||
  match hay with
  | "" => false
  | String _ hay' => contains needle hay'
  end.

(** [s.split(sep)] for a separator of one character: never empty. *)
Fixpoint split (sep : ascii) (s : string) : list string :=
  match s with
  | "" => [""]
  | String c s' =>
      if Ascii.eqb c sep then "" :: split sep s'
      else match split sep s' with
           | [] => [String c ""]
           | p :: ps => String c p :: ps
           end
  end.

(** [x in l] for a list of strings. *)
Definition elem (x : string) (l : list string) : bool :=
  bool_decide (x ∈ l).

End PyStr.

(** ** Values of an option mapping *)

(** The values the callers put into option dictionaries: [None], booleans,
    integers and strings. *)
Inductive pyval :=
| VNone
| VBool (b : bool)
| VInt (n : Z)
| VStr (s : string).

(** [str(value)]. *)
Definition py_str (v : pyval) : string :=
  match v with
  | VNone => "None"
  | VBool true => "True"
  | VBool false => "False"
  | VInt n => pretty n
  | VStr s => s
  end.

(** A [dict] of options, in insertion order. *)
Abbreviation options_dict := (list (string * pyval)).

(** One round of the loop
<<
    for key, value in options.items():
        if value is True:
            cmd.append(f"--{key}")
        elif value is not False and value is not None:
            cmd.append(f"--{key}")
            cmd.append(str(value))
>>
    [is] compares identities, so only the boolean [True] takes the first
    branch and only [False] and [None] are skipped. *)
Definition append_option (cmd : list string) (kv : string * pyval) : list string :=
  match kv.2 with
  | VBool true => cmd ++ ["--" +:+ kv.1]
  | VBool false | VNone => cmd
  | value => (cmd ++ ["--" +:+ kv.1]) ++ [py_str value]
  end.

Definition append_options (cmd : list string) (options : options_dict) : list string :=
  foldl append_option cmd options.

(** [if not options: options = {}]: the argument may be [None]. *)
Definition options_or_empty (options : option options_dict) : options_dict :=
  default [] options.

(** ** Exceptions, and the monad of code that can raise *)

(** A Python exception, as far as the code looks at it: whether it is a
    [subprocess.TimeoutExpired], and what [str(e)] gives.  ([BaseException]s
    that are not [Exception]s, such as [KeyboardInterrupt], are outside the
    model.) *)
Record exn := Exn { exn_timeout : bool; exn_str : string }.

Inductive result (A : Type) :=
| Return (a : A)
| Raise (e : exn).
Arguments Return {A} a.
Arguments Raise {A} e.

Definition M (S A : Type) : Type := S -> result A * S.

Section monad.
Context {S : Type}.

Definition ret {A} (a : A) : M S A := fun s => (Return a, s).

Definition raise {A} (e : exn) : M S A := fun s => (Raise e, s).

Definition bind {A B} (m : M S A) (k : A -> M S B) : M S B :=
  fun s =>
    match m s with
    | (Return a, s') => k a s'
    | (Raise e, s') => (Raise e, s')
    end.

(** [try: body  except Exception as e: handler(e)]. *)
Definition try_except {A} (body : M S A) (handler : exn -> M S A) : M S A :=
  fun s =>
    match body s with
    | (Return a, s') => (Return a, s')
    | (Raise e, s') => handler e s'
    end.

Definition get : M S S := fun s => (Return s, s).

Definition modify (f : S -> S) : M S unit := fun s => (Return tt, f s).

(** [for x in l: body(x)], without [break]. *)
Fixpoint for_each {A} (l : list A) (body : A -> M S unit) : M S unit :=
  match l with
  | [] => ret tt
  | x :: l' => bind (body x) (fun _ => for_each l' body)
  end.
End monad.

Notation "x <- m ;; k" := (bind m (fun x => k))
  (at level 100, m at next level, right associativity).
Notation "m ;;; k" := (bind m (fun _ => k))
  (at level 100, right associativity).

(** ** The clock *)

(** What [datetime.now()] returns. *)
Record datetime := Datetime {
  year : nat; month : nat; day : nat;
  hour : nat; minute : nat; second : nat;
  microsecond : nat }.

(** A number in decimal, padded with zeros on the left to [width]. *)
Definition zero_padded (width n : nat) : string :=
  let digits := pretty n in
  String.concat "" (replicate (width - String.length digits) "0") +:+ digits.

(** [now.strftime('%Y%m%d%H%M%S')] (for a year of four digits, which is what
    the clock returns). *)
Definition strftime_YmdHMS (now : datetime) : string :=
  zero_padded 4 (year now) +:+ zero_padded 2 (month now) +:+
  zero_padded 2 (day now) +:+ zero_padded 2 (hour now) +:+
  zero_padded 2 (minute now) +:+ zero_padded 2 (second now).

(** ** Child processes and the operating system *)

(** A [subprocess.Popen] object together with what the child will do: the
    lines [stdout.readline] returns, the exception reading raises after them
    (if any: a decoding error, say), the exit code, and the exception
    [terminate()] raises (if any). *)
Record process := Process {
  proc_pid : nat;
  proc_stdout : list string;
  proc_stdout_error : option exn;
  proc_returncode : Z;
  proc_terminate_error : option exn }.

(** What [subprocess.run(..., capture_output=True, text=True)] returns. *)
Record completed_process := CompletedProcess {
  returncode : Z;
  stdout : string;
  stderr : string }.

(** What is passed to a callback: a line of output, or one of the two
    markers the runner makes up. *)
Inductive delivery :=
| Output (line : string)
| ReturnCode (code : Z)
| Error (message : string).

(** The string the callback is called with. *)
Definition render (d : delivery) : string :=
  match d with
  | Output line => line
  | ReturnCode code => "__RETURN_CODE:" +:+ pretty code +:+ "__"
  | Error message => "__ERROR:" +:+ message +:+ "__"
  end.

Definition is_marker (d : delivery) : bool :=
  match d with
  | Output _ => false
  | ReturnCode _ | Error _ => true
  end.

(** What the runner does to the outside world, in order. *)
Inductive event :=
| EvPopen (cmd : list string)
| EvRun (cmd : list string) (timeout : option Z)
| EvTerminate (p : process)
| EvCallback (d : delivery).

Definition deliveries (trace : list event) : list delivery :=
  omap (fun ev => match ev with EvCallback d => Some d | _ => None end) trace.

(** The operating system: whether a spawn is accepted and what the child
    does, given everything that happened before; and [platform.system()]. *)
Record os_env := OsEnv {
  os_Popen : list event -> list string -> exn + process;
  os_run : list event -> list string -> option Z -> exn + completed_process;
  platform_system : string }.

(** A callback: given the strings it was called with before and the one it
    is called with now, it returns ([None]) or raises. *)
Abbreviation sink := (list string -> string -> option exn).

(** The dictionaries the public methods return. *)
Inductive reply :=
| Launched (process_id : string) (command : list string) (status : string)
| Done (message : string)
| Status (success : bool) (error : string)
| Captured (success : bool) (error : string) (out : string) (err : string).

(** [result.get('success')]. *)
Definition success_of (r : reply) : option bool :=
  match r with
  | Launched _ _ _ => None
  | Done _ => Some true
  | Status b _ | Captured b _ _ _ => Some b
  end.

(** [result.get('error')]. *)
Definition error_of (r : reply) : option string :=
  match r with
  | Launched _ _ _ | Done _ => None
  | Status _ e | Captured _ e _ _ => Some e
  end.

(** [result.get('process_id')]. *)
Definition process_id_of (r : reply) : option string :=
  match r with
  | Launched pid _ _ => Some pid
  | _ => None
  end.

(** ** RcloneRunner *)

(** The object: its two attributes, and the trace of what it did. *)
Record runner := Runner {
  rclone_path : string;
  _running_processes : gmap string process;
  trace : list event }.

(** A worker thread after it ran up to the point where it blocks on its
    child: it is over, or it waits for [p] and goes on with [resume]. *)
Inductive thread :=
| Finished
| Waiting (p : process) (resume : M runner unit).

Module RcloneRunner.
Section with_os.
Variable os : os_env.

(** *** What the methods call *)

Definition record (ev : event) : M runner unit :=
  modify (fun self => Runner (rclone_path self) (_running_processes self)
                             (trace self ++ [ev])).

(** [subprocess.Popen(cmd, ...)]. *)
Definition Popen (cmd : list string) : M runner process :=
  self <- get;;
  record (EvPopen cmd);;;
  match os_Popen os (trace self) cmd with
  | inl e => raise e
  | inr p => ret p
  end.

(** [subprocess.run(cmd, capture_output=True, text=True, timeout=timeout)]. *)
Definition subprocess_run (cmd : list string) (timeout : option Z)
  : M runner completed_process :=
  self <- get;;
  record (EvRun cmd timeout);;;
  match os_run os (trace self) cmd timeout with
  | inl e => raise e
  | inr r => ret r
  end.

(** [process.terminate()]. *)
Definition terminate (p : process) : M runner unit :=
  record (EvTerminate p);;;
  match proc_terminate_error p with
  | Some e => raise e
  | None => ret tt
  end.

(** [callback(x)]. *)
Definition call (callback : sink) (d : delivery) : M runner unit :=
  self <- get;;
  record (EvCallback d);;;
  match callback (render <$> deliveries (trace self)) (render d) with
  | Some e => raise e
  | None => ret tt
  end.

(** [if callback: callback(x)]. *)
Definition call_if (callback : option sink) (d : delivery) : M runner unit :=
  match callback with
  | Some cb => call cb d
  | None => ret tt
  end.

(** [self._running_processes[process_id] = process]. *)
Definition register (process_id : string) (p : process) : M runner unit :=
  modify (fun self => Runner (rclone_path self)
                             (<[process_id := p]> (_running_processes self))
                             (trace self)).

(** [del self._running_processes[process_id]]: a [KeyError] when absent. *)
Definition del (process_id : string) : M runner unit :=
  self <- get;;
  match _running_processes self !! process_id with
  | Some _ =>
      modify (fun self => Runner (rclone_path self)
                                 (delete process_id (_running_processes self))
                                 (trace self))
  | None => raise (Exn false ("'" +:+ process_id +:+ "'"))
  end.

(** [if process_id in self._running_processes: del ...]. *)
Definition del_if_present (process_id : string) : M runner unit :=
  self <- get;;
  if bool_decide (is_Some (_running_processes self !! process_id))
  then del process_id
  else ret tt.

(** *** [_run_command] *)

Definition _run_command (args : list string) (timeout : option Z) : M runner reply :=
  self <- get;;
  if bool_decide (rclone_path self = "") then
    ret (Captured false "Ruta de rclone no configurada" "" "")
  else
    let cmd := ([rclone_path self] ++ args)%list in
    try_except
      (process <- subprocess_run cmd timeout;;
       ret (Captured (bool_decide (returncode process = 0))
                     (if bool_decide (returncode process ≠ 0)
                      then stderr process else "")
                     (stdout process) (stderr process)))
      (fun e =>
         if exn_timeout e then
           ret (Captured false
                  ("Tiempo de espera agotado (" +:+
                   from_option pretty "None" timeout +:+ "s)") "" "")
         else
           ret (Captured false (exn_str e) "" "")).

(** *** [_run_long_process] *)

Definition _run_long_process (args : list string) (process_id : string)
  : M runner thread :=
  self <- get;;
  if bool_decide (rclone_path self = "") then ret Finished
  else
    let cmd := ([rclone_path self] ++ args)%list in
    let handler (e : exn) : M runner unit := del_if_present process_id in
    try_except
      (process <- Popen cmd;;
       register process_id process;;;
       (* process.wait() *)
       ret (Waiting process
              (try_except (del_if_present process_id) handler)))
      (fun e => handler e;;; ret Finished).

(** *** [_run_process_with_output] *)

Definition _run_process_with_output (args : list string) (process_id : string)
    (callback : option sink) : M runner thread :=
  self <- get;;
  if bool_decide (rclone_path self = "") then ret Finished
  else
    let cmd := ([rclone_path self] ++ args)%list in
    let handler (e : exn) : M runner unit :=
      call_if callback (Error (exn_str e));;;
      del_if_present process_id in
    try_except
      (process <- Popen cmd;;
       register process_id process;;;
       (* the worker blocks in [readline] from here on *)
       ret (Waiting process
              (try_except
                 (for_each (proc_stdout process)
                    (fun line => call_if callback (Output line));;;
                  from_option raise (ret tt) (proc_stdout_error process);;;
                  (* process.wait() *)
                  call_if callback (ReturnCode (proc_returncode process));;;
                  del_if_present process_id)
                 handler)))
      (fun e => handler e;;; ret Finished).

(** *** The public methods *)

(** What a launching method hands back: the dictionary it returns, and
    the worker thread it started (its [target] applied to its [args]),
    if it started one. *)
Record launch := Launch {
  returned : reply;
  worker : option (M runner thread) }.

Definition mount (now : datetime) (remote_path mount_point : string)
    (options : option options_dict) : M runner launch :=
  let options := options_or_empty options in
  let cmd := append_options ["mount"; remote_path; mount_point] options in
  let process_id := "mount_" +:+ strftime_YmdHMS now in
  let thread := _run_long_process cmd process_id in
  (* thread.start(); time.sleep(1) *)
  self <- get;;
  ret (Launch (Launched process_id ([rclone_path self] ++ cmd)%list "iniciado")
              (Some thread)).

Definition unmount (mount_point : string) (process_id : option string)
  : M runner reply :=
  self <- get;;
  let tracked :=
    match process_id with
    | Some pid =>
        if bool_decide (pid ≠ "")
        then (fun p => (pid, p)) <$> _running_processes self !! pid
        else None
    | None => None
    end in
  match tracked with
  | Some (pid, process) =>
      try_except
        (terminate process;;;
         del pid;;;
         ret (Done ("Proceso de montaje terminado: " +:+ pid)))
        (fun e => ret (Status false ("Error al terminar proceso: " +:+ exn_str e)))
  | None =>
      fallback <-
        try_except
          (if bool_decide (platform_system os = "Windows") then
             let drive_letter := PyStr.rstrip "\:" mount_point in
             if bool_decide (String.length drive_letter = 1%nat) then
               result <- subprocess_run
                           ["net"; "use"; drive_letter +:+ ":"; "/delete"; "/y"]
                           None;;
               ret (Some (Status (bool_decide (returncode result = 0))
                            (if bool_decide (returncode result ≠ 0)
                             then stderr result else "")))
             else ret None
           else
             let unmount_cmd := ["fusermount"; "-u"; mount_point] in
             result <- subprocess_run unmount_cmd None;;
             ret (Some (Status (bool_decide (returncode result = 0))
                          (if bool_decide (returncode result ≠ 0)
                           then stderr result else ""))))
          (fun e => ret (Some (Status false ("Error al desmontar: " +:+ exn_str e))));;
      match fallback with
      | Some r => ret r
      | None => ret (Status false "No se pudo desmontar el punto de montaje")
      end
  end.

Definition transfer (now : datetime) (source destination method : string)
    (options : option options_dict) (callback : option sink) : M runner launch :=
  if negb (PyStr.elem method ["copy"; "move"; "sync"]) then
    ret (Launch (Status false ("Método no válido: " +:+ method)) None)
  else
    let options := options_or_empty options in
    let cmd := append_options [method; source; destination] options in
    let cmd :=
      if negb (PyStr.elem "--progress" cmd) && negb (PyStr.elem "-P" cmd)
      then (cmd ++ ["--progress"])%list else cmd in
    let process_id := "transfer_" +:+ strftime_YmdHMS now in
    let thread := _run_process_with_output cmd process_id callback in
    (* thread.start() *)
    self <- get;;
    ret (Launch (Launched process_id ([rclone_path self] ++ cmd)%list "iniciado")
                (Some thread)).

Definition cancel_transfer (process_id : string) : M runner reply :=
  self <- get;;
  match _running_processes self !! process_id with
  | Some process =>
      try_except
        (terminate process;;;
         del process_id;;;
         ret (Done ("Proceso cancelado: " +:+ process_id)))
        (fun e => ret (Status false ("Error al cancelar proceso: " +:+ exn_str e)))
  | None =>
      ret (Status false ("No se encontró el proceso: " +:+ process_id))
  end.

Definition check_files (path : string) (options : option options_dict)
  : M runner reply :=
  let options := options_or_empty options in
  let cmd := append_options ["check"; path; path] options in
  _run_command cmd None.

Definition run_ncdu (now : datetime) (remote_path : string) : M runner reply :=
  let cmd := ["ncdu"; remote_path] in
  let process_id := "ncdu_" +:+ strftime_YmdHMS now in
  self <- get;;
  try_except
    (process <- Popen ([rclone_path self] ++ cmd)%list;;
     register process_id process;;;
     ret (Launched process_id ([rclone_path self] ++ cmd)%list "iniciado"))
    (fun e => ret (Status false ("Error al iniciar NCDU: " +:+ exn_str e))).

(** *** Running a worker thread *)

(** The worker runs until it blocks on its child (or is over).  An
    exception that leaves the thread's target ends the thread. *)
Definition start_worker (t : M runner thread) (self : runner) : thread * runner :=
  match t self with
  | (Return th, self') => (th, self')
  | (Raise _, self') => (Finished, self')
  end.

(** The child is over (or its output is there): the worker goes on to
    its end. *)
Definition resume_worker (th : thread) (self : runner) : runner :=
  match th with
  | Finished => self
  | Waiting _ resume => (resume self).2
  end.

(** The worker from start to end, nothing else running in between. *)
Definition run_worker (t : M runner thread) (self : runner) : runner :=
  let '(th, self') := start_worker t self in resume_worker th self'.

(** The state in which a launching method returns: the worker it
    started has made [progress] steps by then (0: not scheduled yet,
    1: it runs up to where it blocks, 2 or more: it is over). *)
Definition after_launch (progress : nat) (l : launch) (self : runner) : runner :=
  match worker l, progress with
  | None, _ | _, O => self
  | Some t, 1%nat => (start_worker t self).2
  | Some t, _ => run_worker t self
  end.

End with_os.
End RcloneRunner.

(** ** TransferTab: the progress display *)

Module TransferTab.

Inductive bar_mode := Indeterminate | Determinate.

Section with_float.
(** [float(s)]: the number [s] denotes, or [None] where Python raises
    [ValueError]. *)
Variable float : Type.
Variable py_float : string -> option float.

(** The widgets [_update_progress_metrics] writes to: four [StringVar]s
    of the metrics, the status line, and the progress bar (its mode,
    whether its animation runs, and the value it was given, if any). *)
Record tab := Tab {
  progress_transferred : string;
  progress_speed : string;
  progress_eta : string;
  progress_files : string;
  transfer_status : string;
  progress_bar_mode : bar_mode;
  progress_bar_running : bool;
  progress_bar_value : option float }.

(** The progress window as [_show_progress_window] builds it. *)
Definition new_window : tab :=
  Tab "0 B / 0 B" "0 B/s" "-" "0 / 0" "Iniciando transferencia..."
      Indeterminate true None.

(** [self.progress_transferred.set(v)] and the like. *)
Definition with_transferred (v : string) (t : tab) : tab :=
  Tab v (progress_speed t) (progress_eta t) (progress_files t)
      (transfer_status t) (progress_bar_mode t)
      (progress_bar_running t) (progress_bar_value t).

Definition with_speed (v : string) (t : tab) : tab :=
  Tab (progress_transferred t) v (progress_eta t) (progress_files t)
      (transfer_status t) (progress_bar_mode t)
      (progress_bar_running t) (progress_bar_value t).

Definition with_eta (v : string) (t : tab) : tab :=
  Tab (progress_transferred t) (progress_speed t) v (progress_files t)
      (transfer_status t) (progress_bar_mode t)
      (progress_bar_running t) (progress_bar_value t).

Definition with_files (v : string) (t : tab) : tab :=
  Tab (progress_transferred t) (progress_speed t) (progress_eta t) v
      (transfer_status t) (progress_bar_mode t)
      (progress_bar_running t) (progress_bar_value t).

Definition with_status (v : string) (t : tab) : tab :=
  Tab (progress_transferred t) (progress_speed t) (progress_eta t)
      (progress_files t) v (progress_bar_mode t)
      (progress_bar_running t) (progress_bar_value t).

(** [if bar["mode"] == "indeterminate": bar.stop(); bar["mode"] = "determinate"]
    and then [bar["value"] = percent]. *)
Definition with_percent (percent : float) (t : tab) : tab :=
  Tab (progress_transferred t) (progress_speed t) (progress_eta t)
      (progress_files t) (transfer_status t) Determinate
      (match progress_bar_mode t with
       | Indeterminate => false
       | Determinate => progress_bar_running t
       end)
      (Some percent).

(** [l[i]]: an [IndexError] out of range. *)
Definition item (l : list string) (i : nat) : M tab string :=
  match l !! i with
  | Some x => ret x
  | None => raise (Exn false "list index out of range")
  end.

(** [part.split(":")[1].strip()]. *)
Definition field (part : string) : M tab string :=
  v <- item (PyStr.split ":" part) 1;;
  ret (PyStr.strip v).

(** Reading a local variable: an [UnboundLocalError] when no assignment
    to it was executed. *)
Definition local (name : string) (v : option string) : M tab string :=
  match v with
  | Some x => ret x
  | None =>
      raise (Exn false ("cannot access local variable '" +:+ name +:+
                        "' where it is not associated with a value"))
  end.

(** The block [# Transferido]; it gives the local [transferred], bound
    or not. *)
Definition transferred_block (parts : list string) : M tab (option string) :=
  part0 <- item parts 0;;
  if PyStr.contains "Transferred:" part0 then
    transferred <- field part0;;
    modify (with_transferred transferred);;;
    ret (Some transferred)
  else ret None.

(** The block [# Velocidad]; it gives the local [speed], bound or not. *)
Definition speed_block (parts : list string) : M tab (option string) :=
  if bool_decide (1 < length parts)%nat then
    part1 <- item parts 1;;
    if PyStr.contains "Speed:" part1 then
      speed <- field part1;;
      modify (with_speed speed);;;
      ret (Some speed)
    else ret None
  else ret None.

(** The block [# ETA]. *)
Definition eta_block (parts : list string) : M tab unit :=
  if bool_decide (2 < length parts)%nat then
    part2 <- item parts 2;;
    if PyStr.contains "ETA:" part2 then
      eta <- field part2;;
      modify (with_eta eta)
    else ret tt
  else ret tt.

(** The block [# Archivos]: the loop over [parts] stops at the first
    part that has [Files:]. *)
Fixpoint files_loop (parts : list string) : M tab unit :=
  match parts with
  | [] => ret tt
  | part :: rest =>
      if PyStr.contains "Files:" part then
        files <- field part;;
        modify (with_files files)
        (* break *)
      else files_loop rest
  end.

(** The block [# Actualizar estado]: it reads the two locals. *)
Definition status_block (transferred speed : option string) : M tab unit :=
  transferred <- local "transferred" transferred;;
  speed <- local "speed" speed;;
  modify (with_status (transferred +:+ " a " +:+ speed)).

(** The last block: the loop over [parts] stops at the first part that
    has [%], whatever [float] makes of it. *)
Fixpoint percent_loop (parts : list string) : M tab unit :=
  match parts with
  | [] => ret tt
  | part :: rest =>
      if PyStr.contains "%" part then
        try_except
          (match py_float (PyStr.rstrip "%" (PyStr.strip part)) with
           | Some percent => modify (with_percent percent)
           | None => raise (Exn false "could not convert string to float")
           end)
          (fun _ => ret tt)
        (* break *)
      else percent_loop rest
  end.

Definition _update_progress_metrics (line : string) (winfo_exists : bool)
  : M tab unit :=
  if negb winfo_exists then ret tt
  else
    try_except
      (let parts := PyStr.split "," (PyStr.strip line) in
       transferred <- transferred_block parts;;
       speed <- speed_block parts;;
       eta_block parts;;;
       files_loop parts;;;
       status_block transferred speed;;;
       percent_loop parts)
      (fun _ => ret tt).

(** The display after the line was processed. *)
Definition updated (line : string) (winfo_exists : bool) (t : tab) : tab :=
  (_update_progress_metrics line winfo_exists t).2.

End with_float.

Arguments Tab {float}.
Arguments progress_transferred {float}.
Arguments progress_speed {float}.
Arguments progress_eta {float}.
Arguments progress_files {float}.
Arguments transfer_status {float}.
Arguments progress_bar_mode {float}.
Arguments progress_bar_running {float}.
Arguments progress_bar_value {float}.
Arguments new_window {float}.
Arguments with_transferred {float}.
Arguments with_speed {float}.
Arguments with_eta {float}.
Arguments with_files {float}.
Arguments with_status {float}.
Arguments with_percent {float}.
Arguments item {float}.
Arguments field {float}.
Arguments local {float}.
Arguments transferred_block {float}.
Arguments speed_block {float}.
Arguments eta_block {float}.
Arguments files_loop {float}.
Arguments status_block {float}.
Arguments percent_loop {float}.
Arguments _update_progress_metrics {float}.
Arguments updated {float}.
End TransferTab.

(** ** More of Python's strings *)

Module PyText.

(** [s.strip(chars)]. *)
Definition strip_chars (chars s : string) : string :=
  PyStr.rstrip_by (fun c => PyStr.mem c chars)
    (PyStr.lstrip_by (fun c => PyStr.mem c chars) s).

(** The ASCII characters at which [str.splitlines] breaks a line: LF, VT,
    FF, CR, FS, GS and RS. *)
Definition is_linebreak (c : ascii) : bool :=
  let n := nat_of_ascii c in
  ((10 <=? n)%nat && (n <=? 13)%nat) || ((28 <=? n)%nat && (n <=? 30)%nat).

(** [s.splitlines()]: the lines without their ends; CR LF is one end, and
    an end at the end of the string opens no further line. *)
Fixpoint splitlines (s : string) : list string :=
  match s with
  | "" => []
  | String c s' =>
      if is_linebreak c then
        match s' with
        | String d s'' =>
            if Ascii.eqb c "013" && Ascii.eqb d "010"
            then "" :: splitlines s''
            else "" :: splitlines s'
        | "" => [""]
        end
      else
        match splitlines s' with
        | [] => [String c ""]
        | l :: ls => String c l :: ls
        end
  end.

(** The white space [int()] skips around an ASCII string. *)
Definition int_space (c : ascii) : bool :=
  let n := nat_of_ascii c in
  ((9 <=? n)%nat && (n <=? 13)%nat) || (n =? 32)%nat.

(** The digits of an integer literal: one digit at least, and single
    underscores between digits only. *)
Fixpoint int_digits (acc : Z) (after_digit : bool) (s : string) : option Z :=
  match s with
  | "" => if after_digit then Some acc else None
  | String c s' =>
      match Ascii.is_nat c with
      | Some d => int_digits (10 * acc + Z.of_nat d) true s'
      | None =>
          if Ascii.eqb c "_" && after_digit then int_digits acc false s'
          else None
      end
  end.

(** [int(s)] for an ASCII string, [None] where Python raises
    [ValueError]. *)
Definition int (s : string) : option Z :=
  match PyStr.rstrip_by int_space (PyStr.lstrip_by int_space s) with
  | String "+" digits => int_digits 0 false digits
  | String "-" digits => Z.opp <$> int_digits 0 false digits
  | digits => int_digits 0 false digits
  end.

End PyText.

(** ** RcloneRunner: the queries *)

Module RcloneQueries.
Import RcloneRunner.

(** [l[i]] in any state: an [IndexError] out of range. *)
Definition index {S} (l : list string) (i : nat) : M S string :=
  match l !! i with
  | Some x => ret x
  | None => raise (Exn false "list index out of range")
  end.

(** [result[key]] on a dictionary that lacks the key ([_run_command]
    returns none such). *)
Definition key_error {S A} (key : string) : M S A :=
  raise (Exn false ("'" +:+ key +:+ "'")).

Definition set_rclone_path (path : string) : M runner unit :=
  modify (fun self => Runner path (_running_processes self) (trace self)).

Section with_os.
Variable os : os_env.

Definition get_version : M runner string :=
  try_except
    (result <- _run_command os ["version"] (Some 5);;
     match result with
     | Captured success error out _ =>
         if success then index (PyText.splitlines out) 0
         else ret ("Error: " +:+ error)
     | _ => key_error "success"
     end)
    (fun e => ret ("Error: " +:+ exn_str e)).

Definition list_remotes : M runner (list string) :=
  try_except
    (result <- _run_command os ["listremotes"] (Some 10);;
     match result with
     | Captured success _ out _ =>
         if success && negb (bool_decide (out = "")) then
           ret (PyText.strip_chars ":" <$>
                  List.filter (fun r => negb (bool_decide (PyStr.strip r = "")))
                              (PyText.splitlines out))
         else ret []
     | _ => key_error "success"
     end)
    (fun _ => ret []).

Definition get_remote_details (remote_name : string) : M runner string :=
  try_except
    (result <- _run_command os ["config"; "show"; remote_name] (Some 10);;
     match result with
     | Captured success error out _ =>
         if success then
           ret (if bool_decide (out = "")
                then "No se encontraron detalles para " +:+ remote_name
                else out)
         else ret ("Error: " +:+ error)
     | _ => key_error "success"
     end)
    (fun e => ret ("Error: " +:+ exn_str e)).

Definition delete_remote (remote_name : string) : M runner reply :=
  try_except
    (result <- _run_command os ["config"; "delete"; remote_name] (Some 10);;
     match result with
     | Captured success error _ _ =>
         ret (Status success (if negb success then error else ""))
     | _ => key_error "success"
     end)
    (fun e => ret (Status false (exn_str e))).

End with_os.
End RcloneQueries.

(** ** TransferTab: what is made of the output, and what is shown *)

Module StartTransfer.

(** What [process_output] hands to the main loop with [root.after]. *)
Inductive ui_action :=
| AppendOutput (text : string)
| UpdateMetrics (line : string)
| ProgressFinished (return_code : Z)
| ProgressError (error_msg : string).

(** [line.split(":")[-1].strip("__ \n")]. *)
Definition marker_text (line : string) : string :=
  PyText.strip_chars "__ 
" (List.last (PyStr.split ":" line) "").

(** The callback [process_output] of [_start_transfer]; [winfo_exists] is
    what the progress window answers. *)
Definition process_output (winfo_exists : bool) (line : string) : list ui_action :=
  if negb winfo_exists then []
  else if PyStr.startswith "__RETURN_CODE:" line then
    match PyText.int (marker_text line) with
    | Some code => [ProgressFinished code]
    | None => []
    end
  else if PyStr.startswith "__ERROR:" line then
    [ProgressError (marker_text line)]
  else if bool_decide (PyStr.strip line = "") then []
  else
    AppendOutput line ::
    (if PyStr.contains "Transferred:" line then [UpdateMetrics line] else []).

(** The callback as the runner sees it: it returns. *)
Definition process_output_sink : sink := fun _ _ => None.





End StartTransfer.

(** ** The rule for options, in the specification's words *)

(** A value of boolean true yields the single argument [--key]; a value of
    false or [None] yields no argument; any other value yields the two
    arguments [--key] and the value converted to a string. *)
Definition rendered_option (kv : string * pyval) : list string :=
  match kv.2 with
  | VBool true => ["--" +:+ kv.1]
  | VBool false => []
  | VNone => []
  | VInt n => ["--" +:+ kv.1; py_str (VInt n)]
  | VStr s => ["--" +:+ kv.1; py_str (VStr s)]
  end.

Definition rendered_options (options : options_dict) : list string :=
  mjoin (rendered_option <$> options).

(** [--progress] is added by [transfer] unless the command has it. *)
Definition progress_flag (cmd : list string) : list string :=
  if PyStr.elem "--progress" cmd || PyStr.elem "-P" cmd then [] else ["--progress"].

(** ** Notions the properties are stated with *)

(** [p] occurs in [s]. *)
Definition occurs_in (p s : string) : Prop :=
  exists before after, s = before +:+ p +:+ after.

(** The text of a segment between its first and its second colon, without
    the white space around it. *)
Definition value_of (part : string) : string :=
  PyStr.strip (nth 1 (PyStr.split ":" part) "").

(** The value of a segment that has the label, if there is such a
    segment. *)
Definition labelled (label : string) (part : option string) : option string :=
  match part with
  | Some part => if PyStr.contains label part then Some (value_of part) else None
  | None => None
  end.

(** A field of the display: the new value if there is one, else the value
    it had. *)
Definition latest (new : option string) (old : string) : string :=
  default old new.

(** The display after a value may have been written to one of its
    fields. *)
Definition written {float} (write : string -> TransferTab.tab float -> TransferTab.tab float)
    (new : option string) (t : TransferTab.tab float) : TransferTab.tab float :=
  match new with
  | Some v => write v t
  | None => t
  end.

(** The identifier a launch returned, if it returned one. *)
Definition launch_id (r : result RcloneRunner.launch) : option string :=
  match r with
  | Return l => process_id_of (RcloneRunner.returned l)
  | Raise _ => None
  end.

Definition reply_id (r : result reply) : option string :=
  match r with
  | Return x => process_id_of x
  | Raise _ => None
  end.

(** The fields of a [datetime] are in the ranges Python keeps them in. *)
Definition valid_clock (t : datetime) : Prop :=
  (1 <= year t < 100 * 100 /\ 1 <= month t <= 12 /\ 1 <= day t <= 31 /\
   hour t <= 23 /\ minute t <= 59 /\ second t <= 59)%nat.

(** A clock reading without its microseconds. *)
Definition to_the_second (t : datetime) : list nat :=
  [year t; month t; day t; hour t; minute t; second t].

(** Decimal digits, written out. *)
Definition digit (n : nat) : ascii := ascii_of_nat (48 + n).

Definition two_digits (n : nat) : string :=
  String (digit (n / 10)) (String (digit (n mod 10)) "").

Definition four_digits (n : nat) : string :=
  String (digit (n / 1000)) (String (digit (n / 100 mod 10))
    (String (digit (n / 10 mod 10)) (String (digit (n mod 10)) ""))).

(** ** How the outcome of a fallback command is reported *)

(** [{'success': result.returncode == 0, 'error': result.stderr if
    result.returncode != 0 else ""}] when the command ran, and the failure
    of the [except] clause of [unmount] when running it raised. *)
Definition reported (outcome : exn + completed_process) : reply :=
  match outcome with
  | inl e => Status false ("Error al desmontar: " +:+ exn_str e)
  | inr result =>
      Status (bool_decide (returncode result = 0))
             (if bool_decide (returncode result ≠ 0) then stderr result else "")
  end.

(** ** Notions for the queries and for the console *)

(** Every character of [s] passes [f]. *)
Fixpoint all_chars (f : ascii -> bool) (s : string) : bool :=
  match s with
  | "" => true
  | String c s' => f c && all_chars f s'
  end.

(** What [_run_command] makes of the outcome of the run. *)
Definition command_result (timeout : option Z)
    (outcome : exn + completed_process) : reply :=
  match outcome with
  | inl e =>
      if exn_timeout e then
        Captured false
          ("Tiempo de espera agotado (" +:+ from_option pretty "None" timeout +:+ "s)")
          "" ""
      else Captured false (exn_str e) "" ""
  | inr process =>
      Captured (bool_decide (returncode process = 0))
               (if bool_decide (returncode process ≠ 0) then stderr process else "")
               (stdout process) (stderr process)
  end.

(** A name without a colon and without a line break in it. *)
Definition plain_name (name : string) : bool :=
  all_chars (fun c => negb (PyText.is_linebreak c) && negb (Ascii.eqb c ":")) name.

(** What [rclone listremotes] prints for remotes of these names: each
    name, a colon, and a newline. *)
Definition listing (names : list string) : string :=
  foldr (fun name rest => name +:+ ":
" +:+ rest) "" names.


(** What the main loop is handed for a sequence of deliveries to
    [process_output]. *)
Definition ui_actions (winfo_exists : bool) (ds : list delivery)
  : list StartTransfer.ui_action :=
  mjoin ((fun d => StartTransfer.process_output winfo_exists (render d)) <$> ds).

(** A character of an integer in decimal: a digit or the minus sign. *)
Definition int_char (c : ascii) : bool :=
  bool_decide (is_Some (Ascii.is_nat c)) || Ascii.eqb c "-".



(** The number the bar is given for the segments of a line: what [float]
    makes of the first segment with a percent sign, if there is one and
    [float] accepts it. *)
Definition percent_of {float} (py_float : string -> option float)
    (parts : list string) : option float :=
  match List.find (PyStr.contains "%") parts with
  | Some part => py_float (PyStr.rstrip "%" (PyStr.strip part))
  | None => None
  end.

(** ** Inputs the properties are tried on *)

Module Examples.
Import RcloneRunner.

(** A machine without the binary: every spawn is refused. *)
Definition no_binary : os_env :=
  OsEnv (fun _ _ => inl (Exn false "[Errno 2] No such file or directory: 'rclone'"))
        (fun _ _ _ => inl (Exn false "[Errno 2] No such file or directory: 'rclone'"))
        "Linux".

(** A child that prints two lines and exits with code 0. *)
Definition child : process :=
  Process 4242 ["Transferred: 1 / 2, 50%
"; "done
"] None 0 None.

(** A child whose [terminate()] raises. *)
Definition stubborn_child : process :=
  Process 4343 [] None 0 (Some (Exn false "[Errno 1] Operation not permitted")).

(** A machine where every spawn gives [child], and every bounded run
    exits with code 1 and a message on stderr. *)
Definition linux : os_env :=
  OsEnv (fun _ _ => inr child)
        (fun _ _ _ => inr (CompletedProcess 1 "" "directory not found
"))
        "Linux".

(** A machine where every bounded run times out. *)
Definition slow : os_env :=
  OsEnv (fun _ _ => inr child)
        (fun _ _ _ => inl (Exn true "timed out"))
        "Linux".

Definition morning : datetime := Datetime 2024 5 17 9 30 0 0.

(** The same second, a little later. *)
Definition morning_later : datetime := Datetime 2024 5 17 9 30 0 250.

(** A runner with the path configured and nothing running. *)
Definition configured : runner := Runner "rclone" ∅ [].

(** A runner with no path configured. *)
Definition unconfigured : runner := Runner "" ∅ [].

(** A callback that returns whatever it is given. *)
Definition quiet : sink := fun _ _ => None.

(** A callback that raises when it is given a return-code marker. *)
Definition fragile : sink :=
  fun _ x => if PyStr.startswith "__RETURN_CODE:" x
             then Some (Exn false "main thread is not in main loop")
             else None.

(** What [mount] of [gdrive:] on [/mnt/g] hands back in the morning. *)
Definition mount_launch : launch :=
  Launch
    (Launched "mount_20240517093000" ["rclone"; "mount"; "gdrive:"; "/mnt/g"]
              "iniciado")
    (Some (_run_long_process linux ["mount"; "gdrive:"; "/mnt/g"]
             "mount_20240517093000")).

(** What [transfer] (a copy of [a] to [b:]) hands back in the morning,
    on the machine [os], with the callback [quiet]. *)
Definition transfer_launch (os : os_env) : launch :=
  Launch
    (Launched "transfer_20240517093000" ["rclone"; "copy"; "a"; "b:"; "--progress"]
              "iniciado")
    (Some (_run_process_with_output os ["copy"; "a"; "b:"; "--progress"]
             "transfer_20240517093000" (Some quiet))).

(** A machine where every spawn gives a new child, numbered by how much
    happened before. *)
Definition numbering : os_env :=
  OsEnv (fun before _ => inr (Process (length before) [] None 0 None))
        (fun _ _ _ => inr (CompletedProcess 0 "" ""))
        "Linux".

(** An answer of [float()]: the number, for a string of decimal digits;
    a [ValueError] for the empty string and for a string with anything
    else in it (such strings do not occur in the examples). *)
Definition float_of_digits (s : string) : option Z :=
  match s with
  | "" => None
  | _ =>
      (fix digits (acc : Z) (s : string) : option Z :=
         match s with
         | "" => Some acc
         | String c s' =>
             match Ascii.is_nat c with
             | Some d => digits (10 * acc + Z.of_nat d) s'
             | None => None
             end
         end) 0 s
  end.

Definition spec_line : string :=
  "Transferred: 1.5 GiB / 3 GiB, 50%, Speed: 10 MiB/s, ETA: 2m30s".

Definition three_options : options_dict :=
  [("read-only", VBool true); ("drive-chunk-size", VStr "32M");
   ("allow-other", VBool false)].

End Examples.

Module MoreExamples.

(** A machine where every bounded run exits with 0 and prints two remotes. *)
Definition two_remotes : os_env :=
  OsEnv (fun _ _ => inr Examples.child)
        (fun _ _ _ => inr (CompletedProcess 0 "gdrive:
box:
" ""))
        "Linux".

(** A machine where every bounded run exits with 0 and prints nothing. *)
Definition silent : os_env :=
  OsEnv (fun _ _ => inr Examples.child)
        (fun _ _ _ => inr (CompletedProcess 0 "" ""))
        "Linux".

(** The message of the exception for a missing binary. *)
Definition no_such_file : string :=
  "[Errno 2] No such file or directory: 'rclone'".

End MoreExamples.

(** ** Threads, one step at a time *)

(** A runner is shared, without a lock, by its worker threads and by the
    thread of the window: [cancel_transfer] and [unmount] work on the
    table the workers register in.  Where a property depends on it, the
    code of a thread is the sequence of the steps it makes on the
    runner, a step being one statement that reads or writes the runner
    or calls out: the thread is over with a value, or makes a step, which
    raises or leaves the steps that follow. *)
Local Unset Elimination Schemes.
Inductive steps (A : Type) :=
| Value (a : A)
| Step (step : M runner (steps A)).
Local Set Elimination Schemes.
Arguments Value {A} a.
Arguments Step {A} step.

(** What the other threads do to the runner before each step of a
    thread, the steps counted from 0. *)
Definition interference : Type := nat -> runner -> runner.

(** No other thread runs. *)
Definition alone : interference := fun _ self => self.

(** How a thread ended: what it returned or raised, the runner it left,
    and what it did to the outside world itself. *)
Record outcome (A : Type) := Outcome {
  out_result : result A;
  out_runner : runner;
  out_events : list event }.
Arguments Outcome {A} _ _ _.
Arguments out_result {A} _.
Arguments out_runner {A} _.
Arguments out_events {A} _.

(** What a step added to the trace. *)
Definition added (before after : runner) : list event :=
  drop (length (trace before)) (trace after).

Definition after_events {A} (evs : list event) (o : outcome A) : outcome A :=
  Outcome (out_result o) (out_runner o) (evs ++ out_events o).

(** The thread [t], from its step number [n] on, with the other threads
    in between.  An exception that no [try] of the thread catches ends
    it. *)
Fixpoint interleaved {A} (others : interference) (n : nat) (t : steps A)
    (self : runner) : outcome A :=
  match t with
  | Value a => Outcome (Return a) self []
  | Step step =>
      let before := others n self in
      match step before with
      | (Return t', self') =>
          after_events (added before self') (interleaved others (S n) t' self')
      | (Raise e, self') => Outcome (Raise e) self' (added before self')
      end
  end.

(** What the thread returned or raised, and the runner it left. *)
Definition ended {A} (o : outcome A) : result A * runner :=
  (out_result o, out_runner o).

Module Stepwise.
Section with_os.
Variable os : os_env.

(** [self._running_processes[process_id]]: a [KeyError] when absent. *)
Definition getitem (process_id : string) : M runner process :=
  self <- get;;
  match _running_processes self !! process_id with
  | Some p => ret p
  | None => raise (Exn false ("'" +:+ process_id +:+ "'"))
  end.

(** A step of the body of [try: ... except Exception as e: handler(e)]. *)
Definition guarded {A} (handler : exn -> steps A) (step : M runner (steps A))
  : steps A :=
  Step (try_except step (fun e => ret (handler e))).

(** [if process_id in self._running_processes:
    del self._running_processes[process_id]]: the test is one step and the
    removal another.  [next] is [Step], or [guarded] by the handler of
    the [try] the statement is in. *)
Definition del_if_present {A} (next : M runner (steps A) -> steps A)
    (process_id : string) (rest : steps A) : steps A :=
  next (self <- get;;
        if bool_decide (is_Some (_running_processes self !! process_id))
        then ret (next (RcloneRunner.del process_id;;; ret rest))
        else ret rest).

(** The [except] clause of [_run_process_with_output]. *)
Definition streaming_except (process_id : string) (callback : option sink)
    (e : exn) : steps unit :=
  Step (RcloneRunner.call_if callback (Error (exn_str e));;;
        ret (del_if_present Step process_id (Value tt))).

(** [for line in iter(process.stdout.readline, ''): if callback:
    callback(line)], for the lines the child prints. *)
Fixpoint read_lines (next : M runner (steps unit) -> steps unit)
    (callback : option sink) (lines : list string) (rest : steps unit)
  : steps unit :=
  match lines with
  | [] => rest
  | line :: lines =>
      next (RcloneRunner.call_if callback (Output line);;;
            ret (read_lines next callback lines rest))
  end.

(** [_run_process_with_output] once the process is registered: the
    lines, the end of the output (or the exception reading raises), the
    return code, and the removal. *)
Definition streaming_body (next : M runner (steps unit) -> steps unit)
    (process_id : string) (callback : option sink) (process : process)
  : steps unit :=
  read_lines next callback (proc_stdout process)
    (next (from_option raise (ret tt) (proc_stdout_error process);;;
           (* process.wait() *)
           ret (next (RcloneRunner.call_if callback
                        (ReturnCode (proc_returncode process));;;
                      ret (del_if_present next process_id (Value tt)))))).

(** [_run_process_with_output], step by step: the test of the path, the
    command, the spawn, the registration, and [streaming_body]. *)
Definition _run_process_with_output (args : list string) (process_id : string)
    (callback : option sink) : steps unit :=
  Step (self <- get;;
    if bool_decide (rclone_path self = "") then ret (Value tt)
    else ret (Step (self <- get;;
      let cmd := ([rclone_path self] ++ args)%list in
      let try_ := guarded (streaming_except process_id callback) in
      ret (try_ (process <- RcloneRunner.Popen os cmd;;
                 ret (try_ (RcloneRunner.register process_id process;;;
                            ret (streaming_body try_ process_id callback
                                   process)))))))).

(** [cancel_transfer], step by step: the test, the look-up (outside the
    [try]), the request to terminate, and the removal. *)
Definition cancel_transfer (process_id : string) : steps reply :=
  let try_ := guarded (fun e =>
    Value (Status false ("Error al cancelar proceso: " +:+ exn_str e))) in
  Step (self <- get;;
    if bool_decide (is_Some (_running_processes self !! process_id)) then
      ret (Step (
        process <- getitem process_id;;
        ret (try_ (
          RcloneRunner.terminate process;;;
          ret (try_ (
            RcloneRunner.del process_id;;;
            ret (Value (Done ("Proceso cancelado: " +:+ process_id)))))))))
    else
      ret (Value (Status false ("No se encontró el proceso: " +:+ process_id)))).

(** [unmount], step by step: the test, the look-up (outside the [try]),
    the request to terminate, and the removal; or else the rest of the
    method, which does not look at the table and is what [unmount] does
    without an identifier. *)
Definition unmount (mount_point : string) (process_id : option string)
  : steps reply :=
  let try_ := guarded (fun e =>
    Value (Status false ("Error al terminar proceso: " +:+ exn_str e))) in
  let fallback : steps reply :=
    Step (r <- RcloneRunner.unmount os mount_point None;; ret (Value r)) in
  Step (self <- get;;
    match process_id with
    | Some pid =>
        if bool_decide (pid ≠ "") &&
           bool_decide (is_Some (_running_processes self !! pid)) then
          ret (Step (
            process <- getitem pid;;
            ret (try_ (
              RcloneRunner.terminate process;;;
              ret (try_ (
                RcloneRunner.del pid;;;
                ret (Value (Done ("Proceso de montaje terminado: " +:+ pid)))))))))
        else ret fallback
    | None => ret fallback
    end).

End with_os.
End Stepwise.

(** ** The application: where the path of rclone is kept *)

Module App.





End App.

(** ** Notions for threads, for the window and for the application *)

(** The other threads never remove the identifier from the table. *)
Definition never_removes (others : interference) (process_id : string) : Prop :=
  forall n self,
    is_Some (_running_processes self !! process_id) ->
    is_Some (_running_processes (others n self) !! process_id).

(** The other threads leave the entry of the identifier as it is. *)
Definition leaves_entry (others : interference) (process_id : string) : Prop :=
  forall n self,
    _running_processes (others n self) !! process_id =
    _running_processes self !! process_id.

(** The events that end a transfer in the window. *)
Definition closing (a : StartTransfer.ui_action) : bool :=
  match a with
  | StartTransfer.ProgressFinished _ | StartTransfer.ProgressError _ => true
  | StartTransfer.AppendOutput _ | StartTransfer.UpdateMetrics _ => false
  end.

(** A line that [process_output] takes for a marker. *)
Definition marker_like (line : string) : bool :=
  PyStr.startswith "__RETURN_CODE:" line || PyStr.startswith "__ERROR:" line.


(** ** Threads the properties are tried on *)

Module Races.

(** The thread of the window calls [cancel_transfer] just before step
    [k] of the thread that is looked at. *)
Definition cancel_before (k : nat) (process_id : string) : interference :=
  fun n self =>
    if bool_decide (n = k) then (RcloneRunner.cancel_transfer process_id self).2
    else self.

(** A worker comes to its end, removing its identifier, just before
    step [k] of the thread that is looked at. *)
Definition worker_ends_before (k : nat) (process_id : string) : interference :=
  fun n self =>
    if bool_decide (n = k) then (RcloneRunner.del_if_present process_id self).2
    else self.

(** A runner with one transfer running. *)
Definition busy : runner :=
  Runner "rclone" {["transfer_20240517093000" := Examples.child]} [].

(** A child that prints a line that looks like a marker. *)
Definition marker_child : process :=
  Process 4444 ["__RETURN_CODE:7__
"] None 0 None.

(** A machine where every spawn gives [marker_child]. *)
Definition marker_machine : os_env :=
  OsEnv (fun _ _ => inr marker_child)
        (fun _ _ _ => inr (CompletedProcess 0 "" ""))
        "Linux".

End Races.

(** * Properties *)

Import RcloneRunner.

(** ** Options *)

Lemma append_option_rendered cmd kv :
  append_option cmd kv = (cmd ++ rendered_option kv)%list.
Proof.
  destruct kv as [key [| [|] | n | s]]; cbn;
    rewrite <- ?app_assoc, ?app_nil_r; reflexivity.
Qed.

Lemma append_options_rendered options : forall cmd,
  append_options cmd options = (cmd ++ rendered_options options)%list.
Proof.
  unfold append_options, rendered_options.
  induction options as [|kv options IH]; intros cmd; cbn.
  - by rewrite app_nil_r.
  - by rewrite IH, append_option_rendered, <- app_assoc.
Qed.

(** What [mount] returns and starts. *)
Lemma mount_eq os now remote_path mount_point options self :
  let cmd := (["mount"; remote_path; mount_point]
              ++ rendered_options (options_or_empty options))%list in
  let process_id := "mount_" +:+ strftime_YmdHMS now in
  mount os now remote_path mount_point options self =
    (Return (Launch (Launched process_id (rclone_path self :: cmd) "iniciado")
                    (Some (_run_long_process os cmd process_id))),
     self).
Proof.
  cbv zeta. unfold mount. by rewrite append_options_rendered.
Qed.

(** What [transfer] returns and starts, for a method it accepts. *)
Lemma transfer_eq os now source destination method options callback self :
  method ∈ ["copy"; "move"; "sync"] ->
  let base := ([method; source; destination]
               ++ rendered_options (options_or_empty options))%list in
  let cmd := (base ++ progress_flag base)%list in
  let process_id := "transfer_" +:+ strftime_YmdHMS now in
  transfer os now source destination method options callback self =
    (Return (Launch (Launched process_id (rclone_path self :: cmd) "iniciado")
                    (Some (_run_process_with_output os cmd process_id callback))),
     self).
Proof.
  intros Hm. cbv zeta. unfold transfer, PyStr.elem, progress_flag, PyStr.elem.
  rewrite bool_decide_eq_true_2 by done. cbn [negb].
  rewrite append_options_rendered.
  set (base := (_ ++ rendered_options _)%list).
  destruct (bool_decide ("--progress" ∈ base)), (bool_decide ("-P" ∈ base));
    cbn; by rewrite ?app_nil_r.
Qed.

(** C2: every key/value pair of the options of [mount], [transfer] and
    [check_files] is rendered by one rule: true gives [--key]; false and
    [None] give nothing; any other value gives [--key] and [str(value)].
    The commands are the base command followed by the rendered options in
    order ([transfer] then adds [--progress] unless it is there), and the
    three examples of the specification render as it says. *)
Theorem options_rendered_uniformly os now self remote_path mount_point
    source destination method path callback (options : options_dict) :
  method ∈ ["copy"; "move"; "sync"] ->
  (forall key value,
     rendered_option (key, value) =
       match value with
       | VBool true => ["--" +:+ key]
       | VBool false | VNone => []
       | _ => ["--" +:+ key; py_str value]
       end) /\
  (mount os now remote_path mount_point (Some options) self).1 =
    Return (Launch
      (Launched ("mount_" +:+ strftime_YmdHMS now)
         ([rclone_path self; "mount"; remote_path; mount_point]
          ++ rendered_options options)%list
         "iniciado")
      (Some (_run_long_process os
               (["mount"; remote_path; mount_point] ++ rendered_options options)%list
               ("mount_" +:+ strftime_YmdHMS now)))) /\
  (let base := ([method; source; destination] ++ rendered_options options)%list in
   (transfer os now source destination method (Some options) callback self).1 =
     Return (Launch
       (Launched ("transfer_" +:+ strftime_YmdHMS now)
          ([rclone_path self] ++ base ++ progress_flag base)%list
          "iniciado")
       (Some (_run_process_with_output os (base ++ progress_flag base)%list
                ("transfer_" +:+ strftime_YmdHMS now) callback)))) /\
  check_files os path (Some options) =
    _run_command os (["check"; path; path] ++ rendered_options options)%list None /\
  rendered_options [("read-only", VBool true)] = ["--read-only"] /\
  rendered_options [("drive-chunk-size", VStr "32M")] = ["--drive-chunk-size"; "32M"] /\
  rendered_options [("allow-other", VBool false)] = [].
Proof.
  intros Hm. split; [|split; [|split; [|split]]].
  - by intros key [| [|] | n | s].
  - by rewrite mount_eq.
  - cbv zeta. by rewrite transfer_eq.
  - unfold check_files. by rewrite append_options_rendered.
  - done.
Qed.

Lemma options_rendered_uniformly_witness :
  ("copy" ∈ ["copy"; "move"; "sync"]) /\
  (mount Examples.linux Examples.morning "gdrive:" "/mnt/g"
     (Some Examples.three_options) Examples.configured).1 =
    Return (Launch
      (Launched "mount_20240517093000"
         ["rclone"; "mount"; "gdrive:"; "/mnt/g";
          "--read-only"; "--drive-chunk-size"; "32M"]
         "iniciado")
      (Some (_run_long_process Examples.linux
               ["mount"; "gdrive:"; "/mnt/g";
                "--read-only"; "--drive-chunk-size"; "32M"]
               "mount_20240517093000"))) /\
  (transfer Examples.linux Examples.morning "a" "b:" "copy"
     (Some Examples.three_options) None Examples.configured).1 =
    Return (Launch
      (Launched "transfer_20240517093000"
         ["rclone"; "copy"; "a"; "b:";
          "--read-only"; "--drive-chunk-size"; "32M"; "--progress"]
         "iniciado")
      (Some (_run_process_with_output Examples.linux
               ["copy"; "a"; "b:";
                "--read-only"; "--drive-chunk-size"; "32M"; "--progress"]
               "transfer_20240517093000" None))).
Proof.
  assert (Hm : "copy" ∈ ["copy"; "move"; "sync"]) by apply list_elem_of_here.
  split; [exact Hm|].
  destruct (options_rendered_uniformly Examples.linux Examples.morning
              Examples.configured "gdrive:" "/mnt/g" "a" "b:" "copy" "c" None
              Examples.three_options Hm) as (_ & Hmount & Htransfer & _).
  split; [exact Hmount | exact Htransfer].
Defined.

(** ** Bounded commands *)

(** C6: [_run_command] always returns a result and never raises.  With no
    path set it fails without spawning; when the run times out it fails
    with the timeout message; when the spawn or the run raises anything
    else it fails with that exception's message; when the process exits
    with a code other than 0, [success] is false and [error] is the
    captured stderr. *)
Theorem run_command_returns os args timeout self :
  exists r self',
    _run_command os args timeout self = (Return r, self') /\
    (rclone_path self = "" ->
       r = Captured false "Ruta de rclone no configurada" "" "" /\ self' = self) /\
    (rclone_path self <> "" ->
       rclone_path self' = rclone_path self /\
       _running_processes self' = _running_processes self /\
       trace self' = (trace self ++ [EvRun (rclone_path self :: args) timeout])%list /\
       match os_run os (trace self) (rclone_path self :: args) timeout with
       | inl e =>
           if exn_timeout e then
             r = Captured false
                   ("Tiempo de espera agotado (" +:+
                    from_option pretty "None" timeout +:+ "s)") "" ""
           else r = Captured false (exn_str e) "" ""
       | inr p =>
           (returncode p <> 0 -> r = Captured false (stderr p) (stdout p) (stderr p)) /\
           (returncode p = 0 -> r = Captured true "" (stdout p) (stderr p))
       end).
Proof.
  unfold _run_command, bind, get.
  case_bool_decide as Hpath.
  - eexists _, _. split; [reflexivity|]. split; [done|]. intros; contradiction.
  - unfold try_except, subprocess_run, bind, get, record, modify. cbn.
    destruct (os_run os (trace self) (rclone_path self :: args) timeout)
      as [e|p] eqn:Hrun; cbn.
    + destruct (exn_timeout e) eqn:Ht; eexists _, _;
        (split; [reflexivity|]); (split; [intros; contradiction|]);
        intros _; done.
    + eexists _, _. split; [reflexivity|]. split; [intros; contradiction|].
      intros _. repeat split.
      * intros Hrc. by rewrite bool_decide_eq_false_2, bool_decide_eq_true_2.
      * intros Hrc. rewrite bool_decide_eq_true_2 by done.
        rewrite bool_decide_eq_false_2; [done|]. by intros [].
Qed.

Example run_command_unconfigured :
  _run_command Examples.linux ["version"] (Some 5) Examples.unconfigured =
    (Return (Captured false "Ruta de rclone no configurada" "" ""),
     Examples.unconfigured).
Proof. reflexivity. Qed.

Example run_command_timeout :
  (_run_command Examples.slow ["version"] (Some 5) Examples.configured).1 =
    Return (Captured false "Tiempo de espera agotado (5s)" "" "").
Proof. reflexivity. Qed.

Example run_command_refused :
  (_run_command Examples.no_binary ["version"] (Some 5) Examples.configured).1 =
    Return (Captured false "[Errno 2] No such file or directory: 'rclone'" "" "").
Proof. reflexivity. Qed.

Example run_command_nonzero :
  _run_command Examples.linux ["lsd"; "x:"] None Examples.configured =
    (Return (Captured false "directory not found
" "" "directory not found
"),
     Runner "rclone" ∅ [EvRun ["rclone"; "lsd"; "x:"] None]).
Proof. reflexivity. Qed.

(** ** Launches that start nothing *)

(** C9: for a method other than [copy], [move] and [sync], [transfer]
    returns a failure that names the method, before it builds a command:
    it starts no worker, generates and registers no identifier, spawns
    nothing and never calls the callback, so the runner is as it was. *)
Theorem transfer_rejects_method os now source destination method options callback self :
  method ∉ ["copy"; "move"; "sync"] ->
  exists l,
    transfer os now source destination method options callback self = (Return l, self) /\
    returned l = Status false ("Método no válido: " +:+ method) /\
    success_of (returned l) = Some false /\
    process_id_of (returned l) = None /\
    worker l = None /\
    forall progress, after_launch progress l self = self.
Proof.
  intros Hm. unfold transfer, PyStr.elem.
  rewrite bool_decide_eq_false_2 by done. cbn [negb].
  eexists. split; [reflexivity|]. by repeat split.
Qed.

Lemma transfer_rejects_method_witness :
  ("delete" ∉ ["copy"; "move"; "sync"]) /\
  transfer Examples.linux Examples.morning "a" "b:" "delete" None
    (Some Examples.quiet) Examples.configured =
    (Return (Launch (Status false "Método no válido: delete") None),
     Examples.configured).
Proof.
  assert (Hm : "delete" ∉ ["copy"; "move"; "sync"])
    by (apply (bool_decide_unpack _); vm_compute; exact I).
  split; [exact Hm|].
  destruct (transfer_rejects_method Examples.linux Examples.morning "a" "b:"
              "delete" None (Some Examples.quiet) Examples.configured Hm)
    as ([r w] & Heq & Hr & _ & _ & Hw & _).
  cbn in Hr, Hw. rewrite Heq, Hr, Hw. reflexivity.
Defined.

(** A worker of [mount] that finds no path set ends at once and leaves
    the runner as it was. *)
Lemma run_long_process_unconfigured os args process_id self :
  rclone_path self = "" ->
  _run_long_process os args process_id self = (Return Finished, self).
Proof.
  intros Hpath. unfold _run_long_process, bind, get.
  by rewrite bool_decide_eq_true_2.
Qed.

(** C10: with the empty string as the executable path, [mount] still
    returns a generated identifier and the status [iniciado] (no
    [success], no [error]), while its worker returns without spawning:
    whenever it runs with the path empty it ends at once and leaves the
    runner (table and trace) as it was, so the identifier is never
    registered and nothing tells the caller. *)
Theorem mount_unconfigured os now remote_path mount_point options self :
  rclone_path self = "" ->
  exists l t cmd,
    mount os now remote_path mount_point options self = (Return l, self) /\
    returned l = Launched ("mount_" +:+ strftime_YmdHMS now) ("" :: cmd) "iniciado" /\
    success_of (returned l) = None /\
    error_of (returned l) = None /\
    worker l = Some t /\
    (forall s, rclone_path s = "" -> start_worker t s = (Finished, s)) /\
    (forall progress, after_launch progress l self = self).
Proof.
  intros Hpath. rewrite mount_eq, Hpath. eexists _, _, _.
  split; [reflexivity|]. cbn [returned worker success_of error_of].
  repeat split.
  - intros s Hs. unfold start_worker.
    by rewrite run_long_process_unconfigured.
  - intros [|[|n]]; cbn; [done| |];
      unfold run_worker, start_worker;
      by rewrite run_long_process_unconfigured.
Qed.

Lemma mount_unconfigured_witness :
  rclone_path Examples.unconfigured = "" /\
  (mount Examples.linux Examples.morning "gdrive:" "/mnt/g" None
     Examples.unconfigured).1 =
    Return (Launch
      (Launched "mount_20240517093000" [""; "mount"; "gdrive:"; "/mnt/g"] "iniciado")
      (Some (_run_long_process Examples.linux ["mount"; "gdrive:"; "/mnt/g"]
               "mount_20240517093000"))) /\
  forall progress,
    after_launch progress
      (Launch
         (Launched "mount_20240517093000" [""; "mount"; "gdrive:"; "/mnt/g"] "iniciado")
         (Some (_run_long_process Examples.linux ["mount"; "gdrive:"; "/mnt/g"]
                  "mount_20240517093000")))
      Examples.unconfigured = Examples.unconfigured.
Proof.
  split; [reflexivity|].
  destruct (mount_unconfigured Examples.linux Examples.morning "gdrive:" "/mnt/g"
              None Examples.unconfigured eq_refl)
    as (l & t & cmd & Heq & _ & _ & _ & _ & _ & Hafter).
  rewrite mount_eq in Heq. injection Heq as <-.
  split; [reflexivity | exact Hafter].
Defined.

(** ** Streaming *)

(** The calls a method makes, as equations. *)

Lemma Popen_eq os cmd self :
  Popen os cmd self =
    (match os_Popen os (trace self) cmd with
     | inl e => Raise e
     | inr p => Return p
     end,
     Runner (rclone_path self) (_running_processes self) (trace self ++ [EvPopen cmd])).
Proof.
  unfold Popen, bind, get, record, modify. cbn.
  by destruct (os_Popen os (trace self) cmd).
Qed.

Lemma subprocess_run_eq os cmd timeout self :
  subprocess_run os cmd timeout self =
    (match os_run os (trace self) cmd timeout with
     | inl e => Raise e
     | inr r => Return r
     end,
     Runner (rclone_path self) (_running_processes self)
            (trace self ++ [EvRun cmd timeout])).
Proof.
  unfold subprocess_run, bind, get, record, modify. cbn.
  by destruct (os_run os (trace self) cmd timeout).
Qed.

Lemma terminate_eq p self :
  terminate p self =
    (match proc_terminate_error p with
     | Some e => Raise e
     | None => Return tt
     end,
     Runner (rclone_path self) (_running_processes self)
            (trace self ++ [EvTerminate p])).
Proof.
  unfold terminate, bind, record, modify. cbn.
  by destruct (proc_terminate_error p).
Qed.

Lemma register_eq process_id p self :
  register process_id p self =
    (Return tt, Runner (rclone_path self)
                       (<[process_id := p]> (_running_processes self)) (trace self)).
Proof. reflexivity. Qed.

Lemma del_eq process_id p self :
  _running_processes self !! process_id = Some p ->
  del process_id self =
    (Return tt, Runner (rclone_path self)
                       (delete process_id (_running_processes self)) (trace self)).
Proof. intros Hp. unfold del, bind, get, modify. cbn. by rewrite Hp. Qed.

(** Removing an identifier that may be absent never raises. *)
Lemma del_if_present_eq process_id self :
  del_if_present process_id self =
    (Return tt, Runner (rclone_path self)
                       (delete process_id (_running_processes self)) (trace self)).
Proof.
  unfold del_if_present, del, bind, get, modify.
  destruct (_running_processes self !! process_id) as [p|] eqn:Hp; cbn.
  - by rewrite Hp.
  - rewrite delete_id by done. by destruct self.
Qed.

#[local] Arguments Popen : simpl never.
#[local] Arguments subprocess_run : simpl never.
#[local] Arguments terminate : simpl never.
#[local] Arguments call : simpl never.
#[local] Arguments register : simpl never.
#[local] Arguments del : simpl never.
#[local] Arguments del_if_present : simpl never.

(** One step of a computation: unfold the monad, keep the calls. *)
Ltac monad_step :=
  unfold bind, try_except, get, ret, raise, call_if; cbn beta iota zeta.

Lemma deliveries_app t1 t2 :
  deliveries (t1 ++ t2) = (deliveries t1 ++ deliveries t2)%list.
Proof. apply omap_app. Qed.

Lemma deliveries_outputs lines :
  deliveries ((fun line => EvCallback (Output line)) <$> lines) = Output <$> lines.
Proof. induction lines as [|line lines IH]; cbn; [done|]. by rewrite <- IH. Qed.

Section quiet_callback.
Variable callback : sink.
Hypothesis callback_returns : forall before x, callback before x = None.

Lemma call_eq d self :
  call callback d self =
    (Return tt, Runner (rclone_path self) (_running_processes self)
                       (trace self ++ [EvCallback d])).
Proof.
  unfold call, bind, get, record, modify. cbn.
  by rewrite callback_returns.
Qed.

Lemma for_each_call_eq lines : forall self,
  for_each lines (fun line => call_if (Some callback) (Output line)) self =
    (Return tt, Runner (rclone_path self) (_running_processes self)
                       (trace self ++ ((fun line => EvCallback (Output line)) <$> lines))).
Proof.
  induction lines as [|line lines IH]; intros self.
  - cbn. rewrite app_nil_r. by destruct self.
  - cbn [for_each]. unfold bind, call_if.
    rewrite call_eq, IH. cbn. by rewrite <- app_assoc.
Qed.

(** What the [except] clause of the streaming worker does. *)
Lemma streaming_handler_eq process_id e self :
  (call_if (Some callback) (Error (exn_str e));;; del_if_present process_id) self =
    (Return tt, Runner (rclone_path self)
                       (delete process_id (_running_processes self))
                       (trace self ++ [EvCallback (Error (exn_str e))])).
Proof. monad_step. by rewrite call_eq, del_if_present_eq. Qed.

(** The streaming worker once its child is there: it reads the output
    to its end, reports, and removes the identifier. *)
Lemma streaming_body_eq process_id p self :
  try_except
    (for_each (proc_stdout p)
       (fun line => call_if (Some callback) (Output line));;;
     from_option raise (ret tt) (proc_stdout_error p);;;
     call_if (Some callback) (ReturnCode (proc_returncode p));;;
     del_if_present process_id)
    (fun e => call_if (Some callback) (Error (exn_str e));;;
              del_if_present process_id) self =
    (Return tt,
     Runner (rclone_path self)
       (delete process_id (_running_processes self))
       (trace self ++ ((fun line => EvCallback (Output line)) <$> proc_stdout p)
        ++ [EvCallback (match proc_stdout_error p with
                        | Some e => Error (exn_str e)
                        | None => ReturnCode (proc_returncode p)
                        end)])).
Proof.
  monad_step. rewrite for_each_call_eq.
  destruct (proc_stdout_error p) as [e|]; cbn.
  - rewrite call_eq, del_if_present_eq. cbn. by rewrite <- app_assoc.
  - rewrite call_eq, del_if_present_eq. cbn. by rewrite <- app_assoc.
Qed.
End quiet_callback.

Lemma filter_outputs lines : List.filter is_marker (Output <$> lines) = [].
Proof. by induction lines. Qed.

(** A streaming worker that finds no path set is over at once. *)
Lemma run_process_with_output_unconfigured os args process_id callback self :
  rclone_path self = "" ->
  _run_process_with_output os args process_id callback self = (Return Finished, self).
Proof.
  intros Hpath. unfold _run_process_with_output, bind, get.
  by rewrite bool_decide_eq_true_2.
Qed.

(** The streaming worker up to the point where it blocks. *)
Lemma run_process_with_output_start os args process_id callback self :
  rclone_path self <> "" ->
  start_worker (_run_process_with_output os args process_id callback) self =
    match os_Popen os (trace self) (rclone_path self :: args) with
    | inl e =>
        (Finished,
         ((call_if callback (Error (exn_str e));;; del_if_present process_id)
            (Runner (rclone_path self) (_running_processes self)
                    (trace self ++ [EvPopen (rclone_path self :: args)]))).2)
    | inr p =>
        (Waiting p
           (try_except
              (for_each (proc_stdout p)
                 (fun line => call_if callback (Output line));;;
               from_option raise (ret tt) (proc_stdout_error p);;;
               call_if callback (ReturnCode (proc_returncode p));;;
               del_if_present process_id)
              (fun e => call_if callback (Error (exn_str e));;;
                        del_if_present process_id)),
         Runner (rclone_path self)
                (<[process_id := p]> (_running_processes self))
                (trace self ++ [EvPopen (rclone_path self :: args)]))
    end.
Proof.
  intros Hpath. unfold start_worker, _run_process_with_output.
  unfold bind at 1. unfold get at 1. cbn beta iota zeta.
  rewrite bool_decide_eq_false_2 by done.
  unfold try_except at 1. unfold bind at 1. cbn [app]. rewrite Popen_eq.
  destruct (os_Popen os (trace self) (rclone_path self :: args)) as [e|p].
  - cbn beta iota zeta. unfold bind at 1.
    destruct ((call_if callback (Error (exn_str e));;; del_if_present process_id) _)
      as [[[]|e'] s']; reflexivity.
  - cbn beta iota zeta. unfold bind at 1. rewrite register_eq. reflexivity.
Qed.

(** [cancel_transfer] on any identifier. *)
Lemma cancel_transfer_eq process_id self :
  cancel_transfer process_id self =
    match _running_processes self !! process_id with
    | Some p =>
        match proc_terminate_error p with
        | None =>
            (Return (Done ("Proceso cancelado: " +:+ process_id)),
             Runner (rclone_path self) (delete process_id (_running_processes self))
                    (trace self ++ [EvTerminate p]))
        | Some e =>
            (Return (Status false ("Error al cancelar proceso: " +:+ exn_str e)),
             Runner (rclone_path self) (_running_processes self)
                    (trace self ++ [EvTerminate p]))
        end
    | None =>
        (Return (Status false ("No se encontró el proceso: " +:+ process_id)), self)
    end.
Proof.
  unfold cancel_transfer. unfold bind at 1. unfold get at 1. cbn beta iota zeta.
  destruct (_running_processes self !! process_id) as [p|] eqn:Hp; [|done].
  monad_step. rewrite terminate_eq.
  destruct (proc_terminate_error p) as [e|]; [done|].
  by erewrite del_eq by (cbn; exact Hp).
Qed.

(** *** The worker among other threads *)

Lemma added_app self path table evs :
  added self (Runner path table (trace self ++ evs)) = evs.
Proof. unfold added. cbn. by rewrite drop_app_length. Qed.

Lemma added_same self path table :
  added self (Runner path table (trace self)) = [].
Proof. unfold added. cbn. apply drop_all. Qed.

Lemma added_refl self : added self self = [].
Proof. apply drop_all. Qed.

Lemma after_events_nil {A} (o : outcome A) : after_events [] o = o.
Proof. by destruct o. Qed.

Lemma after_events_app {A} evs1 evs2 (o : outcome A) :
  after_events evs1 (after_events evs2 o) = after_events (evs1 ++ evs2) o.
Proof. unfold after_events. cbn. by rewrite app_assoc. Qed.

Lemma interleaved_Step {A} others n (step : M runner (steps A)) self :
  interleaved others n (Step step) self =
    match step (others n self) with
    | (Return t', self') =>
        after_events (added (others n self) self') (interleaved others (S n) t' self')
    | (Raise e, self') => Outcome (Raise e) self' (added (others n self) self')
    end.
Proof. reflexivity. Qed.

Lemma interleaved_guarded {A} others n handler (step : M runner (steps A)) self :
  interleaved others n (Stepwise.guarded handler step) self =
    match step (others n self) with
    | (Return t', self') =>
        after_events (added (others n self) self') (interleaved others (S n) t' self')
    | (Raise e, self') =>
        after_events (added (others n self) self')
          (interleaved others (S n) (handler e) self')
    end.
Proof.
  unfold Stepwise.guarded. rewrite interleaved_Step. unfold try_except, ret.
  by destruct (step (others n self)) as [[t'|e] self'].
Qed.

#[local] Arguments interleaved : simpl never.

Lemma del_absent process_id self :
  _running_processes self !! process_id = None ->
  del process_id self = (Raise (Exn false ("'" +:+ process_id +:+ "'")), self).
Proof. intros Hp. unfold del, bind, get. cbn. by rewrite Hp. Qed.

(** The test and the removal outside a [try]: nothing is done to the
    outside world. *)
Lemma removal_events others process_id n self :
  exists r self',
    interleaved others n (Stepwise.del_if_present Step process_id (Value tt)) self =
      Outcome r self' [].
Proof.
  unfold Stepwise.del_if_present. rewrite interleaved_Step.
  unfold bind at 1. unfold get at 1. cbn beta iota zeta.
  set (s0 := others n self).
  case_bool_decide as Htest; unfold ret at 1; rewrite added_refl.
  - rewrite interleaved_Step. unfold bind at 1.
    destruct (_running_processes (others (S n) s0) !! process_id) as [p|] eqn:Hp.
    + rewrite (del_eq _ p) by done. unfold ret.
      rewrite added_same. by eexists _, _.
    + rewrite del_absent by done. rewrite added_refl. by eexists _, _.
  - by eexists _, _.
Qed.

Section quiet_steps.
Variable callback : sink.
Hypothesis callback_returns : forall before x, callback before x = None.
Variable others : interference.
Variable process_id : string.

(** The [except] clause of the streaming worker, step by step: the error
    marker, and nothing else. *)
Lemma streaming_except_events e n self :
  exists r self',
    interleaved others n (Stepwise.streaming_except process_id (Some callback) e) self =
      Outcome r self' [EvCallback (Error (exn_str e))].
Proof.
  unfold Stepwise.streaming_except. rewrite interleaved_Step.
  unfold bind at 1, call_if. rewrite call_eq by done. unfold ret at 1.
  rewrite added_app.
  destruct (removal_events others process_id (S n)
              (Runner (rclone_path (others n self)) (_running_processes (others n self))
                 (trace (others n self) ++ [EvCallback (Error (exn_str e))])))
    as (r & self' & ->).
  by eexists _, _.
Qed.

(** The test and the removal at the end of the [try] block. *)
Lemma guarded_removal_events n self :
  exists again r self',
    interleaved others n
      (Stepwise.del_if_present
         (Stepwise.guarded (Stepwise.streaming_except process_id (Some callback)))
         process_id (Value tt)) self =
      Outcome r self' (EvCallback <$> again) /\
    (again = [] \/ again = [Error ("'" +:+ process_id +:+ "'")]) /\
    (never_removes others process_id -> again = []).
Proof.
  unfold Stepwise.del_if_present. rewrite interleaved_guarded.
  unfold bind at 1. unfold get at 1. cbn beta iota zeta.
  set (s0 := others n self).
  case_bool_decide as Htest; unfold ret at 1; rewrite added_refl.
  - rewrite interleaved_guarded. unfold bind at 1.
    destruct (_running_processes (others (S n) s0) !! process_id) as [p|] eqn:Hp.
    + rewrite (del_eq _ p) by done. unfold ret. rewrite added_same.
      eexists [], _, _. split; [reflexivity|]. split; [by left|done].
    + rewrite del_absent by done. rewrite added_refl.
      destruct (streaming_except_events
                  (Exn false ("'" +:+ process_id +:+ "'")) (S (S n)) (others (S n) s0))
        as (r & self' & ->).
      exists [Error ("'" +:+ process_id +:+ "'")], r, self'.
      split; [reflexivity|]. split; [by right|].
      intros Hkeep. destruct (Hkeep (S n) s0 Htest) as [p Hp'].
      by rewrite Hp in Hp'.
  - eexists [], _, _. split; [reflexivity|]. split; [by left|done].
Qed.

(** Reading the lines: each is handed to the callback, in order. *)
Lemma read_lines_events handler lines : forall rest n self,
  exists k self',
    (never_removes others process_id ->
     is_Some (_running_processes self !! process_id) ->
     is_Some (_running_processes self' !! process_id)) /\
    interleaved others n
      (Stepwise.read_lines (Stepwise.guarded handler) (Some callback) lines rest) self =
      after_events ((fun line => EvCallback (Output line)) <$> lines)
        (interleaved others k rest self').
Proof.
  induction lines as [|line lines IH]; intros rest n self.
  - exists n, self. split; [done|]. cbn. by rewrite after_events_nil.
  - cbn [Stepwise.read_lines]. rewrite interleaved_guarded.
    unfold bind at 1, call_if. rewrite call_eq by done. unfold ret at 1.
    rewrite added_app.
    destruct (IH rest (S n)
                (Runner (rclone_path (others n self)) (_running_processes (others n self))
                   (trace (others n self) ++ [EvCallback (Output line)])))
      as (k & self' & Hkeep & ->).
    exists k, self'. split.
    + intros Hothers Hp. apply Hkeep; [done|]. cbn. by apply Hothers.
    + by rewrite after_events_app.
Qed.
End quiet_steps.

Lemma deliveries_cons_callback d evs :
  deliveries (EvCallback d :: evs) = d :: deliveries evs.
Proof. reflexivity. Qed.

Lemma deliveries_cons_popen cmd evs :
  deliveries (EvPopen cmd :: evs) = deliveries evs.
Proof. reflexivity. Qed.

Lemma deliveries_callbacks ds : deliveries (EvCallback <$> ds) = ds.
Proof. induction ds as [|d ds IH]; [done|]. cbn. by rewrite <- IH at 2. Qed.

(** What a callback that returns is called with by a streaming worker
    that finds the path set, whatever the other threads do. *)
Lemma streaming_interleaved os args process_id (callback : sink) others self :
  (forall before x, callback before x = None) ->
  rclone_path (others 0%nat self) <> "" ->
  exists again,
    (again = [] \/ again = [Error ("'" +:+ process_id +:+ "'")]) /\
    (never_removes others process_id -> again = []) /\
    deliveries (out_events (interleaved others 0
        (Stepwise._run_process_with_output os args process_id (Some callback)) self)) =
      match os_Popen os (trace (others 2%nat (others 1%nat (others 0%nat self))))
                     (rclone_path (others 1%nat (others 0%nat self)) :: args) with
      | inl e => [Error (exn_str e)]
      | inr p =>
          (Output <$> proc_stdout p) ++
          match proc_stdout_error p with
          | Some e => [Error (exn_str e)]
          | None => ReturnCode (proc_returncode p) :: again
          end
      end%list.
Proof.
  intros Hcb Hpath. unfold Stepwise._run_process_with_output.
  rewrite interleaved_Step. unfold bind at 1. unfold get at 1. cbn beta iota zeta.
  rewrite bool_decide_eq_false_2 by done. unfold ret at 1.
  rewrite added_refl, after_events_nil.
  set (s0 := others 0%nat self).
  rewrite interleaved_Step. unfold bind at 1. unfold get at 1. cbn beta iota zeta.
  unfold ret at 1. rewrite added_refl, after_events_nil.
  set (s1 := others 1%nat s0).
  rewrite interleaved_guarded. unfold bind at 1. cbn [app]. rewrite Popen_eq.
  set (s2 := others 2%nat s1).
  destruct (os_Popen os (trace s2) (rclone_path s1 :: args)) as [e|p].
  - rewrite added_app.
    destruct (streaming_except_events callback Hcb others process_id e 3
                (Runner (rclone_path s2) (_running_processes s2)
                   (trace s2 ++ [EvPopen (rclone_path s1 :: args)])))
      as (r & self' & ->).
    exists []. split; [by left|]. split; [done|]. reflexivity.
  - unfold ret at 1. rewrite added_app.
    rewrite interleaved_guarded. unfold bind at 1. rewrite register_eq.
    unfold ret at 1. rewrite added_same. unfold Stepwise.streaming_body.
    match goal with
    | |- context [interleaved others 4 (Stepwise.read_lines ?g _ _ ?rest) ?s] =>
        destruct (read_lines_events callback Hcb others process_id
                    (Stepwise.streaming_except process_id (Some callback))
                    (proc_stdout p) rest 4%nat s)
          as (k & s4 & Hkeep & ->)
    end.
    rewrite interleaved_guarded. unfold bind at 1.
    destruct (proc_stdout_error p) as [e|]; cbn [from_option].
    + unfold raise at 1. rewrite added_refl.
      destruct (streaming_except_events callback Hcb others process_id e (S k)
                  (others k s4)) as (r & self' & ->).
      exists []. split; [by left|]. split; [done|].
      cbn [after_events out_events app]. rewrite deliveries_cons_popen.
      rewrite !deliveries_app, deliveries_outputs. reflexivity.
    + unfold ret at 1 2. rewrite added_refl.
      rewrite interleaved_guarded. unfold bind at 1, call_if.
      rewrite call_eq by done. unfold ret at 1. rewrite added_app.
      match goal with
      | |- context [interleaved others (S (S k)) _ ?s] =>
          destruct (guarded_removal_events callback Hcb others process_id (S (S k)) s)
            as (again & r & self' & -> & Hagain & Hnone)
      end.
      exists again. split; [done|]. split; [done|].
      cbn [after_events out_events app]. rewrite deliveries_cons_popen.
      rewrite !deliveries_app, deliveries_outputs, deliveries_cons_callback.
      by rewrite deliveries_callbacks.
Qed.

(** *** The steps of a thread that runs alone *)

Ltac no_others :=
  repeat match goal with
         | |- context [alone ?n ?s] => change (alone n s) with s
         end.

Lemma call_if_eq callback d self :
  call_if callback d self =
    (match callback with
     | Some cb =>
         match cb (render <$> deliveries (trace self)) (render d) with
         | Some e => Raise e
         | None => Return tt
         end
     | None => Return tt
     end,
     match callback with
     | Some _ => Runner (rclone_path self) (_running_processes self)
                        (trace self ++ [EvCallback d])
     | None => self
     end).
Proof.
  destruct callback as [cb|]; [|done].
  unfold call_if, call, bind, get, record, modify. cbn.
  by destruct (cb _ _).
Qed.

Lemma removal_alone process_id n self :
  out_runner (interleaved alone n
                (Stepwise.del_if_present Step process_id (Value tt)) self) =
    (del_if_present process_id self).2.
Proof.
  unfold Stepwise.del_if_present. rewrite interleaved_Step.
  unfold bind at 1. unfold get at 1. cbn beta iota zeta. no_others.
  rewrite del_if_present_eq.
  case_bool_decide as Htest; unfold ret at 1.
  - destruct Htest as [p Hp]. rewrite interleaved_Step. unfold bind at 1.
    no_others. by rewrite (del_eq _ p) by done.
  - cbn. apply eq_None_not_Some in Htest. rewrite delete_id by done.
    by destruct self.
Qed.

Lemma guarded_removal_alone handler process_id n self :
  out_runner (interleaved alone n
                (Stepwise.del_if_present (Stepwise.guarded handler) process_id
                   (Value tt)) self) =
    (del_if_present process_id self).2.
Proof.
  unfold Stepwise.del_if_present. rewrite interleaved_guarded.
  unfold bind at 1. unfold get at 1. cbn beta iota zeta. no_others.
  rewrite del_if_present_eq.
  case_bool_decide as Htest; unfold ret at 1.
  - destruct Htest as [p Hp]. rewrite interleaved_guarded. unfold bind at 1.
    no_others. by rewrite (del_eq _ p) by done.
  - cbn. apply eq_None_not_Some in Htest. rewrite delete_id by done.
    by destruct self.
Qed.

Lemma streaming_except_alone process_id callback e n self :
  out_runner (interleaved alone n
                (Stepwise.streaming_except process_id callback e) self) =
    ((call_if callback (Error (exn_str e));;; del_if_present process_id) self).2.
Proof.
  unfold Stepwise.streaming_except. rewrite interleaved_Step.
  unfold bind. no_others. rewrite call_if_eq.
  destruct callback as [cb|].
  - destruct (cb _ _); [done|]. unfold ret at 1. cbn [out_runner after_events].
    apply removal_alone.
  - unfold ret at 1. cbn [out_runner after_events]. apply removal_alone.
Qed.

Lemma for_each_cons {A} (x : A) l (body : A -> M runner unit) self :
  for_each (x :: l) body self =
    match body x self with
    | (Return _, self') => for_each l body self'
    | (Raise e, self') => (Raise e, self')
    end.
Proof. reflexivity. Qed.

Lemma read_lines_alone process_id callback lines : forall rest n self,
  out_runner (interleaved alone n
                (Stepwise.read_lines
                   (Stepwise.guarded (Stepwise.streaming_except process_id callback))
                   callback lines rest) self) =
    match for_each lines (fun line => call_if callback (Output line)) self with
    | (Return _, self') =>
        out_runner (interleaved alone (n + length lines) rest self')
    | (Raise e, self') =>
        ((call_if callback (Error (exn_str e));;; del_if_present process_id) self').2
    end.
Proof.
  induction lines as [|line lines IH]; intros rest n self.
  - cbn. by rewrite Nat.add_0_r.
  - cbn [Stepwise.read_lines length]. rewrite interleaved_guarded, for_each_cons.
    unfold bind at 1. no_others.
    destruct (call_if callback (Output line) self) as [[[]|e] self'].
    + unfold ret at 1. cbn [out_runner after_events].
      rewrite IH. by rewrite Nat.add_succ_comm.
    + cbn [out_runner after_events]. apply streaming_except_alone.
Qed.

Lemma try_except_bind {A B} (m : M runner A) (k : A -> M runner B) handler self :
  try_except (bind m k) handler self =
    match m self with
    | (Return a, self') => try_except (k a) handler self'
    | (Raise e, self') => handler e self'
    end.
Proof. unfold try_except, bind. by destruct (m self) as [[a|e] self']. Qed.

(** A streaming worker that no other thread interrupts leaves the runner
    as [run_worker] says, whatever the callback does. *)
Lemma streaming_steps_alone os args process_id callback self :
  out_runner (interleaved alone 0
                (Stepwise._run_process_with_output os args process_id callback) self) =
    run_worker (_run_process_with_output os args process_id callback) self.
Proof.
  unfold Stepwise._run_process_with_output, run_worker.
  rewrite interleaved_Step. unfold bind at 1. unfold get at 1.
  cbn beta iota zeta. no_others.
  case_bool_decide as Hpath; unfold ret at 1.
  { unfold start_worker. by rewrite run_process_with_output_unconfigured. }
  rewrite run_process_with_output_start by done.
  cbn [out_runner after_events].
  rewrite interleaved_Step. unfold bind at 1. unfold get at 1. cbn beta iota zeta.
  no_others. unfold ret at 1. cbn [out_runner after_events].
  rewrite interleaved_guarded. unfold bind at 1.
  no_others. cbn [app]. rewrite Popen_eq.
  destruct (os_Popen os (trace self) (rclone_path self :: args)) as [e|p].
  - cbn [out_runner after_events resume_worker]. apply streaming_except_alone.
  - unfold ret at 1. cbn [out_runner after_events resume_worker].
    rewrite interleaved_guarded. unfold bind at 1. no_others.
    rewrite register_eq. unfold ret at 1.
    cbn [out_runner after_events rclone_path _running_processes trace].
    unfold Stepwise.streaming_body. rewrite read_lines_alone, try_except_bind.
    destruct (for_each (proc_stdout p) _ _) as [[[]|e] s4]; [|done].
    rewrite interleaved_guarded, try_except_bind. unfold bind at 1. no_others.
    destruct (proc_stdout_error p) as [e|]; cbn [from_option].
    + unfold raise at 1 2. cbn [out_runner after_events].
      apply streaming_except_alone.
    + change (ret tt s4) with (@Return unit tt, s4). cbn beta iota.
      unfold ret at 1. cbn [out_runner after_events].
      rewrite interleaved_guarded, try_except_bind. unfold bind at 1. no_others.
      destruct (call_if callback (ReturnCode (proc_returncode p)) s4)
        as [[[]|e] s5].
      * unfold ret at 1. cbn [out_runner after_events].
        rewrite guarded_removal_alone. unfold try_except.
        by rewrite del_if_present_eq.
      * cbn [out_runner after_events]. apply streaming_except_alone.
Qed.

(** C1, as amended: a streaming invocation whose callback does not
    raise, among other threads that do anything to the runner between its
    steps.  When it finds the path set, it delivers the lines of output
    in order and then a marker: the return code when the output was read
    to its end, an error when the process could not be started or reading
    it raised.  This marker is the only one, and the last delivery, as
    long as no other thread removes the identifier from the table; one
    that does can add one thing only, an error marker that names the
    identifier, after the return code.  When it finds the path empty it
    delivers nothing. *)
Theorem streaming_marker os args process_id (callback : sink)
    (others : interference) self :
  (forall before x, callback before x = None) ->
  let tested := others 0%nat self in
  let built := others 1%nat tested in
  let spawned := others 2%nat built in
  exists lines marker again,
    match os_Popen os (trace spawned) (rclone_path built :: args) with
    | inl e => lines = [] /\ marker = Error (exn_str e) /\ again = []
    | inr p =>
        lines = proc_stdout p /\
        match proc_stdout_error p with
        | Some e => marker = Error (exn_str e) /\ again = []
        | None =>
            marker = ReturnCode (proc_returncode p) /\
            (again = [] \/ again = [Error ("'" +:+ process_id +:+ "'")])
        end
    end /\
    (never_removes others process_id -> again = []) /\
    deliveries (out_events (interleaved others 0
        (Stepwise._run_process_with_output os args process_id (Some callback))
        self)) =
      if bool_decide (rclone_path tested = "") then []
      else ((Output <$> lines) ++ [marker] ++ again)%list.
Proof.
  intros Hcb tested built spawned.
  destruct (decide (rclone_path tested = "")) as [Hpath|Hpath].
  - rewrite bool_decide_eq_true_2 by done.
    assert (out_events (interleaved others 0
              (Stepwise._run_process_with_output os args process_id (Some callback))
              self) = []) as ->.
    { unfold Stepwise._run_process_with_output. rewrite interleaved_Step.
      unfold bind at 1. unfold get at 1. cbn beta iota zeta.
      fold tested. rewrite bool_decide_eq_true_2 by done.
      unfold ret at 1. by rewrite added_refl. }
    destruct (os_Popen os (trace spawned) (rclone_path built :: args)) as [e|p] eqn:Hos.
    + by exists [], (Error (exn_str e)), [].
    + destruct (proc_stdout_error p) as [e|].
      * by exists (proc_stdout p), (Error (exn_str e)), [].
      * exists (proc_stdout p), (ReturnCode (proc_returncode p)), []. auto.
  - rewrite bool_decide_eq_false_2 by done.
    destruct (streaming_interleaved os args process_id callback others self Hcb Hpath)
      as (again & Hagain & Hnone & ->).
    fold tested built spawned.
    destruct (os_Popen os (trace spawned) (rclone_path built :: args)) as [e|p] eqn:Hos.
    + by exists [], (Error (exn_str e)), [].
    + destruct (proc_stdout_error p) as [e|].
      * by exists (proc_stdout p), (Error (exn_str e)), [].
      * by exists (proc_stdout p), (ReturnCode (proc_returncode p)), again.
Qed.

(** Cancelling another transfer does not remove this one. *)
Lemma cancel_other_never_removes k other process_id :
  other <> process_id -> never_removes (Races.cancel_before k other) process_id.
Proof.
  intros Hne n self Hp. unfold Races.cancel_before. case_bool_decide; [|done].
  rewrite cancel_transfer_eq.
  destruct (_running_processes self !! other) as [p|]; [|done].
  destruct (proc_terminate_error p); [done|].
  cbn. by rewrite lookup_delete_ne.
Qed.

Lemma streaming_marker_witness :
  (forall before x, Examples.quiet before x = None) /\
  deliveries (out_events (interleaved
      (Races.cancel_before 5 "transfer_20240517092900") 0
      (Stepwise._run_process_with_output Examples.linux
         ["copy"; "a"; "b:"; "--progress"]
         "transfer_20240517093000" (Some Examples.quiet))
      Examples.configured)) =
    [Output "Transferred: 1 / 2, 50%
"; Output "done
"; ReturnCode 0].
Proof.
  split; [reflexivity|].
  destruct (streaming_marker Examples.linux ["copy"; "a"; "b:"; "--progress"]
              "transfer_20240517093000" Examples.quiet
              (Races.cancel_before 5 "transfer_20240517092900") Examples.configured
              (fun _ _ => eq_refl))
    as (lines & marker & again & (-> & -> & _) & Hnone & Heq).
  rewrite Hnone in Heq by (by apply cancel_other_never_removes).
  exact Heq.
Defined.

(** The identifier is tested and removed in two steps: when
    [cancel_transfer] removes it in between, the removal raises inside
    the [try], and the callback receives an error marker after the return
    code. *)
Example streaming_cancelled_late :
  deliveries (out_events (interleaved
      (Races.cancel_before 9 "transfer_20240517093000") 0
      (Stepwise._run_process_with_output Examples.linux
         ["copy"; "a"; "b:"; "--progress"]
         "transfer_20240517093000" (Some Examples.quiet))
      Examples.configured)) =
    [Output "Transferred: 1 / 2, 50%
"; Output "done
"; ReturnCode 0; Error "'transfer_20240517093000'"].
Proof. reflexivity. Qed.

(** A transfer cancelled while its output is read ends with one
    marker. *)
Example streaming_cancelled_early :
  deliveries (out_events (interleaved
      (Races.cancel_before 5 "transfer_20240517093000") 0
      (Stepwise._run_process_with_output Examples.linux
         ["copy"; "a"; "b:"; "--progress"]
         "transfer_20240517093000" (Some Examples.quiet))
      Examples.configured)) =
    [Output "Transferred: 1 / 2, 50%
"; Output "done
"; ReturnCode 0].
Proof. reflexivity. Qed.

(** C1 fails as stated: with the executable path empty the worker returns
    at once, and the callback receives no marker at all. *)
Lemma streaming_unconfigured_no_marker :
  deliveries (trace (run_worker
      (_run_process_with_output Examples.linux ["copy"; "a"; "b:"; "--progress"]
         "transfer_20240517093000" (Some Examples.quiet))
      Examples.unconfigured)) = [].
Proof. reflexivity. Qed.

(** A callback that raises on the return-code marker is then called with
    an error marker as well: it receives two markers. *)
Example streaming_fragile_callback :
  deliveries (trace (run_worker
      (_run_process_with_output Examples.linux ["copy"; "a"; "b:"; "--progress"]
         "transfer_20240517093000" (Some Examples.fragile))
      Examples.configured)) =
    [Output "Transferred: 1 / 2, 50%
"; Output "done
"; ReturnCode 0; Error "main thread is not in main loop"].
Proof. reflexivity. Qed.

(** ** Termination *)

(** [unmount] with an identifier that is registered. *)
Lemma unmount_tracked_eq os mount_point process_id p self :
  process_id <> "" ->
  _running_processes self !! process_id = Some p ->
  unmount os mount_point (Some process_id) self =
    match proc_terminate_error p with
    | None =>
        (Return (Done ("Proceso de montaje terminado: " +:+ process_id)),
         Runner (rclone_path self) (delete process_id (_running_processes self))
                (trace self ++ [EvTerminate p]))
    | Some e =>
        (Return (Status false ("Error al terminar proceso: " +:+ exn_str e)),
         Runner (rclone_path self) (_running_processes self)
                (trace self ++ [EvTerminate p]))
    end.
Proof.
  intros Hne Hp. unfold unmount. unfold bind at 1. unfold get at 1.
  cbn beta iota zeta. rewrite bool_decide_eq_true_2, Hp by done. cbn [fmap option_fmap option_map].
  monad_step. rewrite terminate_eq.
  destruct (proc_terminate_error p) as [e|]; [done|].
  by erewrite del_eq by (cbn; exact Hp).
Qed.

(** [unmount] without an identifier that is registered: the fallback of
    the platform. *)
Lemma unmount_fallback_eq os mount_point process_id self :
  match process_id with
  | Some pid => pid = "" \/ _running_processes self !! pid = None
  | None => True
  end ->
  unmount os mount_point process_id self =
    if bool_decide (platform_system os = "Windows") then
      if bool_decide (String.length (PyStr.rstrip "\:" mount_point) = 1%nat) then
        let cmd := ["net"; "use"; PyStr.rstrip "\:" mount_point +:+ ":";
                    "/delete"; "/y"] in
        (Return (reported (os_run os (trace self) cmd None)),
         Runner (rclone_path self) (_running_processes self)
                (trace self ++ [EvRun cmd None]))
      else
        (Return (Status false "No se pudo desmontar el punto de montaje"), self)
    else
      let cmd := ["fusermount"; "-u"; mount_point] in
      (Return (reported (os_run os (trace self) cmd None)),
       Runner (rclone_path self) (_running_processes self)
              (trace self ++ [EvRun cmd None])).
Proof.
  intros Hpid. unfold unmount. unfold bind at 1. unfold get at 1.
  cbn beta iota zeta.
  set (tracked := match process_id with Some pid => _ | None => None end).
  assert (tracked = None) as ->.
  { subst tracked. destruct process_id as [pid|]; [|done].
    case_bool_decide; [|done]. destruct Hpid as [?| ->]; done. }
  monad_step.
  destruct (bool_decide (platform_system os = "Windows")).
  - destruct (bool_decide (String.length (PyStr.rstrip "\:" mount_point) = 1%nat));
      [|done].
    rewrite subprocess_run_eq.
    by destruct (os_run os (trace self) _ None).
  - rewrite subprocess_run_eq.
    by destruct (os_run os (trace self) _ None).
Qed.

(** [cancel_transfer] and [unmount] when no other thread runs: what they
    return, and what becomes of the table and of the trace, in every
    case. *)
Lemma terminate_uninterrupted os mount_point process_id self :
  (exists r self',
     cancel_transfer process_id self = (Return r, self') /\
     rclone_path self' = rclone_path self /\
     match _running_processes self !! process_id with
     | Some p =>
         trace self' = (trace self ++ [EvTerminate p])%list /\
         match proc_terminate_error p with
         | None =>
             r = Done ("Proceso cancelado: " +:+ process_id) /\
             _running_processes self' = delete process_id (_running_processes self)
         | Some e =>
             r = Status false ("Error al cancelar proceso: " +:+ exn_str e) /\
             _running_processes self' = _running_processes self
         end
     | None =>
         r = Status false ("No se encontró el proceso: " +:+ process_id) /\
         self' = self
     end) /\
  (exists r self',
     unmount os mount_point (Some process_id) self = (Return r, self') /\
     rclone_path self' = rclone_path self /\
     match (if bool_decide (process_id = "") then None
            else _running_processes self !! process_id) with
     | Some p =>
         trace self' = (trace self ++ [EvTerminate p])%list /\
         match proc_terminate_error p with
         | None =>
             r = Done ("Proceso de montaje terminado: " +:+ process_id) /\
             _running_processes self' = delete process_id (_running_processes self)
         | Some e =>
             r = Status false ("Error al terminar proceso: " +:+ exn_str e) /\
             _running_processes self' = _running_processes self
         end
     | None =>
         _running_processes self' = _running_processes self /\
         if bool_decide (platform_system os = "Windows") then
           if bool_decide (String.length (PyStr.rstrip "\:" mount_point) = 1%nat) then
             let cmd := ["net"; "use"; PyStr.rstrip "\:" mount_point +:+ ":";
                         "/delete"; "/y"] in
             trace self' = (trace self ++ [EvRun cmd None])%list /\
             r = reported (os_run os (trace self) cmd None)
           else
             trace self' = trace self /\
             r = Status false "No se pudo desmontar el punto de montaje"
         else
           let cmd := ["fusermount"; "-u"; mount_point] in
           trace self' = (trace self ++ [EvRun cmd None])%list /\
           r = reported (os_run os (trace self) cmd None)
     end).
Proof.
  split.
  - rewrite cancel_transfer_eq.
    destruct (_running_processes self !! process_id) as [p|].
    + destruct (proc_terminate_error p) as [e|]; eexists _, _;
        (split; [reflexivity|]); done.
    + eexists _, _. split; [reflexivity|]. done.
  - case_bool_decide as Hid;
      [|destruct (_running_processes self !! process_id) as [p|] eqn:Hp].
    + rewrite unmount_fallback_eq by (by left).
      repeat case_bool_decide; eexists _, _; (split; [reflexivity|]); done.
    + rewrite (unmount_tracked_eq _ _ _ p) by done.
      destruct (proc_terminate_error p) as [e|]; eexists _, _;
        (split; [reflexivity|]); done.
    + rewrite unmount_fallback_eq by (by right).
      repeat case_bool_decide; eexists _, _; (split; [reflexivity|]); done.
Qed.

(** *** Termination among other threads *)

Lemma getitem_eq process_id self :
  Stepwise.getitem process_id self =
    (match _running_processes self !! process_id with
     | Some p => Return p
     | None => Raise (Exn false ("'" +:+ process_id +:+ "'"))
     end, self).
Proof.
  unfold Stepwise.getitem, bind, get. cbn.
  by destruct (_running_processes self !! process_id).
Qed.

(** The two steps both methods make on a registered process, inside
    their [try]: the request to terminate, and the removal. *)
Lemma terminate_and_remove_interleaved {A} others process_id p
    (handler : exn -> steps A) (done : A) n self :
  leaves_entry others process_id ->
  _running_processes self !! process_id = Some p ->
  exists self',
    interleaved others n
      (Stepwise.guarded handler
         (terminate p;;;
          ret (Stepwise.guarded handler (del process_id;;; ret (Value done))))) self =
      match proc_terminate_error p with
      | None => Outcome (Return done) self' [EvTerminate p]
      | Some e =>
          after_events [EvTerminate p] (interleaved others (S n) (handler e) self')
      end /\
    _running_processes self' !! process_id =
      match proc_terminate_error p with
      | None => None
      | Some _ => Some p
      end.
Proof.
  intros Hothers Hp. rewrite interleaved_guarded. unfold bind at 1.
  rewrite terminate_eq.
  destruct (proc_terminate_error p) as [e|].
  - rewrite added_app. eexists. split; [reflexivity|]. cbn. by rewrite Hothers.
  - unfold ret at 1. rewrite added_app, interleaved_guarded. unfold bind at 1.
    match goal with
    | |- context [del process_id ?s] =>
        assert (_running_processes s !! process_id = Some p) as Hs
          by (by rewrite Hothers; cbn; rewrite Hothers);
        rewrite (del_eq _ p _ Hs)
    end.
    unfold ret at 1. rewrite added_same.
    eexists. split; [reflexivity|]. cbn [out_runner _running_processes].
    apply lookup_delete_eq.
Qed.

(** C7, as amended: [cancel_transfer] and [unmount] among other threads
    that leave the entry of the identifier as it is.  They return a
    result and do not raise.  For a registered identifier they request
    termination of the process; when the request returns they remove the
    identifier and report success, and when it raises [cancel_transfer]
    reports the failure and the identifier stays registered.  For an
    identifier that is not registered, [cancel_transfer] fails with the
    not-found message and does nothing, and [unmount] runs the fallback
    of the platform and reports its outcome, or fails without running
    anything when on Windows the mount point is no drive letter. *)
Theorem terminate_returns os mount_point process_id (others : interference) self :
  leaves_entry others process_id ->
  (exists r self' events,
     interleaved others 0 (Stepwise.cancel_transfer process_id) self =
       Outcome (Return r) self' events /\
     match _running_processes self !! process_id with
     | Some p =>
         events = [EvTerminate p] /\
         match proc_terminate_error p with
         | None =>
             r = Done ("Proceso cancelado: " +:+ process_id) /\
             _running_processes self' !! process_id = None
         | Some e =>
             r = Status false ("Error al cancelar proceso: " +:+ exn_str e) /\
             _running_processes self' !! process_id = Some p
         end
     | None =>
         r = Status false ("No se encontró el proceso: " +:+ process_id) /\
         events = [] /\
         _running_processes self' !! process_id = None
     end) /\
  (exists r self' events,
     interleaved others 0 (Stepwise.unmount os mount_point (Some process_id)) self =
       Outcome (Return r) self' events /\
     match (if bool_decide (process_id = "") then None
            else _running_processes self !! process_id) with
     | Some p =>
         events = [EvTerminate p] /\
         match proc_terminate_error p with
         | None =>
             r = Done ("Proceso de montaje terminado: " +:+ process_id) /\
             _running_processes self' !! process_id = None
         | Some e => True
         end
     | None =>
         _running_processes self' !! process_id =
           _running_processes self !! process_id /\
         let before := trace (others 1%nat (others 0%nat self)) in
         if bool_decide (platform_system os = "Windows") then
           if bool_decide (String.length (PyStr.rstrip "\:" mount_point) = 1%nat) then
             let cmd := ["net"; "use"; PyStr.rstrip "\:" mount_point +:+ ":";
                         "/delete"; "/y"] in
             events = [EvRun cmd None] /\
             r = reported (os_run os before cmd None)
           else
             events = [] /\
             r = Status false "No se pudo desmontar el punto de montaje"
         else
           let cmd := ["fusermount"; "-u"; mount_point] in
           events = [EvRun cmd None] /\
           r = reported (os_run os before cmd None)
     end).
Proof.
  intros Hothers. split.
  - unfold Stepwise.cancel_transfer. rewrite interleaved_Step.
    unfold bind at 1. unfold get at 1. cbn beta iota zeta.
    set (s0 := others 0%nat self).
    assert (_running_processes s0 !! process_id =
            _running_processes self !! process_id) as Hs0 by apply Hothers.
    destruct (_running_processes self !! process_id) as [p|] eqn:Hp.
    + rewrite bool_decide_eq_true_2 by (by rewrite Hs0).
      unfold ret at 1. rewrite added_refl, after_events_nil.
      rewrite interleaved_Step. unfold bind at 1. rewrite getitem_eq.
      rewrite Hothers, Hs0. unfold ret at 1. rewrite added_refl, after_events_nil.
      match goal with
      | |- context [interleaved others 2 (Stepwise.guarded ?h _) ?s] =>
          destruct (terminate_and_remove_interleaved others process_id p h
                      (Done ("Proceso cancelado: " +:+ process_id)) 2 s Hothers)
            as (self' & -> & Hself'); [by rewrite Hothers|]
      end.
      destruct (proc_terminate_error p) as [e|]; eexists _, _, _;
        (split; [reflexivity|]); done.
    + rewrite bool_decide_eq_false_2 by (rewrite Hs0; by intros [? ?]).
      unfold ret at 1. rewrite added_refl, after_events_nil.
      eexists _, _, _. split; [reflexivity|]. done.
  - unfold Stepwise.unmount. rewrite interleaved_Step.
    unfold bind at 1. unfold get at 1. cbn beta iota zeta.
    set (s0 := others 0%nat self).
    assert (_running_processes s0 !! process_id =
            _running_processes self !! process_id) as Hs0 by apply Hothers.
    assert (forall s0' : runner,
      _running_processes s0' !! process_id = _running_processes s0 !! process_id ->
      exists r self' events,
        interleaved others 1
          (Step (r <- unmount os mount_point None;; ret (Value r))) s0' =
          Outcome (Return r) self' events /\
        _running_processes self' !! process_id =
          _running_processes self !! process_id /\
        let before := trace (others 1%nat s0') in
        if bool_decide (platform_system os = "Windows") then
          if bool_decide (String.length (PyStr.rstrip "\:" mount_point) = 1%nat) then
            let cmd := ["net"; "use"; PyStr.rstrip "\:" mount_point +:+ ":";
                        "/delete"; "/y"] in
            events = [EvRun cmd None] /\
            r = reported (os_run os before cmd None)
          else
            events = [] /\
            r = Status false "No se pudo desmontar el punto de montaje"
        else
          let cmd := ["fusermount"; "-u"; mount_point] in
          events = [EvRun cmd None] /\
          r = reported (os_run os before cmd None)) as Hfallback.
    { intros s0' Hs0'. rewrite interleaved_Step. unfold bind at 1.
      rewrite unmount_fallback_eq by done.
      assert (_running_processes (others 1%nat s0') !! process_id =
              _running_processes self !! process_id) as Hs1
        by (by rewrite Hothers, Hs0', Hs0).
      cbn zeta.
      destruct (bool_decide (platform_system os = "Windows"));
        [destruct (bool_decide (String.length (PyStr.rstrip "\:" mount_point) = 1%nat))|];
        unfold ret at 1; rewrite ?added_app, ?added_refl;
        eexists _, _, _; (split; [reflexivity|]); done. }
    destruct (decide (process_id = "")) as [Hid|Hid];
      [|destruct (_running_processes self !! process_id) as [p|] eqn:Hp].
    + rewrite (bool_decide_eq_true_2 (process_id = "")) by done.
      rewrite (bool_decide_eq_false_2 (process_id ≠ "")) by (by intros []).
      cbn [andb]. unfold ret at 1. rewrite added_refl, after_events_nil.
      by apply Hfallback.
    + rewrite (bool_decide_eq_false_2 (process_id = "")) by done.
      rewrite (bool_decide_eq_true_2 (process_id ≠ "")) by done.
      rewrite bool_decide_eq_true_2 by (by rewrite Hs0).
      cbn [andb]. unfold ret at 1. rewrite added_refl, after_events_nil.
      rewrite interleaved_Step. unfold bind at 1. rewrite getitem_eq.
      rewrite Hothers, Hs0. unfold ret at 1. rewrite added_refl, after_events_nil.
      match goal with
      | |- context [interleaved others 2 (Stepwise.guarded ?h _) ?s] =>
          destruct (terminate_and_remove_interleaved others process_id p h
                      (Done ("Proceso de montaje terminado: " +:+ process_id)) 2 s
                      Hothers)
            as (self' & -> & Hself'); [by rewrite Hothers|]
      end.
      destruct (proc_terminate_error p) as [e|]; eexists _, _, _;
        (split; [reflexivity|]); done.
    + rewrite (bool_decide_eq_false_2 (process_id = "")) by done.
      rewrite (bool_decide_eq_false_2 (is_Some _)) by (rewrite Hs0; by intros [? ?]).
      rewrite andb_false_r. unfold ret at 1. rewrite added_refl, after_events_nil.
      by apply Hfallback.
Qed.

Lemma ended_after_events {A} evs (o : outcome A) :
  ended (after_events evs o) = ended o.
Proof. reflexivity. Qed.

(** A call that no other thread interrupts is the call of the method. *)
Lemma cancel_transfer_steps_alone process_id self :
  ended (interleaved alone 0 (Stepwise.cancel_transfer process_id) self) =
    cancel_transfer process_id self.
Proof.
  rewrite cancel_transfer_eq. unfold Stepwise.cancel_transfer.
  rewrite interleaved_Step. unfold bind at 1. unfold get at 1. cbn beta iota zeta.
  no_others.
  destruct (_running_processes self !! process_id) as [p|] eqn:Hp.
  - rewrite bool_decide_eq_true_2 by done. unfold ret at 1.
    rewrite interleaved_Step. unfold bind at 1. no_others.
    rewrite getitem_eq, Hp. unfold ret at 1.
    rewrite interleaved_guarded. unfold bind at 1. no_others. rewrite terminate_eq.
    destruct (proc_terminate_error p) as [e|]; [done|].
    unfold ret at 1. rewrite interleaved_guarded. unfold bind at 1. no_others.
    by rewrite (del_eq _ p) by done.
  - rewrite bool_decide_eq_false_2 by (by intros [? ?]). done.
Qed.

Lemma unmount_steps_alone os mount_point process_id self :
  ended (interleaved alone 0 (Stepwise.unmount os mount_point process_id) self) =
    unmount os mount_point process_id self.
Proof.
  assert (forall n s,
    ended (interleaved alone n
             (Step (r <- unmount os mount_point None;; ret (Value r))) s) =
    unmount os mount_point None s) as Hfallback.
  { intros n s. rewrite interleaved_Step. unfold bind at 1. no_others.
    rewrite unmount_fallback_eq by done.
    destruct (bool_decide (platform_system os = "Windows"));
      [destruct (bool_decide (String.length (PyStr.rstrip "\:" mount_point) = 1%nat))|];
      done. }
  unfold Stepwise.unmount.
  rewrite interleaved_Step. unfold bind at 1. unfold get at 1. cbn beta iota zeta.
  no_others.
  destruct process_id as [pid|]; [|unfold ret at 1; apply Hfallback].
  destruct (decide (pid = "")) as [Hid|Hid].
  { rewrite (bool_decide_eq_false_2 (pid ≠ "")) by (by intros []).
    cbn [andb]. unfold ret at 1. rewrite ended_after_events, Hfallback.
    by rewrite !unmount_fallback_eq by (done || by left). }
  rewrite (bool_decide_eq_true_2 (pid ≠ "")) by done. cbn [andb].
  destruct (_running_processes self !! pid) as [p|] eqn:Hp.
  - rewrite bool_decide_eq_true_2 by done.
    rewrite (unmount_tracked_eq _ _ _ p) by done. unfold ret at 1.
    rewrite interleaved_Step. unfold bind at 1. no_others.
    rewrite getitem_eq, Hp. unfold ret at 1.
    rewrite interleaved_guarded. unfold bind at 1. no_others. rewrite terminate_eq.
    destruct (proc_terminate_error p) as [e|]; [done|].
    unfold ret at 1. rewrite interleaved_guarded. unfold bind at 1. no_others.
    by rewrite (del_eq _ p) by done.
  - rewrite bool_decide_eq_false_2 by (by intros [? ?]).
    unfold ret at 1. rewrite ended_after_events, Hfallback.
    by rewrite !unmount_fallback_eq by (done || by right).
Qed.

(** The end of another worker leaves the entry of this identifier. *)
Lemma other_worker_leaves_entry k other process_id :
  other <> process_id -> leaves_entry (Races.worker_ends_before k other) process_id.
Proof.
  intros Hne n self. unfold Races.worker_ends_before. case_bool_decide; [|done].
  rewrite del_if_present_eq. cbn. by rewrite lookup_delete_ne.
Qed.

Lemma terminate_returns_witness :
  leaves_entry (Races.worker_ends_before 2 "transfer_20240517092900")
    "transfer_20240517093000" /\
  exists self',
    interleaved (Races.worker_ends_before 2 "transfer_20240517092900") 0
      (Stepwise.cancel_transfer "transfer_20240517093000") Races.busy =
      Outcome (Return (Done "Proceso cancelado: transfer_20240517093000")) self'
        [EvTerminate Examples.child] /\
    _running_processes self' !! "transfer_20240517093000" = None.
Proof.
  assert (leaves_entry (Races.worker_ends_before 2 "transfer_20240517092900")
            "transfer_20240517093000") as Hothers
    by (by apply other_worker_leaves_entry).
  split; [exact Hothers|].
  destruct (terminate_returns Examples.linux "/mnt/g" "transfer_20240517093000"
              (Races.worker_ends_before 2 "transfer_20240517092900") Races.busy Hothers)
    as [(r & self' & events & Heq & Hcase) _].
  exists self'.
  change (_running_processes Races.busy !! "transfer_20240517093000")
    with (Some Examples.child) in Hcase.
  destruct Hcase as (-> & -> & Hgone). split; [exact Heq | exact Hgone].
Defined.

(** The look-up is outside the [try]: when the worker ends between the
    test and the look-up, [cancel_transfer] raises. *)
Example cancel_transfer_raises :
  out_result (interleaved (Races.worker_ends_before 1 "transfer_20240517093000") 0
                (Stepwise.cancel_transfer "transfer_20240517093000") Races.busy) =
    Raise (Exn false "'transfer_20240517093000'").
Proof. reflexivity. Qed.

(** The removal is inside the [try]: when the worker ends after the
    request to terminate returned, [cancel_transfer] reports a failure
    that names the identifier. *)
Example cancel_transfer_reports_failure :
  out_result (interleaved (Races.worker_ends_before 3 "transfer_20240517093000") 0
                (Stepwise.cancel_transfer "transfer_20240517093000") Races.busy) =
    Return (Status false "Error al cancelar proceso: 'transfer_20240517093000'").
Proof. reflexivity. Qed.

(** When the request to terminate raises, [unmount] returns the failure
    and does not go on to the fallback, which the comment before the
    fallback says is tried when the termination failed. *)
Example unmount_stops_at_failed_terminate :
  unmount Examples.linux "/mnt/g" (Some "mount_20240517093000")
    (Runner "rclone" {["mount_20240517093000" := Examples.stubborn_child]} []) =
    (Return (Status false
               "Error al terminar proceso: [Errno 1] Operation not permitted"),
     Runner "rclone" {["mount_20240517093000" := Examples.stubborn_child]}
            [EvTerminate Examples.stubborn_child]).
Proof. reflexivity. Qed.

(** C7 fails as stated: the identifier is registered, the request to
    terminate raises, and [cancel_transfer] reports a failure and leaves
    the identifier registered. *)
Lemma cancel_transfer_terminate_raises :
  cancel_transfer "transfer_20240517093000"
    (Runner "rclone" {["transfer_20240517093000" := Examples.stubborn_child]} []) =
    (Return (Status false
               "Error al cancelar proceso: [Errno 1] Operation not permitted"),
     Runner "rclone" {["transfer_20240517093000" := Examples.stubborn_child]}
            [EvTerminate Examples.stubborn_child]).
Proof.
  rewrite cancel_transfer_eq. cbn [_running_processes].
  by rewrite lookup_singleton_eq.
Qed.

(** [cancel_transfer] has no fallback: an unknown identifier fails with
    nothing run. *)
Example cancel_transfer_unknown :
  cancel_transfer "transfer_20240517093000" Examples.configured =
    (Return (Status false "No se encontró el proceso: transfer_20240517093000"),
     Examples.configured).
Proof. by rewrite cancel_transfer_eq. Qed.

(** [unmount] of an unknown identifier off Windows runs [fusermount -u]. *)
Example unmount_unknown :
  unmount Examples.linux "/mnt/g" (Some "mount_20240517093000") Examples.configured =
    (Return (Status false "directory not found
"),
     Runner "rclone" ∅ [EvRun ["fusermount"; "-u"; "/mnt/g"] None]).
Proof. by rewrite unmount_fallback_eq by (by right). Qed.

(** ** Registration *)

(** The worker of [mount] up to the point where it blocks. *)
Lemma run_long_process_start os args process_id self :
  rclone_path self <> "" ->
  start_worker (_run_long_process os args process_id) self =
    match os_Popen os (trace self) (rclone_path self :: args) with
    | inl e =>
        (Finished,
         Runner (rclone_path self) (delete process_id (_running_processes self))
                (trace self ++ [EvPopen (rclone_path self :: args)]))
    | inr p =>
        (Waiting p (try_except (del_if_present process_id)
                               (fun _ => del_if_present process_id)),
         Runner (rclone_path self)
                (<[process_id := p]> (_running_processes self))
                (trace self ++ [EvPopen (rclone_path self :: args)]))
    end.
Proof.
  intros Hpath. unfold start_worker, _run_long_process.
  unfold bind at 1. unfold get at 1. cbn beta iota zeta.
  rewrite bool_decide_eq_false_2 by done.
  unfold try_except at 1. unfold bind at 1. cbn [app]. rewrite Popen_eq.
  destruct (os_Popen os (trace self) (rclone_path self :: args)) as [e|p].
  - cbn beta iota zeta. unfold bind at 1. by rewrite del_if_present_eq.
  - cbn beta iota zeta. unfold bind at 1. by rewrite register_eq.
Qed.

Lemma for_each_skip (lines : list string) (self : runner) :
  for_each lines (fun _ => ret tt) self = (Return tt, self).
Proof. induction lines as [|line lines IH]; cbn; [done|]. unfold bind. by cbn. Qed.

(** The streaming worker once its child is there leaves the identifier
    out of the table, for a callback (if any) that does not raise. *)
Lemma streaming_body_table callback process_id p self :
  (forall cb, callback = Some cb -> forall before x, cb before x = None) ->
  _running_processes
    (try_except
       (for_each (proc_stdout p) (fun line => call_if callback (Output line));;;
        from_option raise (ret tt) (proc_stdout_error p);;;
        call_if callback (ReturnCode (proc_returncode p));;;
        del_if_present process_id)
       (fun e => call_if callback (Error (exn_str e));;;
                 del_if_present process_id) self).2 =
    delete process_id (_running_processes self).
Proof.
  intros Hcb. destruct callback as [cb|].
  - by rewrite streaming_body_eq by eauto.
  - monad_step. rewrite for_each_skip.
    destruct (proc_stdout_error p) as [e|]; cbn; by rewrite del_if_present_eq.
Qed.

Lemma mount_id_not_empty stamp : "mount_" +:+ stamp <> "".
Proof. discriminate. Qed.

Lemma transfer_id_not_empty stamp : "transfer_" +:+ stamp <> "".
Proof. discriminate. Qed.

(** After a request to terminate that returns, the identifier is gone. *)
Lemma terminated_absent os mount_point process_id q self :
  process_id <> "" ->
  _running_processes self !! process_id = Some q ->
  proc_terminate_error q = None ->
  _running_processes (cancel_transfer process_id self).2 !! process_id = None /\
  _running_processes (unmount os mount_point (Some process_id) self).2 !! process_id = None.
Proof.
  intros Hne Hq Hterm.
  rewrite cancel_transfer_eq, (unmount_tracked_eq _ _ _ q), Hq, Hterm by done.
  cbn. by rewrite lookup_delete_eq.
Qed.

(** C5, as amended: the identifier that [mount] or [transfer] (with a
    callback that does not raise) returns is in the table from the moment
    its worker has spawned the process, which may be after the launching
    call returned and never happens without a path or when the spawn is
    refused; it is out of the table as soon as the worker has seen the
    process end, whatever happened in between; and it is out of the table
    after [cancel_transfer] or [unmount] was called on it while it was
    registered and the request to terminate returned. *)
Theorem registered_from_spawn_to_exit os now remote_path mount_point
    source destination method options callback self0 l :
  (mount os now remote_path mount_point options self0).1 = Return l \/
  (method ∈ ["copy"; "move"; "sync"] /\
   (forall cb, callback = Some cb -> forall before x, cb before x = None) /\
   (transfer os now source destination method options callback self0).1 = Return l) ->
  exists process_id t,
    process_id_of (returned l) = Some process_id /\
    worker l = Some t /\
    forall self p resume self1,
      start_worker t self = (Waiting p resume, self1) ->
      _running_processes self1 !! process_id = Some p /\
      (forall s,
         _running_processes (resume_worker (Waiting p resume) s) !! process_id = None) /\
      (forall s q mp,
         _running_processes s !! process_id = Some q ->
         proc_terminate_error q = None ->
         _running_processes (cancel_transfer process_id s).2 !! process_id = None /\
         _running_processes (unmount os mp (Some process_id) s).2 !! process_id = None).
Proof.
  intros [Hl|(Hm & Hcb & Hl)].
  - rewrite mount_eq in Hl. injection Hl as <-. eexists _, _.
    split; [reflexivity|]. split; [reflexivity|].
    intros self p resume self1 Hstart.
    destruct (decide (rclone_path self = "")) as [Hpath|Hpath].
    { unfold start_worker in Hstart.
      by rewrite run_long_process_unconfigured in Hstart. }
    rewrite run_long_process_start in Hstart by done.
    destruct (os_Popen os (trace self) _) as [e|p']; [done|].
    injection Hstart as <- <- <-. split; [|split].
    + cbn. by rewrite lookup_insert_eq.
    + intros s. cbn [resume_worker]. monad_step.
      rewrite del_if_present_eq. cbn. by rewrite lookup_delete_eq.
    + intros s q mp Hq Hterm.
      by apply (terminated_absent _ _ _ q); [apply mount_id_not_empty|..].
  - rewrite transfer_eq in Hl by done. injection Hl as <-. eexists _, _.
    split; [reflexivity|]. split; [reflexivity|].
    intros self p resume self1 Hstart.
    destruct (decide (rclone_path self = "")) as [Hpath|Hpath].
    { unfold start_worker in Hstart.
      by rewrite run_process_with_output_unconfigured in Hstart. }
    rewrite run_process_with_output_start in Hstart by done.
    destruct (os_Popen os (trace self) _) as [e|p']; [done|].
    injection Hstart as <- <- <-. split; [|split].
    + cbn. by rewrite lookup_insert_eq.
    + intros s. cbn [resume_worker].
      rewrite streaming_body_table by done. by rewrite lookup_delete_eq.
    + intros s q mp Hq Hterm.
      by apply (terminated_absent _ _ _ q); [apply transfer_id_not_empty|..].
Qed.

Lemma registered_from_spawn_to_exit_witness :
  (mount Examples.linux Examples.morning "gdrive:" "/mnt/g" None
     Examples.configured).1 = Return Examples.mount_launch /\
  _running_processes (after_launch 1 Examples.mount_launch Examples.configured)
    !! "mount_20240517093000" = Some Examples.child /\
  _running_processes (after_launch 2 Examples.mount_launch Examples.configured)
    !! "mount_20240517093000" = None.
Proof.
  assert (Hl : (mount Examples.linux Examples.morning "gdrive:" "/mnt/g" None
                  Examples.configured).1 = Return Examples.mount_launch)
    by reflexivity.
  split; [exact Hl|].
  destruct (registered_from_spawn_to_exit Examples.linux Examples.morning
              "gdrive:" "/mnt/g" "" "" "" None None Examples.configured
              Examples.mount_launch (or_introl Hl))
    as (process_id & t & Hid & Ht & Hrun).
  injection Hid as <-. injection Ht as <-.
  destruct (Hrun Examples.configured _ _ _ eq_refl) as (Hin & Hout & _).
  split; [exact Hin | exact (Hout _)].
Defined.

(** C5 fails as stated: when the spawn is refused, the identifier that
    [transfer] returned is in the table neither when the call returns
    nor later, however far the worker got; and when the spawn is
    accepted, it is not in the table as long as the worker was not
    scheduled. *)
Lemma launched_not_registered :
  (transfer Examples.no_binary Examples.morning "a" "b:" "copy" None
     (Some Examples.quiet) Examples.configured).1 =
    Return (Examples.transfer_launch Examples.no_binary) /\
  _running_processes
    (after_launch 0 (Examples.transfer_launch Examples.no_binary) Examples.configured)
    !! "transfer_20240517093000" = None /\
  _running_processes
    (after_launch 1 (Examples.transfer_launch Examples.no_binary) Examples.configured)
    !! "transfer_20240517093000" = None /\
  _running_processes
    (after_launch 2 (Examples.transfer_launch Examples.no_binary) Examples.configured)
    !! "transfer_20240517093000" = None /\
  (transfer Examples.linux Examples.morning "a" "b:" "copy" None
     (Some Examples.quiet) Examples.configured).1 =
    Return (Examples.transfer_launch Examples.linux) /\
  _running_processes
    (after_launch 0 (Examples.transfer_launch Examples.linux) Examples.configured)
    !! "transfer_20240517093000" = None.
Proof. repeat split; vm_compute; reflexivity. Qed.

(** ** Identifiers *)

(** C4 fails on the code: two transfers launched within one second get
    the same identifier.  Once both workers have spawned their child the
    table holds one entry under it, the second child; the first child is
    no longer reachable through the identifier that was returned for it,
    and cancelling by that identifier terminates the second. *)
Lemma same_second_same_identifier :
  let id := "transfer_20240517093000" in
  let l1 :=
    Launch (Launched id ["rclone"; "copy"; "a"; "b:"; "--progress"] "iniciado")
           (Some (_run_process_with_output Examples.numbering
                    ["copy"; "a"; "b:"; "--progress"] id None)) in
  let l2 :=
    Launch (Launched id ["rclone"; "copy"; "c"; "d:"; "--progress"] "iniciado")
           (Some (_run_process_with_output Examples.numbering
                    ["copy"; "c"; "d:"; "--progress"] id None)) in
  let s1 := after_launch 1 l1 Examples.configured in
  let s2 := after_launch 1 l2 s1 in
  let child1 := Process 0 [] None 0 None in
  let child2 := Process 1 [] None 0 None in
  Examples.morning <> Examples.morning_later /\
  transfer Examples.numbering Examples.morning "a" "b:" "copy" None None
    Examples.configured = (Return l1, Examples.configured) /\
  transfer Examples.numbering Examples.morning_later "c" "d:" "copy" None None
    s1 = (Return l2, s1) /\
  process_id_of (returned l1) = Some id /\
  process_id_of (returned l2) = Some id /\
  _running_processes s1 = {[id := child1]} /\
  _running_processes s2 = {[id := child2]} /\
  trace (cancel_transfer id s2).2 = (trace s2 ++ [EvTerminate child2])%list.
Proof.
  cbv zeta. split; [discriminate|].
  repeat split; vm_compute; reflexivity.
Qed.

(** ** Strings *)

Section strings.
Implicit Types (s t u p : string) (c d : ascii).

Lemma append_cons c s t : String c s +:+ t = String c (s +:+ t).
Proof. reflexivity. Qed.

Lemma append_nil_r s : s +:+ "" = s.
Proof. induction s as [|c s IH]; [done|]. by rewrite append_cons, IH. Qed.

Lemma append_assoc s t u : (s +:+ t) +:+ u = s +:+ t +:+ u.
Proof. induction s as [|c s IH]; [done|]. by rewrite !append_cons, IH. Qed.

Lemma occurs_in_refl s : occurs_in s s.
Proof. exists "", "". by rewrite append_nil_r. Qed.

Lemma occurs_in_trans p t s : occurs_in p t -> occurs_in t s -> occurs_in p s.
Proof.
  intros (a & b & ->) (a' & b' & ->).
  exists (a' +:+ a), (b +:+ b'). by rewrite !append_assoc.
Qed.

Lemma occurs_in_cons c p s : occurs_in p s -> occurs_in p (String c s).
Proof. intros (a & b & ->). by exists (String c a), b. Qed.

Lemma prefix_true p s : String.prefix p s = true <-> exists after, s = p +:+ after.
Proof.
  revert s. induction p as [|c p IH]; intros s; cbn.
  - destruct s; split; eauto.
  - destruct s as [|d s]; cbn.
    + split; [done|]. by intros [? ?].
    + destruct (ascii_dec c d) as [->|Hne].
      * rewrite IH. split; intros [b Hb]; exists b.
        -- by rewrite append_cons, <- Hb.
        -- rewrite append_cons in Hb. by injection Hb.
      * split; [done|]. intros [b Hb]. rewrite append_cons in Hb.
        injection Hb as ? ?. congruence.
Qed.

Lemma contains_unfold p s :
  PyStr.contains p s =
    String.prefix p s ||
    match s with
    | "" => false
    | String _ s' => PyStr.contains p s'
    end.
Proof. by destruct s. Qed.

Lemma contains_true p s : PyStr.contains p s = true <-> occurs_in p s.
Proof.
  split.
  - induction s as [|c s IH]; cbn [PyStr.contains];
      rewrite orb_true_iff, prefix_true.
    + intros [[b ->]|?]; [|done]. by exists "", b.
    + intros [[b ->]|Hin]; [by exists "", b|].
      by apply occurs_in_cons, IH.
  - intros (a & b & ->). induction a as [|c a IH].
    + change ("" +:+ p +:+ b) with (p +:+ b).
      assert (String.prefix p (p +:+ b) = true) as Hp
        by (apply prefix_true; by exists b).
      by rewrite contains_unfold, Hp.
    + rewrite append_cons. cbn. by rewrite IH, orb_true_r.
Qed.

Lemma contains_mono p t s :
  PyStr.contains p t = true -> occurs_in t s -> PyStr.contains p s = true.
Proof. rewrite !contains_true. apply occurs_in_trans. Qed.

Lemma lstrip_by_occurs f s : occurs_in (PyStr.lstrip_by f s) s.
Proof.
  induction s as [|c s IH]; cbn; [apply occurs_in_refl|].
  destruct (f c); [by apply occurs_in_cons | apply occurs_in_refl].
Qed.

Lemma rstrip_by_prefix f s : exists after, s = PyStr.rstrip_by f s +:+ after.
Proof.
  induction s as [|c s [b IH]]; cbn; [by exists ""|].
  destruct (PyStr.rstrip_by f s) as [|d r].
  - destruct (f c); [by eexists|]. exists s. done.
  - exists b. by rewrite append_cons, <- IH.
Qed.

Lemma strip_occurs s : occurs_in (PyStr.strip s) s.
Proof.
  unfold PyStr.strip. eapply occurs_in_trans; [|apply lstrip_by_occurs].
  destruct (rstrip_by_prefix PyStr.isspace (PyStr.lstrip_by PyStr.isspace s))
    as [b Hb].
  by exists "", b.
Qed.

(** The first segment is a prefix, and there is always one. *)
Lemma split_head c s :
  exists p ps after, PyStr.split c s = p :: ps /\ s = p +:+ after.
Proof.
  induction s as [|d s (p & ps & b & Hs & Hp)]; cbn.
  - by exists "", [], "".
  - destruct (Ascii.eqb d c).
    + by exists "", (PyStr.split c s), (String d s).
    + rewrite Hs. exists (String d p), ps, b. by rewrite append_cons, <- Hp.
Qed.

Lemma split_occurs c s p : p ∈ PyStr.split c s -> occurs_in p s.
Proof.
  revert p. induction s as [|d s IH]; intros p; cbn.
  - intros ->%list_elem_of_singleton. apply occurs_in_refl.
  - destruct (Ascii.eqb d c).
    + intros [->|Hin]%elem_of_cons; [by exists "", (String d s)|].
      by apply occurs_in_cons, IH.
    + destruct (split_head c s) as (q & qs & b & Hs & Hq). rewrite Hs.
      intros [->|Hin]%elem_of_cons.
      * exists "", b. by rewrite append_cons, <- Hq.
      * apply occurs_in_cons, IH. rewrite Hs. by right.
Qed.

Lemma mem_append c s t : PyStr.mem c (s +:+ t) = PyStr.mem c s || PyStr.mem c t.
Proof.
  induction s as [|d s IH]; [done|].
  rewrite append_cons. cbn. by rewrite IH, orb_assoc.
Qed.

Lemma mem_occurs c p s :
  PyStr.mem c p = true -> occurs_in p s -> PyStr.mem c s = true.
Proof.
  intros Hc (a & b & ->). rewrite !mem_append, Hc.
  by rewrite orb_true_r.
Qed.

(** A string that has the separator splits into two segments at least. *)
Lemma split_second c s :
  PyStr.mem c s = true -> is_Some (PyStr.split c s !! 1%nat).
Proof.
  induction s as [|d s IH]; cbn; [done|].
  rewrite (Ascii.eqb_sym c d).
  destruct (Ascii.eqb d c); cbn.
  - intros _. destruct (split_head c s) as (q & qs & b & -> & _). by eexists.
  - intros Hc. destruct (IH Hc) as [y Hy].
    destruct (PyStr.split c s) as [|x [|y' rest]]; [done..|]. by eexists.
Qed.
End strings.

(** ** The progress display *)

Import TransferTab.

Lemma try_except_bind_return {S A B} (m : M S A) (k : A -> M S B)
    (handler : exn -> M S B) s a s' :
  m s = (Return a, s') ->
  try_except (m' <- m;; k m') handler s = try_except (k a) handler s'.
Proof. intros Hm. unfold try_except, bind. by rewrite Hm. Qed.

Section progress.
Context {float : Type} (py_float : string -> option float).
Implicit Types (t : tab float) (parts : list string).

(** A segment with a label that ends in a colon has a second piece. *)
Lemma field_eq label part t :
  PyStr.mem ":" label = true ->
  PyStr.contains label part = true ->
  field part t = (Return (value_of part), t).
Proof.
  intros Hcolon Hlabel. unfold field, item, value_of, bind.
  destruct (split_second ":" part) as [v Hv].
  { eapply mem_occurs; [exact Hcolon|]. by apply contains_true. }
  rewrite nth_lookup, Hv. reflexivity.
Qed.

Lemma labelled_block (write : string -> tab float -> tab float) label part t :
  PyStr.mem ":" label = true ->
  (if PyStr.contains label part
   then v <- field part;; modify (write v);;; ret (Some v)
   else ret None) t =
    (Return (labelled label (Some part)), written write (labelled label (Some part)) t).
Proof.
  intros Hcolon. cbn. destruct (PyStr.contains label part) eqn:Hlabel; [|done].
  unfold bind. by rewrite (field_eq label).
Qed.

Lemma transferred_block_eq parts t :
  parts <> [] ->
  transferred_block parts t =
    (Return (labelled "Transferred:" (parts !! 0%nat)),
     written with_transferred (labelled "Transferred:" (parts !! 0%nat)) t).
Proof.
  destruct parts as [|part0 parts]; [done|]. intros _.
  unfold transferred_block. unfold bind at 1. cbn [item lookup list_lookup ret].
  by apply (labelled_block with_transferred).
Qed.

Lemma speed_block_eq parts t :
  speed_block parts t =
    (Return (labelled "Speed:" (parts !! 1%nat)),
     written with_speed (labelled "Speed:" (parts !! 1%nat)) t).
Proof.
  unfold speed_block. case_bool_decide as Hlen.
  - destruct (lookup_lt_is_Some_2 parts 1%nat Hlen) as [part1 Hpart].
    unfold bind at 1. unfold item. rewrite Hpart.
    by apply (labelled_block with_speed).
  - by rewrite lookup_ge_None_2 by lia.
Qed.

Lemma eta_block_eq parts t :
  eta_block parts t =
    (Return tt, written with_eta (labelled "ETA:" (parts !! 2%nat)) t).
Proof.
  unfold eta_block. case_bool_decide as Hlen.
  - destruct (lookup_lt_is_Some_2 parts 2%nat Hlen) as [part2 Hpart].
    unfold bind at 1. unfold item. rewrite Hpart. cbn.
    destruct (PyStr.contains "ETA:" part2) eqn:Hlabel; [|done].
    unfold bind. by rewrite (field_eq "ETA:").
  - by rewrite lookup_ge_None_2 by lia.
Qed.

Lemma files_loop_eq parts t :
  files_loop parts t =
    (Return tt,
     written with_files
       (labelled "Files:" (List.find (PyStr.contains "Files:") parts)) t).
Proof.
  induction parts as [|part parts IH]; [done|]. cbn.
  destruct (PyStr.contains "Files:" part) eqn:Hlabel; [|done].
  cbn. rewrite Hlabel. unfold bind. by rewrite (field_eq "Files:").
Qed.

(** The last two blocks write to the status line and to the bar only,
    whether or not they raise. *)
Lemma percent_loop_frame {B} (f : tab float -> B) parts t :
  (forall v t, f (with_percent v t) = f t) ->
  f (percent_loop py_float parts t).2 = f t.
Proof.
  intros Hf. induction parts as [|part parts IH]; [done|]. cbn.
  destruct (PyStr.contains "%" part); [|done].
  unfold try_except.
  destruct (py_float (PyStr.rstrip "%" (PyStr.strip part))); cbn; auto.
Qed.

Lemma tail_frame {B} (f : tab float -> B) transferred speed parts t :
  (forall v t, f (with_status v t) = f t) ->
  (forall v t, f (with_percent v t) = f t) ->
  f (try_except (status_block transferred speed;;; percent_loop py_float parts)
       (fun _ => ret tt) t).2 = f t.
Proof.
  intros Hstatus Hpercent. unfold try_except, bind, status_block, bind, local.
  destruct transferred as [tr|], speed as [sp|]; cbn; try done.
  pose proof (percent_loop_frame f parts
                (with_status (tr +:+ " a " +:+ sp) t) Hpercent) as Hloop.
  destruct (percent_loop py_float parts _) as [[[]|e] t']; cbn in *;
    by rewrite Hloop.
Qed.

(** What a line does to the four metrics. *)
Lemma updated_fields line t :
  let parts := PyStr.split "," (PyStr.strip line) in
  let t' := updated py_float line true t in
  progress_transferred t' =
    latest (labelled "Transferred:" (parts !! 0%nat)) (progress_transferred t) /\
  progress_speed t' =
    latest (labelled "Speed:" (parts !! 1%nat)) (progress_speed t) /\
  progress_eta t' =
    latest (labelled "ETA:" (parts !! 2%nat)) (progress_eta t) /\
  progress_files t' =
    latest (labelled "Files:" (List.find (PyStr.contains "Files:") parts))
           (progress_files t).
Proof.
  cbv zeta. unfold updated, _update_progress_metrics. cbn [negb]. cbv zeta.
  set (parts := PyStr.split "," (PyStr.strip line)).
  assert (parts <> []) as Hparts.
  { subst parts. by destruct (split_head "," (PyStr.strip line))
      as (? & ? & ? & -> & _). }
  erewrite try_except_bind_return by (by apply transferred_block_eq).
  erewrite try_except_bind_return by apply speed_block_eq.
  erewrite try_except_bind_return by apply eta_block_eq.
  erewrite try_except_bind_return by apply files_loop_eq.
  rewrite !tail_frame by done.
  destruct (labelled "Transferred:" _), (labelled "Speed:" _),
    (labelled "ETA:" _), (labelled "Files:" _); done.
Qed.

(** A label that does not occur in the line occurs in none of its
    segments. *)
Lemma labelled_absent label line part :
  PyStr.contains label line = false ->
  part ∈ PyStr.split "," (PyStr.strip line) ->
  labelled label (Some part) = None.
Proof.
  intros Hline Hpart. cbn.
  destruct (PyStr.contains label part) eqn:Hlabel; [|done].
  rewrite (contains_mono label part line) in Hline; [done..|].
  eapply occurs_in_trans; [by eapply split_occurs | apply strip_occurs].
Qed.

Lemma labelled_lookup_absent label line i :
  PyStr.contains label line = false ->
  labelled label (PyStr.split "," (PyStr.strip line) !! i) = None.
Proof.
  intros Hline.
  destruct (PyStr.split "," (PyStr.strip line) !! i) as [part|] eqn:Hpart;
    [|done].
  eapply labelled_absent; [done|]. by eapply list_elem_of_lookup_2.
Qed.

Lemma labelled_find_absent label line :
  PyStr.contains label line = false ->
  labelled label (List.find (PyStr.contains "Files:")
                    (PyStr.split "," (PyStr.strip line))) = None.
Proof.
  intros Hline.
  destruct (List.find _ _) as [part|] eqn:Hfind; [|done].
  eapply labelled_absent; [done|].
  apply list_elem_of_In. by eapply find_some.
Qed.
End progress.

(** C3, as amended: the parser splits the stripped line at the commas and
    looks for [Transferred:] in the first segment only, for [Speed:] in
    the second only, for [ETA:] in the third only, and for [Files:] in
    the first segment that has it; the value of a field is the text
    between the first and the second colon of its segment, stripped, and
    a field whose segment is missing or lacks the label keeps its value.
    So the line of the specification sets [transferred] to
    [1.5 GiB / 3 GiB] and leaves [speed], [eta] and [files] as they
    were.  (What becomes of the percentage is left open.) *)
Theorem progress_line_fields {float} (py_float : string -> option float)
    line (t : tab float) :
  let parts := PyStr.split "," (PyStr.strip line) in
  let t' := updated py_float line true t in
  let example := updated py_float Examples.spec_line true t in
  (progress_transferred t' =
     latest (labelled "Transferred:" (parts !! 0%nat)) (progress_transferred t) /\
   progress_speed t' =
     latest (labelled "Speed:" (parts !! 1%nat)) (progress_speed t) /\
   progress_eta t' =
     latest (labelled "ETA:" (parts !! 2%nat)) (progress_eta t) /\
   progress_files t' =
     latest (labelled "Files:" (List.find (PyStr.contains "Files:") parts))
            (progress_files t)) /\
  (progress_transferred example = "1.5 GiB / 3 GiB" /\
   progress_speed example = progress_speed t /\
   progress_eta example = progress_eta t /\
   progress_files example = progress_files t).
Proof.
  cbv zeta. split; [apply updated_fields|].
  destruct (updated_fields py_float Examples.spec_line t)
    as (Htransferred & Hspeed & Heta & Hfiles).
  rewrite Htransferred, Hspeed, Heta, Hfiles. by vm_compute.
Qed.

(** C3 fails as stated: on the line of the specification the display of
    a new window gets the transferred amount and nothing else; speed and
    ETA keep their initial values and the bar is given no value. *)
Lemma spec_line_not_parsed :
  updated Examples.float_of_digits Examples.spec_line true new_window =
    Tab "1.5 GiB / 3 GiB" "0 B/s" "-" "0 / 0" "Iniciando transferencia..."
        Indeterminate true None /\
  progress_speed
    (updated Examples.float_of_digits Examples.spec_line true new_window)
    <> "10 MiB/s" /\
  progress_eta
    (updated Examples.float_of_digits Examples.spec_line true new_window)
    <> "2m30s" /\
  progress_bar_value
    (updated Examples.float_of_digits Examples.spec_line true new_window)
    <> Some 50.
Proof. repeat split; by vm_compute. Qed.

(** With the labels where the parser looks for them, every field is set. *)
Example ordered_line_parsed :
  updated Examples.float_of_digits
    "Transferred: 1.5 GiB / 3 GiB, Speed: 10 MiB/s, ETA: 2m30s, 50%" true new_window =
    Tab "1.5 GiB / 3 GiB" "10 MiB/s" "2m30s" "0 / 0" "1.5 GiB / 3 GiB a 10 MiB/s"
        Determinate false (Some 50).
Proof. by vm_compute. Qed.

(** C8: a line that has [Transferred:] leaves the speed unchanged when it
    has no [Speed:], the ETA unchanged when it has no [ETA:], and the
    files unchanged when it has no [Files:]: the fields keep their last
    values. *)
Theorem absent_fields_keep_values {float} (py_float : string -> option float)
    line winfo_exists (t : tab float) :
  PyStr.contains "Transferred:" line = true ->
  let t' := updated py_float line winfo_exists t in
  (PyStr.contains "Speed:" line = false -> progress_speed t' = progress_speed t) /\
  (PyStr.contains "ETA:" line = false -> progress_eta t' = progress_eta t) /\
  (PyStr.contains "Files:" line = false -> progress_files t' = progress_files t).
Proof.
  intros _. cbv zeta. destruct winfo_exists; [|done].
  destruct (updated_fields py_float line t) as (_ & Hspeed & Heta & Hfiles).
  split; [|split]; intros Habsent.
  - by rewrite Hspeed, labelled_lookup_absent.
  - by rewrite Heta, labelled_lookup_absent.
  - by rewrite Hfiles, labelled_find_absent.
Qed.

Lemma absent_fields_keep_values_witness :
  PyStr.contains "Transferred:" "Transferred: 1 / 2" = true /\
  progress_transferred
    (updated Examples.float_of_digits "Transferred: 1 / 2" true
       (Tab "0 / 2" "3 MiB/s" "4s" "5 / 6" "" Indeterminate true None)) = "1 / 2" /\
  progress_speed
    (updated Examples.float_of_digits "Transferred: 1 / 2" true
       (Tab "0 / 2" "3 MiB/s" "4s" "5 / 6" "" Indeterminate true None)) = "3 MiB/s" /\
  progress_eta
    (updated Examples.float_of_digits "Transferred: 1 / 2" true
       (Tab "0 / 2" "3 MiB/s" "4s" "5 / 6" "" Indeterminate true None)) = "4s" /\
  progress_files
    (updated Examples.float_of_digits "Transferred: 1 / 2" true
       (Tab "0 / 2" "3 MiB/s" "4s" "5 / 6" "" Indeterminate true None)) = "5 / 6".
Proof.
  split; [reflexivity|]. split; [reflexivity|].
  destruct (absent_fields_keep_values Examples.float_of_digits "Transferred: 1 / 2"
              true (Tab "0 / 2" "3 MiB/s" "4s" "5 / 6" "" Indeterminate true None)
              eq_refl)
    as (Hspeed & Heta & Hfiles).
  split; [exact (Hspeed eq_refl)|]. split; [exact (Heta eq_refl) | exact (Hfiles eq_refl)].
Defined.

(** ** When identifiers differ *)

Section digits.
Local Open Scope nat_scope.

Lemma zero_padded_two n : n < 100 -> zero_padded 2 n = two_digits n.
Proof.
  intros Hn.
  assert (forallb (fun n => String.eqb (zero_padded 2 n) (two_digits n))
            (seq 0 100) = true) as Hall by (vm_compute; reflexivity).
  rewrite forallb_forall in Hall. apply String.eqb_eq, Hall, in_seq. lia.
Qed.

Lemma zero_padded_four n : n < 100 * 100 -> zero_padded 4 n = four_digits n.
Proof.
  intros Hn.
  assert (forallb (fun n => String.eqb (zero_padded 4 n) (four_digits n))
            (seq 0 (100 * 100)) = true) as Hall by (vm_compute; reflexivity).
  rewrite forallb_forall in Hall. apply String.eqb_eq, Hall, in_seq. lia.
Qed.

Lemma digit_inj a b : a < 10 -> b < 10 -> digit a = digit b -> a = b.
Proof.
  intros Ha Hb Heq. apply (f_equal nat_of_ascii) in Heq. unfold digit in Heq.
  rewrite !nat_ascii_embedding in Heq by lia. lia.
Qed.

Lemma two_places n :
  n < 100 -> n = 10 * (n / 10) + n mod 10 /\ n / 10 < 10 /\ n mod 10 < 10.
Proof.
  intros Hn. split; [apply Nat.div_mod_eq|]. split.
  - apply Nat.Div0.div_lt_upper_bound. lia.
  - by apply Nat.mod_upper_bound.
Qed.

Lemma four_places n :
  n < 100 * 100 ->
  n = 1000 * (n / 1000) + 100 * (n / 100 mod 10) + 10 * (n / 10 mod 10) + n mod 10 /\
  n / 1000 < 10 /\ n / 100 mod 10 < 10 /\ n / 10 mod 10 < 10 /\ n mod 10 < 10.
Proof.
  intros Hn.
  pose proof (Nat.div_mod_eq n 10) as E0.
  pose proof (Nat.div_mod_eq (n / 10) 10) as E1.
  pose proof (Nat.div_mod_eq (n / 100) 10) as E2.
  rewrite (Nat.Div0.div_div n 10 10) in E1.
  rewrite (Nat.Div0.div_div n 100 10) in E2.
  change (10 * 10) with 100 in E1. change (100 * 10) with 1000 in E2.
  assert (n / 1000 < 10) by (apply Nat.Div0.div_lt_upper_bound; lia).
  pose proof (Nat.mod_upper_bound (n / 100) 10).
  pose proof (Nat.mod_upper_bound (n / 10) 10).
  pose proof (Nat.mod_upper_bound n 10).
  repeat split; lia.
Qed.

Lemma two_digits_inj n m s t :
  n < 100 -> m < 100 ->
  two_digits n +:+ s = two_digits m +:+ t -> n = m /\ s = t.
Proof.
  intros Hn Hm Heq.
  destruct (two_places n Hn) as (En & ? & ?).
  destruct (two_places m Hm) as (Em & ? & ?).
  unfold two_digits in Heq.
  set (n1 := n / 10) in *. set (n0 := n mod 10) in *.
  set (m1 := m / 10) in *. set (m0 := m mod 10) in *.
  clearbody n1 n0 m1 m0. rewrite !append_cons in Heq.
  injection Heq as D1 D0 Hrest.
  apply digit_inj in D1; [|done..]. apply digit_inj in D0; [|done..].
  split; [lia | done].
Qed.

Lemma four_digits_inj n m s t :
  n < 100 * 100 -> m < 100 * 100 ->
  four_digits n +:+ s = four_digits m +:+ t -> n = m /\ s = t.
Proof.
  intros Hn Hm Heq.
  destruct (four_places n Hn) as (En & ? & ? & ? & ?).
  destruct (four_places m Hm) as (Em & ? & ? & ? & ?).
  unfold four_digits in Heq.
  set (n3 := n / 1000) in *. set (n2 := n / 100 mod 10) in *.
  set (n1 := n / 10 mod 10) in *. set (n0 := n mod 10) in *.
  set (m3 := m / 1000) in *. set (m2 := m / 100 mod 10) in *.
  set (m1 := m / 10 mod 10) in *. set (m0 := m mod 10) in *.
  clearbody n3 n2 n1 n0 m3 m2 m1 m0. rewrite !append_cons in Heq.
  injection Heq as D3 D2 D1 D0 Hrest.
  apply digit_inj in D3; [|done..]. apply digit_inj in D2; [|done..].
  apply digit_inj in D1; [|done..]. apply digit_inj in D0; [|done..].
  split; [lia | done].
Qed.

(** The stamp tells the clock reading to the second, and nothing more. *)
Lemma strftime_same_second t1 t2 :
  valid_clock t1 -> valid_clock t2 ->
  strftime_YmdHMS t1 = strftime_YmdHMS t2 <-> to_the_second t1 = to_the_second t2.
Proof.
  intros V1 V2. unfold valid_clock in *. split.
  - unfold strftime_YmdHMS, to_the_second.
    rewrite !zero_padded_four, !zero_padded_two by lia. intros Heq.
    apply four_digits_inj in Heq as [-> Heq]; [|lia..].
    apply two_digits_inj in Heq as [-> Heq]; [|lia..].
    apply two_digits_inj in Heq as [-> Heq]; [|lia..].
    apply two_digits_inj in Heq as [-> Heq]; [|lia..].
    apply two_digits_inj in Heq as [-> Heq]; [|lia..].
    rewrite <- (append_nil_r (two_digits (second t1))) in Heq.
    rewrite <- (append_nil_r (two_digits (second t2))) in Heq.
    by apply two_digits_inj in Heq as [-> _]; [|lia..].
  - unfold strftime_YmdHMS, to_the_second. by intros [= -> -> -> -> -> ->].
Qed.
End digits.

Lemma transfer_rejected_id os now source destination method options callback self :
  method ∉ ["copy"; "move"; "sync"] ->
  launch_id (transfer os now source destination method options callback self).1 = None.
Proof.
  intros Hm. unfold transfer, PyStr.elem.
  by rewrite bool_decide_eq_false_2.
Qed.

Lemma run_ncdu_id os now remote_path self id :
  reply_id (run_ncdu os now remote_path self).1 = Some id ->
  id = "ncdu_" +:+ strftime_YmdHMS now.
Proof.
  unfold run_ncdu. monad_step. rewrite Popen_eq.
  destruct (os_Popen os _ _) as [e|p]; cbn; [done|].
  rewrite register_eq. cbn. by intros [= <-].
Qed.

(** X1: launches of different kinds never get the same identifier: what
    [mount], [transfer] and [run_ncdu] return as [process_id] starts with
    [mount_], [transfer_] and [ncdu_]. *)
Theorem kinds_get_distinct_identifiers os now1 now2 now3
    remote_path mount_point options source destination method options' callback
    remote_path' self1 self2 self3 id1 id2 id3 :
  launch_id (mount os now1 remote_path mount_point options self1).1 = Some id1 ->
  launch_id (transfer os now2 source destination method options' callback self2).1
    = Some id2 ->
  reply_id (run_ncdu os now3 remote_path' self3).1 = Some id3 ->
  id1 <> id2 /\ id1 <> id3 /\ id2 <> id3.
Proof.
  rewrite mount_eq. cbn. intros [= <-] Htransfer ->%run_ncdu_id.
  destruct (decide (method ∈ ["copy"; "move"; "sync"])) as [Hm|Hm].
  - rewrite transfer_eq in Htransfer by done. cbn in Htransfer.
    injection Htransfer as <-. repeat split; discriminate.
  - by rewrite transfer_rejected_id in Htransfer.
Qed.

Lemma kinds_get_distinct_identifiers_witness :
  launch_id (mount Examples.linux Examples.morning "gdrive:" "/mnt/g" None
               Examples.configured).1 = Some "mount_20240517093000" /\
  launch_id (transfer Examples.linux Examples.morning "a" "b:" "copy" None None
               Examples.configured).1 = Some "transfer_20240517093000" /\
  reply_id (run_ncdu Examples.linux Examples.morning "gdrive:"
              Examples.configured).1 = Some "ncdu_20240517093000" /\
  "mount_20240517093000" <> "transfer_20240517093000" /\
  "mount_20240517093000" <> "ncdu_20240517093000" /\
  "transfer_20240517093000" <> "ncdu_20240517093000".
Proof.
  split; [reflexivity|]. split; [reflexivity|]. split; [reflexivity|].
  exact (kinds_get_distinct_identifiers Examples.linux
           Examples.morning Examples.morning Examples.morning
           "gdrive:" "/mnt/g" None "a" "b:" "copy" None None "gdrive:"
           Examples.configured Examples.configured Examples.configured
           _ _ _ eq_refl eq_refl eq_refl).
Defined.

(** X2: for clock readings in range, two launches of [mount], and two
    launches of [transfer] with methods it accepts, get the same
    identifier exactly when the clock shows the same second at both. *)
Theorem same_identifier_same_second os now1 now2
    remote_path1 mount_point1 options1 remote_path2 mount_point2 options2
    source1 destination1 method1 toptions1 callback1
    source2 destination2 method2 toptions2 callback2 self1 self2 :
  valid_clock now1 -> valid_clock now2 ->
  method1 ∈ ["copy"; "move"; "sync"] -> method2 ∈ ["copy"; "move"; "sync"] ->
  (launch_id (mount os now1 remote_path1 mount_point1 options1 self1).1 =
   launch_id (mount os now2 remote_path2 mount_point2 options2 self2).1
   <-> to_the_second now1 = to_the_second now2) /\
  (launch_id (transfer os now1 source1 destination1 method1 toptions1 callback1 self1).1 =
   launch_id (transfer os now2 source2 destination2 method2 toptions2 callback2 self2).1
   <-> to_the_second now1 = to_the_second now2).
Proof.
  intros V1 V2 Hm1 Hm2. rewrite !mount_eq, !transfer_eq by done. cbn.
  rewrite <- (strftime_same_second now1 now2) by done.
  split; (split; [intros [= Heq]; by simplify_eq | by intros ->]).
Qed.

Lemma same_identifier_same_second_witness :
  valid_clock Examples.morning /\ valid_clock Examples.morning_later /\
  ("copy" ∈ ["copy"; "move"; "sync"]) /\
  launch_id (transfer Examples.linux Examples.morning "a" "b:" "copy" None None
               Examples.configured).1 =
  launch_id (transfer Examples.linux Examples.morning_later "c" "d:" "copy" None None
               Examples.configured).1.
Proof.
  assert (V1 : valid_clock Examples.morning) by (unfold valid_clock; cbn; lia).
  assert (V2 : valid_clock Examples.morning_later) by (unfold valid_clock; cbn; lia).
  assert (Hm : "copy" ∈ ["copy"; "move"; "sync"]) by apply list_elem_of_here.
  split; [exact V1|]. split; [exact V2|]. split; [exact Hm|].
  apply (same_identifier_same_second Examples.linux Examples.morning
           Examples.morning_later "" "" None "" "" None
           "a" "b:" "copy" None None "c" "d:" "copy" None None
           Examples.configured Examples.configured V1 V2 Hm Hm).
  reflexivity.
Defined.

(** ** Stripping, splitting and lines *)

Section more_strings.
Implicit Types (s t : string) (c : ascii) (f : ascii -> bool).

Lemma all_chars_append f s t :
  all_chars f (s +:+ t) = all_chars f s && all_chars f t.
Proof.
  induction s as [|c s IH]; [done|].
  rewrite append_cons. cbn. by rewrite IH, andb_assoc.
Qed.

Lemma all_chars_impl f g s :
  (forall c, f c = true -> g c = true) ->
  all_chars f s = true -> all_chars g s = true.
Proof.
  intros Hfg. induction s as [|c s IH]; [done|]. cbn.
  rewrite !andb_true_iff. intros [? ?]. auto.
Qed.

Lemma lstrip_by_all f s : all_chars f s = true -> PyStr.lstrip_by f s = "".
Proof.
  induction s as [|c s IH]; [done|]. cbn.
  rewrite andb_true_iff. intros [-> ?]. auto.
Qed.

Lemma rstrip_by_all f s : all_chars f s = true -> PyStr.rstrip_by f s = "".
Proof.
  induction s as [|c s IH]; [done|]. cbn.
  rewrite andb_true_iff. intros [-> Hs]. by rewrite IH.
Qed.

Lemma rstrip_by_empty f s : PyStr.rstrip_by f s = "" -> all_chars f s = true.
Proof.
  induction s as [|c s IH]; [done|]. cbn.
  destruct (PyStr.rstrip_by f s); [|done].
  destruct (f c); [|done]. auto.
Qed.

Lemma lstrip_by_empty f s : PyStr.lstrip_by f s = "" -> all_chars f s = true.
Proof.
  induction s as [|c s IH]; [done|]. cbn.
  destruct (f c); [|done]. auto.
Qed.

(** Characters that go at the end anyway make no difference at the end. *)
Lemma rstrip_by_append_all f s t :
  all_chars f t = true -> PyStr.rstrip_by f (s +:+ t) = PyStr.rstrip_by f s.
Proof.
  intros Ht. induction s as [|c s IH].
  - by apply rstrip_by_all.
  - rewrite append_cons. cbn. by rewrite IH.
Qed.

Lemma lstrip_by_append f s t :
  all_chars f t = true ->
  PyStr.lstrip_by f (s +:+ t) =
    if all_chars f s then "" else PyStr.lstrip_by f s +:+ t.
Proof.
  intros Ht. induction s as [|c s IH].
  - by apply lstrip_by_all.
  - rewrite append_cons. cbn. destruct (f c); [done|]. cbn.
    by rewrite append_cons.
Qed.

Lemma strip_chars_append_all chars s t :
  all_chars (fun c => PyStr.mem c chars) t = true ->
  PyText.strip_chars chars (s +:+ t) = PyText.strip_chars chars s.
Proof.
  intros Ht. unfold PyText.strip_chars. rewrite lstrip_by_append by done.
  destruct (all_chars _ s) eqn:Hs.
  - by rewrite lstrip_by_all.
  - by apply rstrip_by_append_all.
Qed.

(** Stripping leaves alone a string none of whose characters it strips. *)
Lemma lstrip_by_none f s :
  all_chars (fun c => negb (f c)) s = true -> PyStr.lstrip_by f s = s.
Proof.
  destruct s as [|c s]; [done|]. cbn.
  rewrite andb_true_iff, negb_true_iff. by intros [-> _].
Qed.

Lemma rstrip_by_none f s :
  all_chars (fun c => negb (f c)) s = true -> PyStr.rstrip_by f s = s.
Proof.
  induction s as [|c s IH]; [done|]. cbn.
  rewrite andb_true_iff, negb_true_iff. intros [Hc Hs].
  rewrite IH, Hc by done. by destruct s.
Qed.

Lemma mem_all_chars c s :
  PyStr.mem c s = false <-> all_chars (fun d => negb (Ascii.eqb d c)) s = true.
Proof.
  induction s as [|d s IH]; [done|]. cbn.
  rewrite orb_false_iff, andb_true_iff, negb_true_iff, IH, (Ascii.eqb_sym c d).
  done.
Qed.

(** A string without the separator is one segment. *)
Lemma split_none c s : PyStr.mem c s = false -> PyStr.split c s = [s].
Proof.
  induction s as [|d s IH]; [done|]. cbn.
  rewrite orb_false_iff, (Ascii.eqb_sym c d). intros [-> Hs].
  by rewrite IH.
Qed.

(** Something without a separator, put at the end, goes to the last
    segment. *)
Lemma split_append c s t :
  PyStr.mem c t = false ->
  exists init l,
    PyStr.split c s = (init ++ [l])%list /\
    PyStr.split c (s +:+ t) = (init ++ [l +:+ t])%list.
Proof.
  intros Ht. induction s as [|d s (init & l & Hs & Hst)].
  - exists [], "". cbn. by rewrite split_none.
  - rewrite append_cons. cbn. rewrite Hs, Hst. destruct (Ascii.eqb d c).
    + by exists ("" :: init), l.
    + destruct init as [|i init]; cbn.
      * by exists [], (String d l).
      * by exists (String d i :: init), l.
Qed.

Lemma last_split_append c s t :
  PyStr.mem c t = false ->
  List.last (PyStr.split c (s +:+ t)) "" = List.last (PyStr.split c s) "" +:+ t.
Proof.
  intros Ht. destruct (split_append c s t Ht) as (init & l & -> & ->).
  by rewrite !List.last_last.
Qed.

(** What follows the last separator does not depend on what comes before
    a separator. *)
Lemma last_split_after c s t :
  List.last (PyStr.split c (s +:+ String c t)) "" = List.last (PyStr.split c t) "".
Proof.
  induction s as [|d s IH].
  - change ("" +:+ String c t) with (String c t). cbn [PyStr.split].
    rewrite Ascii.eqb_refl.
    by destruct (split_head c t) as (p & ps & ? & -> & _).
  - rewrite append_cons. cbn [PyStr.split].
    destruct (split_head c (s +:+ String c t)) as (p & ps & ? & Hp & _).
    destruct (split_second c (s +:+ String c t)) as [y Hy].
    { rewrite mem_append. cbn [PyStr.mem]. by rewrite Ascii.eqb_refl, orb_true_r. }
    rewrite Hp in *. destruct ps as [|p' ps]; [done|].
    by destruct (Ascii.eqb d c).
Qed.

(** A line without a line break in it, and its newline, is one line. *)
Lemma splitlines_line l rest :
  all_chars (fun c => negb (PyText.is_linebreak c)) l = true ->
  PyText.splitlines (l +:+ String "010" rest) = l :: PyText.splitlines rest.
Proof.
  induction l as [|c l IH].
  - intros _. cbn. by destruct rest.
  - cbn [all_chars]. rewrite andb_true_iff, negb_true_iff. intros [Hc Hl].
    rewrite append_cons. cbn [PyText.splitlines]. by rewrite Hc, IH.
Qed.
End more_strings.

(** ** The queries *)

Import RcloneQueries.

(** [_run_command], as one equation. *)
Lemma run_command_eq os args timeout self :
  _run_command os args timeout self =
    if bool_decide (rclone_path self = "") then
      (Return (Captured false "Ruta de rclone no configurada" "" ""), self)
    else
      (Return (command_result timeout
                 (os_run os (trace self) (rclone_path self :: args) timeout)),
       Runner (rclone_path self) (_running_processes self)
              (trace self ++ [EvRun (rclone_path self :: args) timeout])).
Proof.
  unfold _run_command. unfold bind at 1. unfold get at 1. cbn beta iota zeta.
  case_bool_decide as Hpath; [done|].
  monad_step. cbn [app]. rewrite subprocess_run_eq.
  destruct (os_run os (trace self) _ timeout) as [e|p]; cbn; [|done].
  by destruct (exn_timeout e).
Qed.

(** The lines [rclone listremotes] prints for plain names. *)
Lemma splitlines_listing names :
  Forall (fun name => plain_name name = true) names ->
  PyText.splitlines (listing names) = (fun name => name +:+ ":") <$> names.
Proof.
  induction 1 as [|name names Hname _ IH]; [done|].
  cbn [listing foldr fmap list_fmap]. fold (listing names).
  change (name +:+ ":
" +:+ listing names)
    with (name +:+ String ":" (String "010" (listing names))).
  replace (name +:+ String ":" (String "010" (listing names)))
    with ((name +:+ ":") +:+ String "010" (listing names))
    by (by rewrite append_assoc).
  rewrite splitlines_line, IH; [done|].
  rewrite all_chars_append, andb_true_iff. split; [|done].
  revert Hname. unfold plain_name. apply all_chars_impl.
  intros c. rewrite andb_true_iff. by intros [? _].
Qed.

Lemma all_chars_both f s :
  all_chars f s = true -> all_chars (fun c => negb (f c)) s = true -> s = "".
Proof.
  destruct s as [|c s]; [done|]. cbn [all_chars].
  rewrite !andb_true_iff, negb_true_iff. intros [? _] [? _]. congruence.
Qed.

(** Only white space strips to nothing. *)
Lemma strip_empty s : PyStr.strip s = "" -> all_chars PyStr.isspace s = true.
Proof.
  unfold PyStr.strip. intros Hs%rstrip_by_empty. revert Hs.
  induction s as [|c s IH]; [done|]. cbn.
  destruct (PyStr.isspace c) eqn:Hc; [auto|].
  cbn. by rewrite Hc.
Qed.

Lemma plain_name_colon_kept name :
  plain_name name = true ->
  negb (bool_decide (PyStr.strip (name +:+ ":") = "")) = true /\
  PyText.strip_chars ":" (name +:+ ":") = name.
Proof.
  intros Hname. split.
  - apply negb_true_iff, bool_decide_eq_false_2. intros Hblank.
    apply strip_empty in Hblank. rewrite all_chars_append in Hblank.
    by rewrite andb_comm in Hblank.
  - assert (all_chars (fun c => negb (PyStr.mem c ":")) name = true) as Hno.
    { revert Hname. unfold plain_name. apply all_chars_impl.
      intros c. rewrite andb_true_iff. intros [_ Hc]. cbn.
      by rewrite orb_false_r. }
    unfold PyText.strip_chars. rewrite lstrip_by_append by done.
    destruct (all_chars (fun c => PyStr.mem c ":") name) eqn:Hall.
    + by rewrite (all_chars_both _ _ Hall Hno).
    + rewrite lstrip_by_none by done.
      rewrite rstrip_by_append_all by done. by apply rstrip_by_none.
Qed.

Lemma names_of_lines names :
  Forall (fun name => plain_name name = true) names ->
  PyText.strip_chars ":" <$>
    List.filter (fun r => negb (bool_decide (PyStr.strip r = "")))
                ((fun name => name +:+ ":") <$> names) = names.
Proof.
  induction 1 as [|n ns Hn _ IH]; [done|].
  destruct (plain_name_colon_kept n Hn) as [Hkeep Hstrip].
  cbn [fmap list_fmap List.filter]. rewrite Hkeep.
  cbn [fmap list_fmap]. rewrite Hstrip. f_equal. exact IH.
Qed.

#[local] Arguments listing : simpl never.
#[local] Arguments PyText.splitlines : simpl never.

(** X3: [list_remotes] gives back the names [rclone listremotes] printed:
    when the command exits with 0 and prints each name followed by a
    colon and a newline, for names with no colon and no line break in
    them, the result is the list of these names, in order. *)
Theorem list_remotes_names os self names err :
  rclone_path self <> "" ->
  Forall (fun name => plain_name name = true) names ->
  os_run os (trace self) [rclone_path self; "listremotes"] (Some 10) =
    inr (CompletedProcess 0 (listing names) err) ->
  (list_remotes os self).1 = Return names.
Proof.
  intros Hpath Hnames Hrun. unfold list_remotes, try_except, bind.
  rewrite run_command_eq, bool_decide_eq_false_2, Hrun by done. cbn.
  rewrite (bool_decide_eq_true_2 (0 = 0)) by done. cbn [andb].
  case_bool_decide as Hout; cbn.
  { destruct names as [|name names]; [done|].
    unfold listing in Hout. cbn [foldr] in Hout. by destruct name. }
  f_equal. rewrite splitlines_listing by done. by apply names_of_lines.
Qed.

Lemma list_remotes_names_witness :
  rclone_path Examples.configured <> "" /\
  Forall (fun name => plain_name name = true) ["gdrive"; "box"] /\
  (list_remotes MoreExamples.two_remotes Examples.configured).1 =
    Return ["gdrive"; "box"].
Proof.
  assert (Hpath : rclone_path Examples.configured <> "") by discriminate.
  assert (Hnames : Forall (fun name => plain_name name = true) ["gdrive"; "box"])
    by (repeat constructor).
  split; [exact Hpath|]. split; [exact Hnames|].
  exact (list_remotes_names MoreExamples.two_remotes Examples.configured
           ["gdrive"; "box"] "" Hpath Hnames eq_refl).
Defined.

(** X4: [list_remotes] never raises, and it gives the empty list, the
    same as for no remotes, whenever no path is set, the command cannot
    be run or times out, it exits with another code than 0, or it prints
    nothing. *)
Theorem list_remotes_returns os self :
  exists names self',
    list_remotes os self = (Return names, self') /\
    (rclone_path self = "" -> names = [] /\ self' = self) /\
    (match os_run os (trace self) [rclone_path self; "listremotes"] (Some 10) with
     | inl _ => True
     | inr p => returncode p <> 0 \/ stdout p = ""
     end -> names = []).
Proof.
  unfold list_remotes, try_except, bind. rewrite run_command_eq.
  case_bool_decide as Hpath; cbn.
  { eexists _, _. split; [reflexivity|]. split; [done|]. done. }
  destruct (os_run os (trace self) _ (Some 10)) as [e|p]; cbn.
  - destruct (exn_timeout e); cbn; eexists _, _;
      (split; [reflexivity|]); split; done.
  - destruct (bool_decide (returncode p = 0)) eqn:Hrc; cbn.
    + destruct (bool_decide (stdout p = "")) eqn:Hout; cbn;
        eexists _, _; (split; [reflexivity|]); (split; [done|]); [done|].
      apply bool_decide_eq_true_1 in Hrc. apply bool_decide_eq_false_1 in Hout.
      by intros [?|?].
    + eexists _, _. split; [reflexivity|]. split; done.
Qed.

(** X5: [get_version] never raises.  With no path set it answers with the
    error of [_run_command] and runs nothing; when the command exits with
    0 it answers with the first line of what was printed, and with
    [Error: list index out of range] when nothing was printed; otherwise
    it answers [Error: ] followed by stderr, by the message of the
    exception, or by the message of the timeout of 5 seconds. *)
Theorem get_version_returns os self :
  exists version self',
    get_version os self = (Return version, self') /\
    (rclone_path self = "" ->
       version = "Error: Ruta de rclone no configurada" /\ self' = self) /\
    (rclone_path self <> "" ->
       match os_run os (trace self) [rclone_path self; "version"] (Some 5) with
       | inl e =>
           version = "Error: " +:+
                     (if exn_timeout e then "Tiempo de espera agotado (5s)"
                      else exn_str e)
       | inr p =>
           if bool_decide (returncode p = 0) then
             version = from_option id "Error: list index out of range"
                         (head (PyText.splitlines (stdout p)))
           else version = "Error: " +:+ stderr p
       end).
Proof.
  unfold get_version, try_except, bind. rewrite run_command_eq.
  case_bool_decide as Hpath; cbn.
  { eexists _, _. split; [reflexivity|]. split; done. }
  destruct (os_run os (trace self) _ (Some 5)) as [e|p]; cbn.
  - destruct (exn_timeout e); cbn; eexists _, _;
      (split; [reflexivity|]); split; done.
  - destruct (bool_decide (returncode p = 0)) eqn:Hrc; cbn.
    + unfold index. destruct (PyText.splitlines (stdout p)) as [|l ls]; cbn;
        eexists _, _; (split; [reflexivity|]); split; done.
    + apply bool_decide_eq_false_1 in Hrc.
      rewrite (bool_decide_eq_true_2 _ Hrc).
      eexists _, _. split; [reflexivity|]. split; done.
Qed.

Example get_version_nothing_printed :
  (get_version MoreExamples.silent Examples.configured).1 =
    Return "Error: list index out of range".
Proof. reflexivity. Qed.

(** ** Integers in decimal *)

Section decimal.
Local Open Scope N_scope.

Lemma is_nat_pretty_N_char x :
  x < 10 -> Ascii.is_nat (pretty_N_char x) = Some (N.to_nat x).
Proof.
  intros Hx.
  assert (x = 0 \/ x = 1 \/ x = 2 \/ x = 3 \/ x = 4 \/ x = 5 \/ x = 6 \/
          x = 7 \/ x = 8 \/ x = 9) as Hcases by lia.
  repeat (destruct Hcases as [->|Hcases]; [reflexivity|]). by subst.
Qed.

(** Reading back what [pretty] wrote, digit by digit. *)
Lemma int_digits_pretty_N_go x : forall rest after_digit,
  0 < x ->
  PyText.int_digits 0 after_digit (pretty_N_go x rest) =
    PyText.int_digits (Z.of_N x) true rest.
Proof.
  induction (N.lt_wf_0 x) as [x _ IH]. intros rest after_digit Hx.
  rewrite pretty_N_go_step by done.
  assert (x mod 10 < 10) as Hmod by (by apply N.mod_lt).
  assert (x = 10 * (x / 10) + x mod 10) as Hdiv by (by apply N.div_mod).
  destruct (decide (x / 10 = 0)) as [Hzero|Hpos].
  - rewrite Hzero, pretty_N_go_0. cbn [PyText.int_digits].
    rewrite is_nat_pretty_N_char by done. f_equal. lia.
  - rewrite IH; [|apply N.div_lt; lia | lia].
    cbn [PyText.int_digits]. rewrite is_nat_pretty_N_char by done.
    f_equal. lia.
Qed.

Lemma all_chars_pretty_N_go f x : forall rest,
  (forall y, y < 10 -> f (pretty_N_char y) = true) ->
  all_chars f rest = true ->
  all_chars f (pretty_N_go x rest) = true.
Proof.
  induction (N.lt_wf_0 x) as [x _ IH]. intros rest Hf Hrest.
  destruct (decide (x = 0)) as [->|Hx]; [by rewrite pretty_N_go_0|].
  rewrite pretty_N_go_step by lia. apply IH; [apply N.div_lt; lia | done |].
  cbn. rewrite Hf, Hrest; [done|]. by apply N.mod_lt.
Qed.

Lemma int_char_pretty_N_char y : y < 10 -> int_char (pretty_N_char y) = true.
Proof.
  intros Hy. unfold int_char.
  by rewrite is_nat_pretty_N_char, bool_decide_eq_true_2 by eauto.
Qed.
End decimal.

Lemma all_chars_pretty_Z (n : Z) : all_chars int_char (pretty n) = true.
Proof.
  destruct n as [|p|p]; [done|..].
  - change (pretty (Z.pos p)) with (pretty_N_go (N.pos p) "").
    by apply all_chars_pretty_N_go; [apply int_char_pretty_N_char|].
  - change (pretty (Z.neg p)) with ("-" +:+ pretty_N_go (N.pos p) "").
    rewrite all_chars_append.
    by rewrite all_chars_pretty_N_go; [|apply int_char_pretty_N_char|].
Qed.

(** What the characters of an integer are not. *)
Lemma int_char_plain c :
  int_char c = true ->
  PyText.int_space c = false /\ PyStr.mem c "__ 
" = false /\ Ascii.eqb c ":" = false /\ Ascii.eqb c "+" = false.
Proof. destruct c as [[] [] [] [] [] [] [] []]; by vm_compute. Qed.

(** [int(str(n)) == n]. *)
Lemma int_pretty (n : Z) : PyText.int (pretty n) = Some n.
Proof.
  unfold PyText.int.
  assert (all_chars (fun c => negb (PyText.int_space c)) (pretty n) = true) as Hsp.
  { eapply all_chars_impl; [|apply all_chars_pretty_Z].
    intros c [-> _]%int_char_plain. done. }
  rewrite lstrip_by_none, rstrip_by_none by done.
  destruct n as [|p|p]; [done|..].
  - change (pretty (Z.pos p)) with (pretty_N_go (N.pos p) "").
    pose proof (int_digits_pretty_N_go (N.pos p) "" false eq_refl) as Hread.
    pose proof (all_chars_pretty_N_go
                  (fun c => bool_decide (is_Some (Ascii.is_nat c))) (N.pos p) "")
      as Hdigits.
    destruct (pretty_N_go (N.pos p) "") as [|c s]; [done|].
    cbn [all_chars] in Hdigits.
    destruct (Ascii.is_nat c) as [d|] eqn:Hc.
    + clear Hdigits Hsp. revert Hread.
      destruct c as [[] [] [] [] [] [] [] []]; try discriminate Hc;
        intros Hread; exact Hread.
    + rewrite bool_decide_eq_false_2 in Hdigits by (by intros [? ?]).
      discriminate Hdigits; [|done]. intros y Hy.
      by rewrite is_nat_pretty_N_char, bool_decide_eq_true_2 by eauto.
  - change (pretty (Z.neg p)) with (String "-" (pretty_N_go (N.pos p) "")).
    cbv beta iota.
    by rewrite (int_digits_pretty_N_go (N.pos p) "" false eq_refl).
Qed.

(** ** The markers, read back *)

Import StartTransfer.

(** What [process_output] takes as the text of a return-code marker. *)
Lemma marker_text_return_code (n : Z) :
  marker_text (render (ReturnCode n)) = pretty n.
Proof.
  unfold marker_text, render.
  change ("__RETURN_CODE:" +:+ pretty n +:+ "__")
    with ("__RETURN_CODE" +:+ String ":" (pretty n +:+ "__")).
  rewrite last_split_after, last_split_append by done.
  rewrite split_none.
  - cbn [List.last]. rewrite strip_chars_append_all by done.
    unfold PyText.strip_chars.
    assert (all_chars (fun c => negb (PyStr.mem c "__ 
")) (pretty n) = true) as Hclean.
    { eapply all_chars_impl; [|apply all_chars_pretty_Z].
      intros c (_ & -> & _)%int_char_plain. done. }
    by rewrite lstrip_by_none, rstrip_by_none.
  - apply mem_all_chars. eapply all_chars_impl; [|apply all_chars_pretty_Z].
    intros c (_ & _ & -> & _)%int_char_plain. done.
Qed.

(** What [process_output] takes as the text of an error marker. *)
Lemma marker_text_error message :
  marker_text (render (Error message)) =
    PyText.strip_chars "__ 
" (List.last (PyStr.split ":" message) "").
Proof.
  unfold marker_text, render.
  change ("__ERROR:" +:+ message +:+ "__")
    with ("__ERROR" +:+ String ":" (message +:+ "__")).
  rewrite last_split_after, last_split_append by done.
  by rewrite strip_chars_append_all.
Qed.

Lemma return_code_shown (n : Z) :
  process_output true (render (ReturnCode n)) = [ProgressFinished n].
Proof.
  unfold process_output. cbn [negb].
  assert (PyStr.startswith "__RETURN_CODE:" (render (ReturnCode n)) = true) as ->
    by (apply prefix_true; by eexists).
  by rewrite marker_text_return_code, int_pretty.
Qed.

Lemma error_message_shown m :
  process_output true (render (Error m)) =
    [ProgressError (PyText.strip_chars "__ 
" (List.last (PyStr.split ":" m) ""))].
Proof.
  unfold process_output. cbn [negb].
  change (PyStr.startswith "__RETURN_CODE:" (render (Error m))) with false.
  assert (PyStr.startswith "__ERROR:" (render (Error m)) = true) as ->
    by (apply prefix_true; by eexists).
  by rewrite marker_text_error.
Qed.

(** X6: the exit code comes through: for every exit code, what
    [process_output] makes of the return-code marker the runner builds
    for it is the event that the transfer finished with that code. *)
Theorem return_code_read_back (n : Z) :
  process_output true (render (ReturnCode n)) = [ProgressFinished n].
Proof. apply return_code_shown. Qed.

(** X7: of the message of an error marker, [process_output] shows what
    follows its last colon, without the underscores, blanks and newlines
    at its ends.  So whatever precedes a colon in the message is lost,
    and a message without a colon that stripping does not change is
    shown as it is. *)
Theorem error_message_read_back message :
  process_output true (render (Error message)) =
    [ProgressError (PyText.strip_chars "__ 
" (List.last (PyStr.split ":" message) ""))] /\
  (forall before,
     process_output true (render (Error (before +:+ ":" +:+ message))) =
     process_output true (render (Error message))) /\
  (PyStr.mem ":" message = false ->
   PyText.strip_chars "__ 
" message = message ->
   process_output true (render (Error message)) = [ProgressError message]).
Proof.
  pose proof error_message_shown as Hshown.
  split; [apply Hshown|]. split.
  - intros before. rewrite !Hshown.
    change (before +:+ ":" +:+ message) with (before +:+ String ":" message).
    by rewrite last_split_after.
  - intros Hcolon Hclean. rewrite Hshown, split_none by done.
    cbn [List.last]. by rewrite Hclean.
Qed.

Example missing_binary_shown :
  process_output true (render (Error MoreExamples.no_such_file)) =
    [ProgressError "'rclone'"].
Proof. reflexivity. Qed.

Lemma ui_actions_app winfo_exists ds1 ds2 :
  ui_actions winfo_exists (ds1 ++ ds2) =
    (ui_actions winfo_exists ds1 ++ ui_actions winfo_exists ds2)%list.
Proof. unfold ui_actions. by rewrite fmap_app, join_app. Qed.

Lemma ui_actions_one winfo_exists d :
  ui_actions winfo_exists [d] = process_output winfo_exists (render d).
Proof. unfold ui_actions. cbn. by rewrite app_nil_r. Qed.

(** What a callback that returns is called with by a streaming worker
    that finds the path set. *)
Lemma streaming_deliveries os args process_id (callback : sink) self :
  (forall before x, callback before x = None) ->
  rclone_path self <> "" ->
  deliveries (trace (run_worker
      (_run_process_with_output os args process_id (Some callback)) self)) =
    (deliveries (trace self) ++
     match os_Popen os (trace self) (rclone_path self :: args) with
     | inl e => [Error (exn_str e)]
     | inr p =>
         (Output <$> proc_stdout p) ++
         [match proc_stdout_error p with
          | None => ReturnCode (proc_returncode p)
          | Some e => Error (exn_str e)
          end]
     end)%list.
Proof.
  intros Hcb Hpath. unfold run_worker.
  rewrite run_process_with_output_start by done.
  destruct (os_Popen os (trace self) (rclone_path self :: args)) as [e|p].
  - rewrite streaming_handler_eq by done. cbn.
    by rewrite !deliveries_app, app_nil_r.
  - cbn [resume_worker]. rewrite streaming_body_eq by done. cbn.
    rewrite !deliveries_app, deliveries_outputs. cbn.
    rewrite app_nil_r. by destruct (proc_stdout_error p).
Qed.

Lemma process_output_plain line :
  marker_like line = false ->
  List.filter closing (process_output true line) = [].
Proof.
  unfold marker_like, process_output. intros [-> ->]%orb_false_elim. cbn [negb].
  case_bool_decide; [done|]. by destruct (PyStr.contains "Transferred:" line).
Qed.

Lemma ui_actions_plain lines :
  (forall line, line ∈ lines -> marker_like line = false) ->
  List.filter closing (ui_actions true (Output <$> lines)) = [].
Proof.
  induction lines as [|line lines IH]; intros Hplain; [done|].
  change (Output <$> line :: lines) with ([Output line] ++ (Output <$> lines))%list.
  rewrite ui_actions_app, ui_actions_one, List.filter_app.
  rewrite process_output_plain by (apply Hplain; left).
  apply IH. intros l Hl. apply Hplain. by right.
Qed.

(** X8: a transfer, from the spawn to the window, among other threads
    that do not remove its identifier: with the path set, [process_output]
    as the callback of a window that is there, and a child that prints no
    line that starts like a marker, the main loop is handed what
    [process_output] makes of each line of output, in order, and then
    exactly one closing event, the last: that the transfer finished with
    the exit code of the process when its output was read to the end, and
    otherwise the error, read back from its marker. *)
Theorem transfer_reaches_window os args process_id (others : interference) self :
  let tested := others 0%nat self in
  let built := others 1%nat tested in
  let spawned := others 2%nat built in
  rclone_path tested <> "" ->
  never_removes others process_id ->
  (forall p line,
     os_Popen os (trace spawned) (rclone_path built :: args) = inr p ->
     line ∈ proc_stdout p -> marker_like line = false) ->
  exists shown last,
    ui_actions true (deliveries (out_events (interleaved others 0
        (Stepwise._run_process_with_output os args process_id
           (Some process_output_sink)) self))) = (shown ++ [last])%list /\
    List.filter closing (shown ++ [last]) = [last] /\
    match os_Popen os (trace spawned) (rclone_path built :: args) with
    | inl e =>
        shown = [] /\
        last = ProgressError (PyText.strip_chars "__ 
" (List.last (PyStr.split ":" (exn_str e)) ""))
    | inr p =>
        shown = ui_actions true (Output <$> proc_stdout p) /\
        last = match proc_stdout_error p with
               | None => ProgressFinished (proc_returncode p)
               | Some e =>
                   ProgressError (PyText.strip_chars "__ 
" (List.last (PyStr.split ":" (exn_str e)) ""))
               end
    end.
Proof.
  intros tested built spawned Hpath Hothers Hplain.
  destruct (streaming_interleaved os args process_id process_output_sink others self
              (fun _ _ => eq_refl) Hpath)
    as (again & _ & Hnone & ->).
  rewrite (Hnone Hothers). fold tested built spawned.
  destruct (os_Popen os (trace spawned) (rclone_path built :: args)) as [e|p].
  - exists [], (ProgressError (PyText.strip_chars "__ 
" (List.last (PyStr.split ":" (exn_str e)) ""))).
    split; [|done]. rewrite ui_actions_one. apply error_message_shown.
  - eexists (ui_actions true (Output <$> proc_stdout p)), _.
    split; [|split; [|split; reflexivity]].
    + rewrite ui_actions_app. f_equal.
      destruct (proc_stdout_error p) as [e|]; rewrite ui_actions_one.
      * apply error_message_shown.
      * apply return_code_shown.
    + rewrite List.filter_app, ui_actions_plain by eauto.
      by destruct (proc_stdout_error p).
Qed.

Lemma transfer_reaches_window_witness :
  rclone_path (Races.cancel_before 5 "transfer_20240517092900" 0%nat
                 Examples.configured) <> "" /\
  never_removes (Races.cancel_before 5 "transfer_20240517092900")
    "transfer_20240517093000" /\
  (forall line, line ∈ proc_stdout Examples.child -> marker_like line = false) /\
  ui_actions true (deliveries (out_events (interleaved
      (Races.cancel_before 5 "transfer_20240517092900") 0
      (Stepwise._run_process_with_output Examples.linux
         ["copy"; "a"; "b:"; "--progress"] "transfer_20240517093000"
         (Some process_output_sink)) Examples.configured))) =
    [AppendOutput "Transferred: 1 / 2, 50%
"; UpdateMetrics "Transferred: 1 / 2, 50%
"; AppendOutput "done
"; ProgressFinished 0].
Proof.
  assert (Hpath : rclone_path (Races.cancel_before 5 "transfer_20240517092900" 0%nat
                                 Examples.configured) <> "") by discriminate.
  assert (Hothers : never_removes (Races.cancel_before 5 "transfer_20240517092900")
                      "transfer_20240517093000")
    by (by apply cancel_other_never_removes).
  assert (Hplain : forall line,
            line ∈ proc_stdout Examples.child -> marker_like line = false).
  { intros line Hline. apply list_elem_of_In in Hline. cbn in Hline.
    destruct Hline as [<-|[<-|[]]]; reflexivity. }
  split; [exact Hpath|]. split; [exact Hothers|]. split; [exact Hplain|].
  destruct (transfer_reaches_window Examples.linux ["copy"; "a"; "b:"; "--progress"]
              "transfer_20240517093000" (Races.cancel_before 5 "transfer_20240517092900")
              Examples.configured Hpath Hothers)
    as (shown & last & -> & _ & -> & ->).
  - intros p line [= <-]. apply Hplain.
  - reflexivity.
Defined.

(** A line of output that starts like a marker is taken for one. *)
Example output_line_taken_for_marker :
  ui_actions true (deliveries (out_events (interleaved alone 0
      (Stepwise._run_process_with_output Races.marker_machine
         ["copy"; "a"; "b:"; "--progress"] "transfer_20240517093000"
         (Some process_output_sink)) Examples.configured))) =
    [ProgressFinished 7; ProgressFinished 0].
Proof. reflexivity. Qed.

(** A transfer cancelled between the last test and the removal is shown
    as finished and then as failed. *)
Example cancelled_late_reaches_window :
  ui_actions true (deliveries (out_events (interleaved
      (Races.cancel_before 9 "transfer_20240517093000") 0
      (Stepwise._run_process_with_output Examples.linux
         ["copy"; "a"; "b:"; "--progress"] "transfer_20240517093000"
         (Some process_output_sink)) Examples.configured))) =
    [AppendOutput "Transferred: 1 / 2, 50%
"; UpdateMetrics "Transferred: 1 / 2, 50%
"; AppendOutput "done
"; ProgressFinished 0; ProgressError "'transfer_20240517093000'"].
Proof. reflexivity. Qed.

(** ** The command that is shown *)






Import App.








(** ** NCDU, drive letters, and when the bar moves *)

(** X10: [run_ncdu] never raises and has no guard for a path that is not
    set: it always asks for the spawn of the path, [ncdu] and the remote.
    When the spawn is accepted it registers the process under the
    identifier it returns; when it is refused it reports the failure and
    registers nothing. *)
Theorem run_ncdu_returns os now remote_path self :
  exists r self',
    run_ncdu os now remote_path self = (Return r, self') /\
    rclone_path self' = rclone_path self /\
    trace self' = (trace self ++ [EvPopen [rclone_path self; "ncdu"; remote_path]])%list /\
    match os_Popen os (trace self) [rclone_path self; "ncdu"; remote_path] with
    | inr p =>
        r = Launched ("ncdu_" +:+ strftime_YmdHMS now)
                     [rclone_path self; "ncdu"; remote_path] "iniciado" /\
        _running_processes self' =
          <["ncdu_" +:+ strftime_YmdHMS now := p]> (_running_processes self)
    | inl e =>
        r = Status false ("Error al iniciar NCDU: " +:+ exn_str e) /\
        _running_processes self' = _running_processes self
    end.
Proof.
  unfold run_ncdu. monad_step. cbn [app]. rewrite Popen_eq.
  destruct (os_Popen os (trace self) _) as [e|p]; cbn.
  - eexists _, _. split; [reflexivity|]. done.
  - rewrite register_eq. cbn. eexists _, _. split; [reflexivity|]. done.
Qed.

Example run_ncdu_unconfigured :
  run_ncdu Examples.no_binary Examples.morning "gdrive:" Examples.unconfigured =
    (Return (Status false
       "Error al iniciar NCDU: [Errno 2] No such file or directory: 'rclone'"),
     Runner "" ∅ [EvPopen [""; "ncdu"; "gdrive:"]]).
Proof. reflexivity. Qed.

(** X11: on Windows, for an identifier that is not registered, [unmount]
    of a drive letter followed by any colons and backslashes runs
    [net use <letter>: /delete /y] and reports its outcome. *)
Theorem unmount_drive_letter os letter rest process_id self :
  platform_system os = "Windows" ->
  match process_id with
  | Some pid => pid = "" \/ _running_processes self !! pid = None
  | None => True
  end ->
  PyStr.mem letter "\:" = false ->
  all_chars (fun c => PyStr.mem c "\:") rest = true ->
  unmount os (String letter rest) process_id self =
    (Return (reported (os_run os (trace self)
                         ["net"; "use"; String letter ":"; "/delete"; "/y"] None)),
     Runner (rclone_path self) (_running_processes self)
            (trace self ++
             [EvRun ["net"; "use"; String letter ":"; "/delete"; "/y"] None])).
Proof.
  intros Hwin Hpid Hletter Hrest. rewrite unmount_fallback_eq by done.
  rewrite bool_decide_eq_true_2 by done.
  assert (PyStr.rstrip "\:" (String letter rest) = String letter "") as ->.
  { unfold PyStr.rstrip.
    change (String letter rest) with (String letter "" +:+ rest).
    rewrite rstrip_by_append_all by done.
    apply rstrip_by_none. cbn [all_chars]. by rewrite Hletter. }
  by rewrite bool_decide_eq_true_2.
Qed.

Lemma unmount_drive_letter_witness :
  platform_system (OsEnv (fun _ _ => inr Examples.child)
                     (fun _ _ _ => inr (CompletedProcess 0 "" "")) "Windows")
    = "Windows" /\
  unmount (OsEnv (fun _ _ => inr Examples.child)
             (fun _ _ _ => inr (CompletedProcess 0 "" "")) "Windows")
    "Z:\" None Examples.configured =
    (Return (Status true ""),
     Runner "rclone" ∅ [EvRun ["net"; "use"; "Z:"; "/delete"; "/y"] None]).
Proof.
  split; [reflexivity|].
  exact (unmount_drive_letter
           (OsEnv (fun _ _ => inr Examples.child)
              (fun _ _ _ => inr (CompletedProcess 0 "" "")) "Windows")
           "Z" ":\" None Examples.configured eq_refl I eq_refl eq_refl).
Defined.

(** A directory is no drive letter: nothing is run for it. *)
Example unmount_windows_directory :
  unmount (OsEnv (fun _ _ => inr Examples.child)
             (fun _ _ _ => inr (CompletedProcess 0 "" "")) "Windows")
    "C:\mnt" None Examples.configured =
    (Return (Status false "No se pudo desmontar el punto de montaje"),
     Examples.configured).
Proof. reflexivity. Qed.

(** X12: the status line and the progress bar are written only for a
    line whose first segment has [Transferred:] and whose second segment
    has [Speed:]: for any other line they stay as they were, whatever
    else the line holds (a percentage, say). *)
Theorem bar_needs_transferred_and_speed {float} (py_float : string -> option float)
    line winfo_exists (t : tab float) :
  labelled "Transferred:" (PyStr.split "," (PyStr.strip line) !! 0%nat) = None \/
  labelled "Speed:" (PyStr.split "," (PyStr.strip line) !! 1%nat) = None ->
  let t' := updated py_float line winfo_exists t in
  transfer_status t' = transfer_status t /\
  progress_bar_mode t' = progress_bar_mode t /\
  progress_bar_running t' = progress_bar_running t /\
  progress_bar_value t' = progress_bar_value t.
Proof.
  intros Hmissing. cbv zeta. destruct winfo_exists; [|done].
  unfold updated, _update_progress_metrics. cbn [negb]. cbv zeta.
  set (parts := PyStr.split "," (PyStr.strip line)) in *.
  assert (parts <> []) as Hparts.
  { subst parts. by destruct (split_head "," (PyStr.strip line))
      as (? & ? & ? & -> & _). }
  erewrite try_except_bind_return by (by apply transferred_block_eq).
  erewrite try_except_bind_return by apply speed_block_eq.
  erewrite try_except_bind_return by apply eta_block_eq.
  erewrite try_except_bind_return by apply files_loop_eq.
  unfold try_except, bind, status_block, bind, local.
  destruct Hmissing as [-> | ->].
  - cbn. by destruct (labelled "Speed:" _), (labelled "ETA:" _),
      (labelled "Files:" _).
  - destruct (labelled "Transferred:" _); cbn;
      by destruct (labelled "ETA:" _), (labelled "Files:" _).
Qed.

Lemma bar_needs_transferred_and_speed_witness :
  labelled "Speed:" (PyStr.split "," (PyStr.strip Examples.spec_line) !! 1%nat) = None /\
  progress_bar_mode
    (updated Examples.float_of_digits Examples.spec_line true new_window)
    = Indeterminate /\
  progress_bar_value
    (updated Examples.float_of_digits Examples.spec_line true new_window)
    = None.
Proof.
  assert (Hspeed : labelled "Speed:"
            (PyStr.split "," (PyStr.strip Examples.spec_line) !! 1%nat) = None)
    by reflexivity.
  split; [exact Hspeed|].
  destruct (bar_needs_transferred_and_speed Examples.float_of_digits
              Examples.spec_line true new_window (or_intror Hspeed))
    as (_ & Hmode & _ & Hvalue).
  split; [exact Hmode | exact Hvalue].
Defined.

Section progress_again.
Context {float : Type} (py_float : string -> option float).
Implicit Types (t : tab float) (parts : list string).

Lemma percent_loop_eq parts t :
  percent_loop py_float parts t =
    (Return tt,
     match percent_of py_float parts with
     | Some percent => with_percent percent t
     | None => t
     end).
Proof.
  unfold percent_of. induction parts as [|part parts IH]; [done|]. cbn.
  destruct (PyStr.contains "%" part); [|done].
  unfold try_except. by destruct (py_float _).
Qed.

(** The display after a line, as one expression. *)
Lemma updated_eq line t :
  updated py_float line true t =
    let parts := PyStr.split "," (PyStr.strip line) in
    let fields :=
      written with_files
        (labelled "Files:" (List.find (PyStr.contains "Files:") parts))
        (written with_eta (labelled "ETA:" (parts !! 2%nat))
           (written with_speed (labelled "Speed:" (parts !! 1%nat))
              (written with_transferred
                 (labelled "Transferred:" (parts !! 0%nat)) t))) in
    match labelled "Transferred:" (parts !! 0%nat),
          labelled "Speed:" (parts !! 1%nat) with
    | Some transferred, Some speed =>
        match percent_of py_float parts with
        | Some percent =>
            with_percent percent
              (with_status (transferred +:+ " a " +:+ speed) fields)
        | None => with_status (transferred +:+ " a " +:+ speed) fields
        end
    | _, _ => fields
    end.
Proof.
  cbv zeta. unfold updated, _update_progress_metrics. cbn [negb]. cbv zeta.
  set (parts := PyStr.split "," (PyStr.strip line)).
  assert (parts <> []) as Hparts.
  { subst parts. by destruct (split_head "," (PyStr.strip line))
      as (? & ? & ? & -> & _). }
  erewrite try_except_bind_return by (by apply transferred_block_eq).
  erewrite try_except_bind_return by apply speed_block_eq.
  erewrite try_except_bind_return by apply eta_block_eq.
  erewrite try_except_bind_return by apply files_loop_eq.
  unfold try_except, bind, status_block, bind, local.
  destruct (labelled "Transferred:" _) as [tr|], (labelled "Speed:" _) as [sp|];
    cbn; try done.
  rewrite percent_loop_eq. cbn. by destruct (percent_of py_float parts).
Qed.
End progress_again.

(** X13: a line that comes twice changes nothing the second time: the
    display after processing a line is the same whether the line is
    processed once or twice, whatever the line and the display before. *)
Theorem same_line_twice {float} (py_float : string -> option float)
    line winfo_exists (t : tab float) :
  updated py_float line winfo_exists (updated py_float line winfo_exists t) =
    updated py_float line winfo_exists t.
Proof.
  destruct winfo_exists; [|done]. rewrite !updated_eq. cbv zeta.
  set (parts := PyStr.split "," (PyStr.strip line)).
  destruct t as [tr sp et fi st mode running value].
  destruct (labelled "Transferred:" (parts !! 0%nat)),
    (labelled "Speed:" (parts !! 1%nat)),
    (labelled "ETA:" (parts !! 2%nat)),
    (labelled "Files:" (List.find (PyStr.contains "Files:") parts)),
    (percent_of py_float parts), mode; reflexivity.
Qed.

(** ** Without a path *)

(** X14: once the path is set to the empty string with [set_rclone_path],
    none of the bounded operations runs anything: [get_version],
    [list_remotes], [get_remote_details], [delete_remote] and
    [check_files] all return at once, with the error that the path is not
    configured ([list_remotes] with the empty list), and leave the runner
    as it is. *)
Theorem unconfigured_runs_nothing os remote_name path options self :
  let cleared := (set_rclone_path "" self).2 in
  get_version os cleared =
    (Return "Error: Ruta de rclone no configurada", cleared) /\
  list_remotes os cleared = (Return [], cleared) /\
  get_remote_details os remote_name cleared =
    (Return "Error: Ruta de rclone no configurada", cleared) /\
  delete_remote os remote_name cleared =
    (Return (Status false "Ruta de rclone no configurada"), cleared) /\
  check_files os path options cleared =
    (Return (Captured false "Ruta de rclone no configurada" "" ""), cleared).
Proof.
  cbv zeta. unfold get_version, list_remotes, get_remote_details, delete_remote,
    check_files, try_except, bind.
  by rewrite !run_command_eq.
Qed.
